(** * pumpdotfun-sdk: slippage arithmetic and the create-and-buy orchestrator

    A shallow embedding of [src/util.ts], [src/jito.ts] and the
    transaction-building and submission code of [src/pumpfun.ts].

    - JavaScript [bigint] is [Z]; bigint division truncates towards zero and
      is [Z.quot].
    - A [Transaction] is the list of its instructions, in order. An
      instruction holds its arguments as they are encoded: the [u64]
      arguments of the program's [buy] and [sell] are the magnitudes Anchor
      writes.
    - Library functions that fail on some inputs are modelled with their
      failure where the SDK passes them caller-supplied values unchecked:
      the [u64] arguments, the off-curve check of
      [getAssociatedTokenAddress], [versionedTx.sign], the unit limit of
      the compute budget, the [uri] of a create. The micro-lamport price
      and the lamports of a transfer are taken to fit their [u64] layout.
    - Code running outside these three files (the RPC node, the relay, the
      metadata gateway, [Math.random], the account classes of
      [globalAccount.ts] and [bondingCurveAccount.ts]) is reached through
      typed calls answered by an oracle that sees the whole history of
      earlier calls; every call is recorded in a trace. *)

From Stdlib Require Import ZArith List Lia Bool String Arith DecimalString.
Import ListNotations.

Open Scope Z_scope.

(* ================================================================== *)
(** ** Slippage arithmetic ([src/util.ts], lines 29-41) *)

Module Slippage.

(** [amount + (amount * basisPoints) / 10000n] *)
Definition calculateWithSlippageBuy (amount basisPoints : Z) : Z :=
  amount + Z.quot (amount * basisPoints) 10000.

(** [amount - (amount * basisPoints) / 10000n] *)
Definition calculateWithSlippageSell (amount basisPoints : Z) : Z :=
  amount - Z.quot (amount * basisPoints) 10000.

(** How a call of a JavaScript function ends: with a value, or by throwing. *)
Inductive Completion (A : Type) : Type :=
| Returns (v : A)
| Throws (what : string).
Arguments Returns {A} v.
Arguments Throws {A} what.

(** Both slippage functions are arrow functions whose body is one [return] of
    a bigint expression with a non-zero constant divisor: nothing in them
    throws. *)
Definition calculateWithSlippageSell_call (amount basisPoints : Z)
  : Completion Z :=
  Returns (calculateWithSlippageSell amount basisPoints).

(** Ceiling of [a / b] for positive [b]. *)
Definition cdiv (a b : Z) : Z := - ((- a) / b).

(** The slippage invariant as the specification words it: for a positive
    tolerance the bound is strictly worse than the amount, the buy bound being
    the exact bound rounded up and the sell bound the exact bound rounded
    down. *)
Definition strictly_worse_rounded_away : Prop :=
  forall amount basisPoints : Z,
    0 < basisPoints ->
    amount < calculateWithSlippageBuy amount basisPoints /\
    calculateWithSlippageSell amount basisPoints < amount /\
    calculateWithSlippageBuy amount basisPoints
      = cdiv (amount * (10000 + basisPoints)) 10000 /\
    calculateWithSlippageSell amount basisPoints
      = (amount * (10000 - basisPoints)) / 10000.

(** The underflow rule as the specification words it: when the slippage
    margin exceeds the amount, the sell bound is an error, not a number. *)
Definition sell_underflow_is_an_error : Prop :=
  forall amount basisPoints : Z,
    amount < (amount * basisPoints) / 10000 ->
    exists what, calculateWithSlippageSell_call amount basisPoints = Throws what.

End Slippage.

(* ================================================================== *)
(** ** JavaScript values *)

Module Js.

(** A parsed JSON value. An object is the list of its fields. *)
#[warnings="-register-all"]
Inductive Json : Type :=
| JNull
| JBool (b : bool)
| JNum (z : Z)
| JStr (s : string)
| JArr (items : list Json)
| JObj (fields : list (string * Json)).

(** JavaScript truthiness of a JSON value, as tested by [if (v)]. *)
Definition truthy (v : Json) : bool :=
  match v with
  | JNull => false
  | JBool b => b
  | JNum z => negb (z =? 0)
  | JStr s => negb (s =? "")%string
  | JArr _ => true
  | JObj _ => true
  end.

(** Truthiness of a possibly [undefined] value. *)
Definition truthy_opt (v : option Json) : bool :=
  match v with
  | Some j => truthy j
  | None => false
  end.

Fixpoint assoc (key : string) (fields : list (string * Json)) : option Json :=
  match fields with
  | [] => None
  | (k, v) :: rest => if (k =? key)%string then Some v else assoc key rest
  end.

(** [s.includes(pat)] *)
Fixpoint includes (pat s : string) : bool :=
  if String.prefix pat s then true
  else match s with
       | EmptyString => false
       | String _ rest => includes pat rest
       end.

(** What the SDK throws, catches, or stores in the [error] field of a
    [TransactionResult]. *)
Inductive Value : Type :=
| VString (s : string)
| VError (message : string)
| VTypeError (message : string)
| VRangeError (message : string)
| VTokenError (name : string)
    (* an error class of @solana/spl-token; its message is empty *)
| VSendTransactionError (message : string)
| VProgramError (msg message : string) (logs : option (list string))
| VTransactionError (message : string) (logs errorLogs : option (list string)).

(** Outcome of an operation that may throw. *)
Inductive Result (A : Type) : Type :=
| Ok (a : A)
| Throw (e : Value).
Arguments Ok {A} a.
Arguments Throw {A} e.

End Js.

(* ================================================================== *)
(** ** Solana data: keys, instructions, transactions *)

Module Solana.
Import Js.

(** Public keys are kept symbolic: a base58 literal, or the derivation the
    source computes it with. *)
Inductive PublicKey : Type :=
| Base58 (s : string)
| GlobalPDA                                   (* seeds [GLOBAL_ACCOUNT_SEED] *)
| BondingCurvePDA (mint : PublicKey)          (* getBondingCurvePDA(mint) *)
| MetadataPDA (mint : PublicKey)              (* seeds [METADATA_SEED, mpl, mint] *)
| AssociatedTokenAddress (mint owner : PublicKey).

Record Keypair : Type := { publicKey : PublicKey; secretKey : string }.

Inductive Commitment : Type := Processed | Confirmed | Finalized.
Inductive Finality : Type := FinalityConfirmed | FinalityFinalized.

Definition DEFAULT_COMMITMENT : Commitment := Finalized.
Definition DEFAULT_FINALITY : Finality := FinalityFinalized.

(** Key equality, [a.equals(b)]. *)
Fixpoint key_eqb (a b : PublicKey) : bool :=
  match a, b with
  | Base58 s, Base58 s' => (s =? s')%string
  | GlobalPDA, GlobalPDA => true
  | BondingCurvePDA m, BondingCurvePDA m' => key_eqb m m'
  | MetadataPDA m, MetadataPDA m' => key_eqb m m'
  | AssociatedTokenAddress m o, AssociatedTokenAddress m' o' =>
      key_eqb m m' && key_eqb o o'
  | _, _ => false
  end.

(** A [u64] argument of a program instruction. The SDK passes
    [new BN(x.toString())]; Anchor writes the magnitude of the [BN] into
    eight bytes: the sign is lost, and a magnitude of [2^64] or more
    throws. *)
Definition u64 (x : Z) : Result Z :=
  if Z.abs x <? 2 ^ 64 then Ok (Z.abs x)
  else Throw (VError "byte array longer than desired length").

(** The instructions the SDK builds, with their arguments as encoded. *)
Inductive Instruction : Type :=
| SetComputeUnitLimit (units : Z)
| SetComputeUnitPrice (microLamports : Z)
| SystemTransfer (fromPubkey toPubkey : PublicKey) (lamports : Z)
| CreateAssociatedTokenAccount (payer associatedToken owner mint : PublicKey)
| PumpCreate (name symbol uri : string)
             (mint associatedBondingCurve metadata user : PublicKey)
| PumpBuy (amount solAmount : Z)
          (feeRecipient mint associatedBondingCurve associatedUser user : PublicKey).

(** A legacy [Transaction] under construction: its instructions in order;
    [tx.add(other)] appends. *)
Definition Transaction : Type := list Instruction.

Record Blockhash : Type := { blockhash : string; lastValidBlockHeight : Z }.

(** A [VersionedTransaction]: the compiled message and the keys that have
    signed it so far. *)
Record VersionedTransaction : Type := {
  payerKey : PublicKey;
  recentBlockhash : string;
  instructions : list Instruction;
  signatures : list PublicKey
}.

(** The accounts in whose name an instruction is issued. The program's
    interface description ([IDL.ts]) is not among the sources, so they are
    read off the arguments the source passes: the sender of a transfer, the
    payer of an account creation, [user] and the [.signers([mint])] of a
    create, [user] of a buy. Compute-budget instructions have none. *)
Definition instruction_signers (i : Instruction) : list PublicKey :=
  match i with
  | SetComputeUnitLimit _ => []
  | SetComputeUnitPrice _ => []
  | SystemTransfer fromPubkey _ _ => [fromPubkey]
  | CreateAssociatedTokenAccount payer _ _ _ => [payer]
  | PumpCreate _ _ _ mint _ _ user => [user; mint]
  | PumpBuy _ _ _ _ _ _ user => [user]
  end.

Definition transaction_signers (tx : Transaction) : list PublicKey :=
  flat_map instruction_signers tx.

(** The keys a compiled message requires a signature of: the payer and the
    accounts its instructions are issued for. *)
Definition required_signers (vtx : VersionedTransaction) : list PublicKey :=
  payerKey vtx :: transaction_signers (instructions vtx).

Definition is_required (vtx : VersionedTransaction) (k : Keypair) : bool :=
  existsb (key_eqb (publicKey k)) (required_signers vtx).

Definition is_buy (i : Instruction) : bool :=
  match i with
  | PumpBuy _ _ _ _ _ _ _ => true
  | _ => false
  end.


(** Number of buy instructions of a transaction: its buy participants. *)
Definition buy_count (tx : Transaction) : nat :=
  List.length (filter is_buy tx).

(** Modelled from the spec: the class [GlobalAccount] of [globalAccount.ts] is
    not among the sources. The record holds the fee rate in basis points, the
    fee recipient and the initial virtual reserves; its methods are reached
    through calls (below). *)
Record GlobalAccount : Type := {
  feeRecipient : PublicKey;
  feeBasisPoints : Z;
  initialVirtualTokenReserves : Z;
  initialVirtualSolReserves : Z
}.

(** Modelled from the spec: the class [BondingCurveAccount] of
    [bondingCurveAccount.ts] is not among the sources. *)
Record BondingCurveAccount : Type := {
  virtualTokenReserves : Z;
  virtualSolReserves : Z;
  realTokenReserves : Z;
  realSolReserves : Z;
  tokenTotalSupply : Z;
  complete : bool
}.

Record HttpResponse : Type := { status : Z; ok : bool; body : string }.

Inductive FormValue : Type :=
| FormText (s : string)
| FormFile (content filename : string).

End Solana.

(* ================================================================== *)
(** ** Collaborators outside the sources, and the monad of SDK code *)

Module Host.
Import Js Solana.

Definition JitoEndpoint : Type := string.
Definition FormData : Type := list (string * FormValue).
Definition Buffer : Type := list Byte.byte.

Record VersionedTransactionResponse : Type := {
  slot : Z;
  logMessages : list string
}.

(** A call that leaves the sources, indexed by the type of its answer. *)
Inductive Call : Type -> Type :=
| MathRandomIndex (n : nat) : Call nat
    (* Math.floor(Math.random() * n) *)
| FetchPost (url : string) (form : FormData) : Call HttpResponse
    (* fetch(url, {method: "POST", body: formData}) and reading its text *)
| GetAccountInfo (address : PublicKey) (commitment : Commitment)
    : Call (option Buffer)
| GlobalAccount_fromBuffer (data : Buffer) : Call GlobalAccount
| GlobalAccount_getInitialBuyPrice (g : GlobalAccount) (amount : Z) : Call Z
| BondingCurveAccount_fromBuffer (data : Buffer) : Call BondingCurveAccount
| BondingCurveAccount_getBuyPrice (c : BondingCurveAccount) (amount : Z)
    : Call Z
| SplToken_getAccount (address : PublicKey) (commitment : Commitment)
    : Call unit
| GetLatestBlockhash (commitment : option Commitment) : Call Blockhash
| SendTransaction (tx : VersionedTransaction) (skipPreflight : bool)
                  (preflightCommitment : Commitment) : Call string
| ConfirmTransaction (reference : Blockhash) (signature : string)
                     (commitment : Commitment) : Call unit
| GetTransaction (signature : string) (finality : Finality)
    : Call (option VersionedTransactionResponse)
| SendTransactionError_getLogs (message : string)
    : Call (option (list string))
| JitoSendBundle (endpoint : JitoEndpoint)
                 (transactions : list VersionedTransaction) : Call Json.
    (* POST endpoint/api/v1/bundles, method sendBundle; response.json() *)

(** One entry of the trace: a call and its answer. *)
Inductive Event : Type :=
| Ev {R : Type} (c : Call R) (r : Result R).

(** Everything the SDK code relies on without defining it: pure library
    functions, and the oracle that answers calls. The oracle reads the list
    of all earlier events, so its answers may change over time. *)
Record Runtime : Type := {
  JSON_stringify : Json -> string;
  JSON_parse : string -> option Json;            (* [None]: SyntaxError *)
  bs58_decodes : string -> bool;                 (* bs58.decode does not throw *)
  AnchorError_parse : list string -> Result (option string);
      (* anchorError?.error?.errorMessage of AnchorError.parse(logs) *)
  PublicKey_toBase58 : PublicKey -> string;
  PublicKey_isOnCurve : PublicKey -> bool;
  Buffer_from_utf8 : option Json -> Result string;
      (* Buffer.from(v, "utf-8") for a value that is not a string *)
  RangeError_message : Z -> string;
      (* the message of the RangeError a Buffer write raises for a value *)
  answer : forall R : Type, list Event -> Call R -> Result R
}.

(** SDK code: given the runtime and the history so far, a result and the
    events it emitted. *)
Definition M (A : Type) : Type :=
  Runtime -> list Event -> Result A * list Event.

Definition ret {A} (a : A) : M A := fun _ _ => (Ok a, []).

Definition throw {A} (e : Value) : M A := fun _ _ => (Throw e, []).

Definition bind {A B} (m : M A) (f : A -> M B) : M B :=
  fun rt h =>
    match m rt h with
    | (Ok a, t1) =>
        match f a rt (h ++ t1) with
        | (r, t2) => (r, t1 ++ t2)
        end
    | (Throw e, t1) => (Throw e, t1)
    end.

(** [try { m } catch (e) { handler e }] *)
Definition try_catch {A} (m : M A) (handler : Value -> M A) : M A :=
  fun rt h =>
    match m rt h with
    | (Ok a, t1) => (Ok a, t1)
    | (Throw e, t1) =>
        match handler e rt (h ++ t1) with
        | (r, t2) => (r, t1 ++ t2)
        end
    end.

Definition call {R} (c : Call R) : M R :=
  fun rt h => let r := answer rt R h c in (r, [Ev c r]).

Definition asks {A} (f : Runtime -> A) : M A := fun rt _ => (Ok (f rt), []).

Definition lift {A} (r : Result A) : M A := fun _ _ => (r, []).

(** Event classifiers. *)
Definition is_send_transaction (e : Event) : bool :=
  match e with
  | Ev c _ => match c with SendTransaction _ _ _ => true | _ => false end
  end.

Definition is_send_bundle (e : Event) : bool :=
  match e with
  | Ev c _ => match c with JitoSendBundle _ _ => true | _ => false end
  end.

(** A fetch of the global configuration account. *)
Definition is_global_fetch (e : Event) : bool :=
  match e with
  | Ev c _ => match c with GetAccountInfo GlobalPDA _ => true | _ => false end
  end.

Definition is_initial_buy_price (e : Event) : bool :=
  match e with
  | Ev c _ =>
      match c with GlobalAccount_getInitialBuyPrice _ _ => true | _ => false end
  end.

(** A transaction handed to the ledger or to the relay. *)
Definition is_submission (e : Event) : bool :=
  is_send_transaction e || is_send_bundle e.

Definition count (p : Event -> bool) (t : list Event) : nat :=
  List.length (filter p t).

(** The transactions submitted directly to the ledger, in order. *)
Fixpoint sent_transactions (t : list Event) : list VersionedTransaction :=
  match t with
  | [] => []
  | Ev c _ :: rest =>
      match c with
      | SendTransaction tx _ _ => tx :: sent_transactions rest
      | _ => sent_transactions rest
      end
  end.

(** The answers of the relay, in order. *)
Fixpoint bundle_responses (t : list Event) : list (Result Json) :=
  match t with
  | [] => []
  | Ev c r :: rest =>
      match c in Call R return Result R -> list (Result Json) with
      | JitoSendBundle _ _ => fun r => r :: bundle_responses rest
      | _ => fun _ => bundle_responses rest
      end r
  end.

(** Every event a computation emits satisfies [P], whatever the runtime. *)
Definition emits (P : Event -> bool) {A} (m : M A) : Prop :=
  forall rt h, forallb P (snd (m rt h)) = true.

(** A computation emits at most [n] events satisfying [P]. *)
Definition at_most (P : Event -> bool) (n : nat) {A} (m : M A) : Prop :=
  forall rt h, (count P (snd (m rt h)) <= n)%nat.

(** On the runtime [rt] a computation returns a value from every history. *)
Definition succeeds (rt : Runtime) {A} (m : M A) : Prop :=
  forall h, exists a t, m rt h = (Ok a, t).

(** The collaborators planning depends on answer: the random draw, the fetch
    and decoding of the global account, and the initial-buy quote. *)
Definition answers_planning (rt : Runtime) : Prop :=
  (forall h n, exists i, answer rt nat h (MathRandomIndex n) = Ok i) /\
  (forall h c, exists data,
      answer rt (option Buffer) h (GetAccountInfo GlobalPDA c) = Ok (Some data)) /\
  (forall h data, exists g,
      answer rt GlobalAccount h (GlobalAccount_fromBuffer data) = Ok g) /\
  (forall h g amount, exists quoted,
      answer rt Z h (GlobalAccount_getInitialBuyPrice g amount) = Ok quoted).

(** Neither a direct submission nor a bundle. *)
Definition no_submission (e : Event) : bool := negb (is_submission e).

End Host.

Declare Scope sdk_scope.
Delimit Scope sdk_scope with sdk.
Notation "x <- m ;; k" := (Host.bind m (fun x => k))
  (at level 61, m at next level, right associativity) : sdk_scope.
Notation "' pat <- m ;; k" :=
  (Host.bind m (fun x => match x with pat => k end))
  (at level 61, pat pattern, m at next level, right associativity) : sdk_scope.

(* ================================================================== *)
(** ** [src/jito.ts] *)

Module Jito.
Import Js Solana Host.
Local Open Scope string_scope.
Local Open Scope list_scope.
Local Open Scope Z_scope.
Local Open Scope sdk_scope.

Record JitoConfig : Type := {
  jitoEnabled : bool;
  endpoint : option JitoEndpoint;
  tipLampports : option Z
}.

Definition JITO_MAINNET_ENDPOINTS : list JitoEndpoint :=
  [ "https://amsterdam.mainnet.block-engine.jito.wtf";
    "https://mainnet.block-engine.jito.wtf";
    "https://ny.mainnet.block-engine.jito.wtf";
    "https://frankfurt.mainnet.block-engine.jito.wtf";
    "https://tokyo.mainnet.block-engine.jito.wtf";
    "https://slc.mainnet.block-engine.jito.wtf" ].

Definition TIP_ACCOUNTS : list string :=
  [ "96gYZGLnJYVFmbjzopPSU6QiEV5fGqZNyN9nmNhvrZU5";
    "HFqU5x63VTqvQss8hp11i4wVV8bD44PvwucfZ2bU7gRe";
    "Cw8CFyM9FkoMi7K7Crf6HNQqf4uEMzpKw6QNghXLvLkY";
    "ADaUMid9yfUytqMBgopwjb2DTLSokTSzL1zt6iGPaS49";
    "DfXygSm4jCyNCybVYYK6DwvWqjKee8pbDmJGcLWNDXjh";
    "ADuUkR4vqLUMWXxW9gh6D6L8pMSawimctcNZ5pGwDcEt";
    "DttWaMuVvTiduZRnguLF7jNxTgiMBZ1hyAumKUiL2KRL";
    "3AVi9Tg9Uo68tJfuvoKvqKNWKkC5wPdSSdeBnizKZ6jT" ].

Definition TIP_LAMPORTS : Z := 100000.

Definition BATCH_SIZE : nat := 5.

(** [list[Math.floor(Math.random() * list.length)]]; the drawn index is
    reduced modulo the length, as the real draw is always in range. *)
Definition random_element (l : list string) : M string :=
  i <- call (MathRandomIndex (List.length l)) ;;
  ret (nth (i mod List.length l)%nat l "").

Definition getRandomJitoMainnetEndpoint : M JitoEndpoint :=
  random_element JITO_MAINNET_ENDPOINTS.

Definition getRandomTipAccount : M string :=
  random_element TIP_ACCOUNTS.

(** [a || b] on strings *)
Definition string_or (a : option string) (b : M string) : M string :=
  match a with
  | Some s => if (s =? "")%string then b else ret s
  | None => b
  end.

Definition sendBundle (transactions : list VersionedTransaction)
                      (endpoint : option JitoEndpoint) : M Json :=
  endpoint <- string_or endpoint getRandomJitoMainnetEndpoint ;;
  call (JitoSendBundle endpoint transactions).

(** [jitoConfig?.jitoEnabled]: the configuration when it is present and
    enabled. *)
Definition enabled (jitoConfig : option JitoConfig) : option JitoConfig :=
  match jitoConfig with
  | Some c => if jitoEnabled c then Some c else None
  | None => None
  end.

(** [jitoConfig.tipLampports || TIP_LAMPORTS] *)
Definition tip_of (c : JitoConfig) : Z :=
  match tipLampports c with
  | Some t => if t =? 0 then TIP_LAMPORTS else t
  | None => TIP_LAMPORTS
  end.

End Jito.

(* ================================================================== *)
(** ** [src/util.ts]: submitting one transaction *)

Module Util.
Import Js Solana Host Jito.
Local Open Scope string_scope.
Local Open Scope list_scope.
Local Open Scope Z_scope.
Local Open Scope sdk_scope.

Record PriorityFee : Type := { unitPrice : Z; unitLimit : Z }.

Record TransactionResult : Type := {
  signature : option Json;
  error : option Value;
  results : option VersionedTransactionResponse;
  success : bool
}.

(** The TypeError of reading property [name] of [null] or [undefined]. *)
Definition cannot_read (what name : string) : Value :=
  VTypeError ("Cannot read properties of " ++ what
                ++ " (reading '" ++ name ++ "')").

(** [obj.name] on a parsed JSON value: [undefined] on anything but an
    object, a TypeError on [null]. *)
Definition property (name : string) (obj : Json) : Result (option Json) :=
  match obj with
  | JNull => Throw (cannot_read "null" name)
  | JObj fields => Ok (assoc name fields)
  | _ => Ok None
  end.

Definition field (name : string) (obj : Json) : M (option Json) :=
  lift (property name obj).

(** The constructor of [TransactionError]: the error lines are the log lines
    containing a failure marker. *)
Definition TransactionError (message : string) (logs : option (list string))
  : Value :=
  VTransactionError message logs
    (match logs with
     | Some l =>
         Some (filter (fun log =>
                         includes "failed" log || includes "error" log
                         || includes "Error" log || includes "exceeded" log) l)
     | None => None
     end).

(** [versionedTx.sign(signers)]: every signer must be one of the keys the
    message requires; the first that is not makes [sign] throw. *)
Definition sign (vtx : VersionedTransaction) (signers : list Keypair)
  : M VersionedTransaction :=
  match find (fun k => negb (is_required vtx k)) signers with
  | Some k =>
      key <- asks (fun rt => PublicKey_toBase58 rt (publicKey k)) ;;
      throw (VError ("Cannot sign with non signer key " ++ key))
  | None =>
      ret {| payerKey := payerKey vtx;
             recentBlockhash := recentBlockhash vtx;
             instructions := instructions vtx;
             signatures := signatures vtx ++ map publicKey signers |}
  end.

(** [ComputeBudgetProgram.setComputeUnitLimit({units})]: the units are
    written as a [u32]; a value that does not fit raises a RangeError. *)
Definition setComputeUnitLimit (units : Z) : M Instruction :=
  if (0 <=? units) && (units <? 2 ^ 32) then ret (SetComputeUnitLimit units)
  else
    message <- asks (fun rt => RangeError_message rt units) ;;
    throw (VRangeError message).

(** Lines 86-96 of [sendTx]: the compute-budget instructions. *)
Definition compute_budget (priorityFees : option PriorityFee)
  : M Transaction :=
  match priorityFees with
  | Some fees =>
      modifyComputeUnits <- setComputeUnitLimit (unitLimit fees) ;;
      ret [modifyComputeUnits; SetComputeUnitPrice (unitPrice fees)]
  | None => ret []
  end.

Definition buildVersionedTx (payer : PublicKey) (tx : Transaction)
                            (commitment : Commitment)
  : M VersionedTransaction :=
  latest <- call (GetLatestBlockhash (Some commitment)) ;;
  ret {| payerKey := payer;
         recentBlockhash := blockhash latest;
         instructions := tx;
         signatures := [] |}.

Definition getTxDetails (sig : string) (commitment : Commitment)
                        (finality : Finality)
  : M (option VersionedTransactionResponse) :=
  decodes <- asks (fun rt => bs58_decodes rt sig) ;;
  if negb decodes then ret None
  else
    latestBlockHash <- call (GetLatestBlockhash None) ;;
    _ <- call (ConfirmTransaction latestBlockHash sig commitment) ;;
    call (GetTransaction sig finality).

(** [e instanceof Error ? e.message : String(e)] *)
Definition message_of (e : Value) : string :=
  match e with
  | VString s => s
  | VError m => m
  | VTypeError m => m
  | VRangeError m => m
  | VTokenError _ => ""
  | VSendTransactionError m => m
  | VProgramError _ m _ => m
  | VTransactionError m _ _ => m
  end.

(** The [catch] block of [sendTx]. *)
Definition sendTx_catch (e : Value) : M TransactionResult :=
  ' (errorMessage, logs) <-
    match e with
    | VSendTransactionError message =>
        logs <- call (SendTransactionError_getLogs message) ;;
        if match logs with
           | Some l => existsb (includes "exceeded CUs meter") l
           | None => false
           end
        then ret ("Transaction failed: Compute budget exceeded. Try increasing compute unit limit.", logs)
        else if includes "custom program error:" message then
          parsed <- asks (fun rt =>
                      AnchorError_parse rt
                        (match logs with Some l => l | None => [message] end)) ;;
          match parsed with
          | Ok (Some m) =>
              ret (("Anchor Error: "
                      ++ (if m =? "" then "Unknown anchor error" else m))%string,
                   logs)
          | Ok None => ret ("Anchor Error: Unknown anchor error", logs)
          | Throw _ => ret (("Program Error: " ++ message)%string, logs)
          end
        else ret (("Transaction Error: " ++ message)%string, logs)
    | VProgramError msg message plogs =>
        ret (("Program Error: " ++ (if msg =? "" then message else msg))%string,
             plogs)
    | _ => ret (("Unknown Error: " ++ message_of e)%string, None)
    end ;;
  ret {| signature := None;
         error := Some (TransactionError errorMessage logs);
         results := None;
         success := false |}.

(** The message of the error raised on a relay-reported error. *)
Definition jito_bundle_error (rt : Runtime) (err : Json) : string :=
  ("Jito bundle error: " ++ JSON_stringify rt err)%string.

(** The [try] block of [sendTx]: submit the signed transaction through the
    relay or directly. *)
Definition sendTx_try (jito : bool) (versionedTx : VersionedTransaction)
                      (jitoEndpoint : option JitoEndpoint)
                      (commitment : Commitment) (finality : Finality)
  : M TransactionResult :=
  if jito then
    endpoint <- string_or jitoEndpoint getRandomJitoMainnetEndpoint ;;
    response <- sendBundle [versionedTx] (Some endpoint) ;;
    err <- field "error" response ;;
    if truthy_opt err then
      message <- asks (fun rt =>
                         match err with
                         | Some e => jito_bundle_error rt e
                         | None => ""
                         end) ;;
      throw (VError message)
    else
      result <- field "result" response ;;
      ret {| signature := result; error := None;
             results := None; success := true |}
  else
    signature <- call (SendTransaction versionedTx false commitment) ;;
    txResult <- getTxDetails signature commitment finality ;;
    match txResult with
    | None =>
        ret {| signature := None;
               error := Some (VString "Transaction failed");
               results := None; success := false |}
    | Some r =>
        ret {| signature := Some (JStr signature); error := None;
               results := Some r; success := true |}
    end.

(** [sendTx]; parameters with a default value are optional. *)
Definition sendTx (tx : Transaction) (payer : PublicKey)
                  (signers : list Keypair)
                  (priorityFees : option PriorityFee)
                  (commitment : option Commitment)
                  (finality : option Finality)
                  (jito : option bool)
                  (tipLampports : option Z)
                  (jitoEndpoint : option JitoEndpoint)
  : M TransactionResult :=
  let commitment := match commitment with Some c => c | None => DEFAULT_COMMITMENT end in
  let finality := match finality with Some f => f | None => DEFAULT_FINALITY end in
  let jito := match jito with Some b => b | None => false end in
  let tipLampports := match tipLampports with Some t => t | None => TIP_LAMPORTS end in
  newTx0 <- compute_budget priorityFees ;;
  newTx1 <- (if jito then
               TIP_ACCOUNT <- getRandomTipAccount ;;
               ret (newTx0 ++ [SystemTransfer payer (Base58 TIP_ACCOUNT) tipLampports])
             else ret newTx0) ;;
  let newTx := newTx1 ++ tx in
  versionedTx <- buildVersionedTx payer newTx commitment ;;
  versionedTx <- sign versionedTx signers ;;
  try_catch (sendTx_try jito versionedTx jitoEndpoint commitment finality)
            sendTx_catch.

End Util.

(* ================================================================== *)
(** ** [src/pumpfun.ts]: building and submitting *)

Module PumpFunSDK.
Import Js Solana Host Jito Util Slippage.
Local Open Scope string_scope.
Local Open Scope list_scope.
Local Open Scope Z_scope.
Local Open Scope sdk_scope.

Definition MAX_BUNDLED_BUYS_PER_TX : nat := 4.

Record BundledBuy : Type := { amountInSol : Z; signer : Keypair }.

Inductive FileValue : Type :=
| Blob (content : string)
| NotABlob.

Module CreateTokenMetadata.
Record t : Type := {
  name : string;
  symbol : string;
  description : string;
  file : FileValue;
  twitter : option string;
  telegram : option string;
  website : option string
}.
End CreateTokenMetadata.

Module CreateAndBuyParams.
Record t : Type := {
  creator : Keypair;
  mint : Keypair;
  createTokenMetadata : CreateTokenMetadata.t;
  buyAmountSol : Z;
  slippageBasisPoints : option Z;
  priorityFees : option PriorityFee;
  commitment : option Commitment;
  finality : option Finality;
  jitoConfig : option JitoConfig;
  bundledBuys : option (list BundledBuy)
}.
End CreateAndBuyParams.

(** [s || ""] *)
Definition or_empty (s : option string) : string :=
  match s with Some x => x | None => "" end.

(** [String(n)] for an integer status code. *)
Definition number_to_string (n : Z) : string :=
  DecimalString.NilZero.string_of_int (Z.to_int n).

Definition createTokenMetadata (create : CreateTokenMetadata.t) : M Json :=
  match CreateTokenMetadata.file create with
  | NotABlob => throw (VError "File must be a Blob or File object")
  | Blob content =>
      let formData : FormData :=
        [ ("file", FormFile content "image.png");
          ("name", FormText (CreateTokenMetadata.name create));
          ("symbol", FormText (CreateTokenMetadata.symbol create));
          ("description", FormText (CreateTokenMetadata.description create));
          ("twitter", FormText (or_empty (CreateTokenMetadata.twitter create)));
          ("telegram", FormText (or_empty (CreateTokenMetadata.telegram create)));
          ("website", FormText (or_empty (CreateTokenMetadata.website create)));
          ("showName", FormText "true") ] in
      request <- call (FetchPost "https://pump.fun/api/ipfs" formData) ;;
      if status request =? 500 then
        throw (VError ("Server error (500): "
                         ++ (if body request =? "" then "No error details available"
                             else body request))%string)
      else if negb (ok request) then
        throw (VError ("HTTP error! status: "
                         ++ number_to_string (status request))%string)
      else if (body request =? "")%string then
        throw (VError "Empty response received from server")
      else
        parsed <- asks (fun rt => JSON_parse rt (body request)) ;;
        match parsed with
        | Some j => ret j
        | None => throw (VError ("Invalid JSON response: " ++ body request)%string)
        end
  end.

(** [getAssociatedTokenAddress(mint, owner, allowOwnerOffCurve)] *)
Definition getAssociatedTokenAddress (mint owner : PublicKey)
                                     (allowOwnerOffCurve : bool)
  : M PublicKey :=
  onCurve <- asks (fun rt => PublicKey_isOnCurve rt owner) ;;
  if negb allowOwnerOffCurve && negb onCurve
  then throw (VTokenError "TokenOwnerOffCurveError")
  else ret (AssociatedTokenAddress mint owner).

(** A string argument of a program instruction. The parameter is typed
    [string], but [createAndBuy] passes [tokenMetadata.metadataUri], which
    is whatever the gateway answered: a string is written as it is, any
    other value goes through [Buffer.from(uri, "utf-8")]. *)
Definition string_argument (v : option Json) : M string :=
  match v with
  | Some (JStr s) => ret s
  | _ =>
      encoded <- asks (fun rt => Buffer_from_utf8 rt v) ;;
      lift encoded
  end.

Definition getCreateInstructions (creator : PublicKey) (name symbol : string)
                                 (uri : option Json) (mint : Keypair)
  : M Transaction :=
  let metadataPDA := MetadataPDA (publicKey mint) in
  associatedBondingCurve <-
    getAssociatedTokenAddress (publicKey mint)
                              (BondingCurvePDA (publicKey mint)) true ;;
  uri <- string_argument uri ;;
  ret [PumpCreate name symbol uri (publicKey mint) associatedBondingCurve
                  metadataPDA creator].

Definition getGlobalAccount (commitment : Commitment) : M GlobalAccount :=
  tokenAccount <- call (GetAccountInfo GlobalPDA commitment) ;;
  match tokenAccount with
  | Some data => call (GlobalAccount_fromBuffer data)
  | None => throw (cannot_read "null" "data")
  end.

Definition getBondingCurveAccount (mint : PublicKey) (commitment : Commitment)
  : M (option BondingCurveAccount) :=
  tokenAccount <- call (GetAccountInfo (BondingCurvePDA mint) commitment) ;;
  match tokenAccount with
  | None => ret None
  | Some data =>
      account <- call (BondingCurveAccount_fromBuffer data) ;;
      ret (Some account)
  end.

Definition getBuyInstructions (buyer mint feeRecipient : PublicKey)
                              (amount solAmount : Z)
                              (commitment : option Commitment)
  : M Transaction :=
  let commitment := match commitment with Some c => c | None => DEFAULT_COMMITMENT end in
  associatedBondingCurve <-
    getAssociatedTokenAddress mint (BondingCurvePDA mint) true ;;
  associatedUser <- getAssociatedTokenAddress mint buyer false ;;
  transaction <-
    try_catch
      (_ <- call (SplToken_getAccount associatedUser commitment) ;;
       ret ([] : Transaction))
      (fun _ =>
         ret [CreateAssociatedTokenAccount buyer associatedUser buyer mint]) ;;
  amount <- lift (u64 amount) ;;
  solAmount <- lift (u64 solAmount) ;;
  ret (transaction
         ++ [PumpBuy amount solAmount feeRecipient mint
                     associatedBondingCurve associatedUser buyer]).

Definition getBuyInstructionsBySolAmount (buyer mint : PublicKey)
                                         (buyAmountSol : Z)
                                         (slippageBasisPoints : option Z)
                                         (commitment : option Commitment)
  : M Transaction :=
  let slippageBasisPoints := match slippageBasisPoints with Some b => b | None => 500 end in
  let commitment := match commitment with Some c => c | None => DEFAULT_COMMITMENT end in
  bondingCurveAccount <- getBondingCurveAccount mint commitment ;;
  match bondingCurveAccount with
  | None =>
      key <- asks (fun rt => PublicKey_toBase58 rt mint) ;;
      throw (VError ("Bonding curve account not found: " ++ key))
  | Some curve =>
      buyAmount <- call (BondingCurveAccount_getBuyPrice curve buyAmountSol) ;;
      let buyAmountWithSlippage :=
        calculateWithSlippageBuy buyAmountSol slippageBasisPoints in
      globalAccount <- getGlobalAccount commitment ;;
      getBuyInstructions buyer mint (feeRecipient globalAccount)
                         buyAmount buyAmountWithSlippage None
  end.

(** The answer of the holding-account lookup [getBuyInstructions] makes. *)
Definition holding_lookup (buyer mint : PublicKey)
                          (commitment : option Commitment)
                          (rt : Runtime) (h : list Event) : Result unit :=
  answer rt unit h
    (SplToken_getAccount (AssociatedTokenAddress mint buyer)
       (match commitment with Some c => c | None => DEFAULT_COMMITMENT end)).

(** What the [catch] of [getBuyInstructions] tests: the lookup threw,
    whatever it threw. *)
Definition lookup_throws (lookup : Result unit) : bool :=
  match lookup with
  | Ok _ => false
  | Throw _ => true
  end.

(** The lookup reports absence: [getAccount] throws a
    TokenAccountNotFoundError when there is no account at the address. It
    throws other errors when the account is not a token account, and what
    the node throws when it cannot be reached. *)
Definition reports_absence (lookup : Result unit) : bool :=
  match lookup with
  | Throw (VTokenError name) => (name =? "TokenAccountNotFoundError")%string
  | _ => false
  end.

Definition create_holding_account (buyer mint : PublicKey) : Instruction :=
  CreateAssociatedTokenAccount buyer (AssociatedTokenAddress mint buyer)
                               buyer mint.

Definition buy_instruction (buyer mint feeRecipient : PublicKey)
                           (amount solAmount : Z) : Instruction :=
  PumpBuy amount solAmount feeRecipient mint
          (AssociatedTokenAddress mint (BondingCurvePDA mint))
          (AssociatedTokenAddress mint buyer) buyer.

(** The instruction sequence of a buy, by the answer of the lookup. *)
Definition buy_instructions (buyer mint feeRecipient : PublicKey)
                            (amount solAmount : Z) (lookup : Result unit)
  : Transaction :=
  if lookup_throws lookup
  then [create_holding_account buyer mint;
        buy_instruction buyer mint feeRecipient amount solAmount]
  else [buy_instruction buyer mint feeRecipient amount solAmount].

(** [arr.slice(start, stop)] for [0 <= start <= stop]; [stop] may exceed the
    length. *)
Definition slice {A} (l : list A) (start stop : nat) : list A :=
  firstn (stop - start) (skipn start l).

(** The loop [for (i = 0; i < bundledBuys.length; i += MAX) batches.push(...)],
    started at [i]; [fuel] bounds the number of iterations. *)
Fixpoint batches_from {A} (fuel : nat) (l : list A) (i : nat)
  : list (list A) :=
  match fuel with
  | O => []
  | S fuel' =>
      if (i <? List.length l)%nat
      then slice l i (i + MAX_BUNDLED_BUYS_PER_TX)
             :: batches_from fuel' l (i + MAX_BUNDLED_BUYS_PER_TX)
      else []
  end.

(** The index grows in every iteration, so [length l] iterations are
    enough (see [batches_fuel_enough]). *)
Definition make_batches {A} (l : list A) : list (list A) :=
  batches_from (List.length l) l 0.

(** The batches of a request: none when [bundledBuys] is missing or empty. *)
Definition batches_of (bundledBuys : option (list BundledBuy))
  : list (list BundledBuy) :=
  match bundledBuys with
  | Some ((_ :: _) as buys) => make_batches buys
  | _ => []
  end.

Section CreateAndBuy.

Variable p : CreateAndBuyParams.t.

Let creator := CreateAndBuyParams.creator p.
Let mint := CreateAndBuyParams.mint p.
Let buyAmountSol := CreateAndBuyParams.buyAmountSol p.
Let slippageBasisPoints :=
  match CreateAndBuyParams.slippageBasisPoints p with
  | Some b => b
  | None => 500
  end.
Let commitment :=
  match CreateAndBuyParams.commitment p with
  | Some c => c
  | None => DEFAULT_COMMITMENT
  end.
Let jitoConfig := CreateAndBuyParams.jitoConfig p.

(** The tip transfer opening a transaction when relay routing is enabled. *)
Definition tip_from (payer : option PublicKey) : M Transaction :=
  match enabled jitoConfig with
  | Some c =>
      tipAccount <- getRandomTipAccount ;;
      match payer with
      | Some fromPubkey =>
          ret [SystemTransfer fromPubkey (Base58 tipAccount) (tip_of c)]
      | None => throw (cannot_read "undefined" "signer")
      end
  | None => ret []
  end.

(** Lines 136-169: the first transaction. *)
Definition firstTransaction (uri : option Json) : M Transaction :=
  createTx <-
    getCreateInstructions (publicKey creator)
      (CreateTokenMetadata.name (CreateAndBuyParams.createTokenMetadata p))
      (CreateTokenMetadata.symbol (CreateAndBuyParams.createTokenMetadata p))
      uri mint ;;
  tip <- tip_from (Some (publicKey creator)) ;;
  let firstTx := tip ++ createTx in
  if 0 <? buyAmountSol then
    globalAccount <- getGlobalAccount commitment ;;
    buyAmount <- call (GlobalAccount_getInitialBuyPrice globalAccount buyAmountSol) ;;
    let buyAmountWithSlippage :=
      calculateWithSlippageBuy buyAmountSol slippageBasisPoints in
    buyTx <- getBuyInstructions (publicKey creator) (publicKey mint)
               (feeRecipient globalAccount) buyAmount buyAmountWithSlippage None ;;
    ret (firstTx ++ buyTx)
  else ret firstTx.

(** Lines 197-213: the buys of one batch, appended to [batchTx]. *)
Fixpoint batchBuys (globalAccount : GlobalAccount) (batch : list BundledBuy)
                   (batchTx : Transaction) : M Transaction :=
  match batch with
  | [] => ret batchTx
  | buy :: rest =>
      buyAmount <- call (GlobalAccount_getInitialBuyPrice globalAccount
                           (amountInSol buy)) ;;
      let buyAmountWithSlippage :=
        calculateWithSlippageBuy (amountInSol buy) slippageBasisPoints in
      buyTx <- getBuyInstructions (publicKey (signer buy)) (publicKey mint)
                 (feeRecipient globalAccount) buyAmount buyAmountWithSlippage
                 None ;;
      batchBuys globalAccount rest (batchTx ++ buyTx)
  end.

(** Lines 182-213: the transaction of one batch. *)
Definition batchTransaction (batch : list BundledBuy) : M Transaction :=
  globalAccount <- getGlobalAccount commitment ;;
  tip <- tip_from (option_map (fun b => publicKey (signer b)) (hd_error batch)) ;;
  batchBuys globalAccount batch tip.

(** Lines 181-217: one transaction and one signer list per batch. *)
Fixpoint processBatches (batches : list (list BundledBuy))
                        (allTransactions : list Transaction)
                        (allSigners : list (list Keypair))
  : M (list Transaction * list (list Keypair)) :=
  match batches with
  | [] => ret (allTransactions, allSigners)
  | batch :: rest =>
      batchTx <- batchTransaction batch ;;
      processBatches rest (allTransactions ++ [batchTx])
                     (allSigners ++ [map signer batch])
  end.

(** Lines 121-218: the plan, transactions and their signers. *)
Definition plan : M (list Transaction * list (list Keypair)) :=
  tokenMetadata <- createTokenMetadata (CreateAndBuyParams.createTokenMetadata p) ;;
  metadataUri <- field "metadataUri" tokenMetadata ;;
  firstTx <- firstTransaction metadataUri ;;
  processBatches (batches_of (CreateAndBuyParams.bundledBuys p))
                 [firstTx] [[creator; mint]].

Let priorityFees := CreateAndBuyParams.priorityFees p.
Let finality :=
  match CreateAndBuyParams.finality p with
  | Some f => f
  | None => DEFAULT_FINALITY
  end.

(** Lines 224-240: build and sign every transaction of the plan; [k]
    iterations remain and [i] is the loop index. Entry [i] of both arrays
    exists and [signers] is not empty on every plan; a missing one would be
    a TypeError. *)
Fixpoint signAll (k i : nat) (allTransactions : list Transaction)
                 (allSigners : list (list Keypair))
                 (serializedTxs : list VersionedTransaction)
  : M (list VersionedTransaction) :=
  match k with
  | O => ret serializedTxs
  | S k' =>
      match nth_error allTransactions i, nth_error allSigners i with
      | Some tx, Some ((payer :: _) as signers) =>
          versionedTx <- buildVersionedTx (publicKey payer) tx commitment ;;
          versionedTx <- sign versionedTx signers ;;
          signAll k' (S i) allTransactions allSigners
                  (serializedTxs ++ [versionedTx])
      | _, None => throw (cannot_read "undefined" "0")
      | _, Some [] => throw (cannot_read "undefined" "publicKey")
      | None, Some (_ :: _) =>
          _ <- call (GetLatestBlockhash (Some commitment)) ;;
          throw (cannot_read "undefined" "instructions")
      end
  end.

(** Lines 221-258: the relay path. *)
Definition sendAsBundle (c : JitoConfig)
                        (allTransactions : list Transaction)
                        (allSigners : list (list Keypair))
  : M (option TransactionResult) :=
  serializedTxs <- signAll (List.length allTransactions) 0
                     allTransactions allSigners [] ;;
  endpoint <- string_or (endpoint c) getRandomJitoMainnetEndpoint ;;
  response <- sendBundle serializedTxs (Some endpoint) ;;
  err <- field "error" response ;;
  if truthy_opt err then
    message <- asks (fun rt =>
                       match err with
                       | Some e => jito_bundle_error rt e
                       | None => ""
                       end) ;;
    ret (Some {| signature := None; error := Some (VError message);
                 results := None; success := false |})
  else
    result <- field "result" response ;;
    ret (Some {| signature := result; error := None;
                 results := None; success := true |}).

(** Lines 263-275: submit entry [i] of the plan with [sendTx]; the payer is
    the first signer. *)
Definition sendPlanned (tx : option Transaction)
                       (signers : option (list Keypair))
  : M TransactionResult :=
  match tx, signers with
  | Some tx, Some ((payer :: _) as signers) =>
      sendTx tx (publicKey payer) signers priorityFees
             (Some commitment) (Some finality) None None None
  | _, None => throw (cannot_read "undefined" "0")
  | _, Some [] => throw (cannot_read "undefined" "publicKey")
  | None, Some (_ :: _) =>
      _ <- compute_budget priorityFees ;;
      throw (VTypeError
               "Cannot use 'in' operator to search for 'instructions' in undefined")
  end.

(** Lines 260-286: the sequential path; [result0] is [None] while
    undefined. *)
Fixpoint sendAll (k i : nat) (allTransactions : list Transaction)
                 (allSigners : list (list Keypair))
                 (result0 : option TransactionResult)
  : M (option TransactionResult) :=
  match k with
  | O => ret result0
  | S k' =>
      result <- sendPlanned (nth_error allTransactions i)
                            (nth_error allSigners i) ;;
      if negb (success result) then ret (Some result)
      else sendAll k' (S i) allTransactions allSigners
                   (if (i =? 0)%nat then Some result else result0)
  end.

Definition sendSequentially (allTransactions : list Transaction)
                            (allSigners : list (list Keypair))
  : M (option TransactionResult) :=
  sendAll (List.length allTransactions) 0 allTransactions allSigners None.

(** Lines 220-286: submit a plan by the configured path. *)
Definition submit (allTransactions : list Transaction)
                  (allSigners : list (list Keypair))
  : M (option TransactionResult) :=
  match enabled jitoConfig with
  | Some c => sendAsBundle c allTransactions allSigners
  | None => sendSequentially allTransactions allSigners
  end.

(** [createAndBuy]; the result is [None] where the source would return
    [undefined]. *)
Definition createAndBuy : M (option TransactionResult) :=
  ' (allTransactions, allSigners) <- plan ;;
  submit allTransactions allSigners.

End CreateAndBuy.

Module BuyParams.
Record t : Type := {
  buyer : Keypair;
  mint : PublicKey;
  buyAmountSol : Z;
  slippageBasisPoints : option Z;
  priorityFees : option PriorityFee;
  commitment : option Commitment;
  finality : option Finality;
  jitoConfig : option JitoConfig
}.
End BuyParams.

Definition buy (b : BuyParams.t) : M TransactionResult :=
  let slippageBasisPoints :=
    match BuyParams.slippageBasisPoints b with Some s => s | None => 500 end in
  let commitment :=
    match BuyParams.commitment b with Some c => c | None => DEFAULT_COMMITMENT end in
  let finality :=
    match BuyParams.finality b with Some f => f | None => DEFAULT_FINALITY end in
  let jitoConfig := BuyParams.jitoConfig b in
  buyTx <- getBuyInstructionsBySolAmount (publicKey (BuyParams.buyer b))
             (BuyParams.mint b) (BuyParams.buyAmountSol b)
             (Some slippageBasisPoints) (Some commitment) ;;
  sendTx buyTx (publicKey (BuyParams.buyer b)) [BuyParams.buyer b]
         (BuyParams.priorityFees b) (Some commitment) (Some finality)
         (option_map jitoEnabled jitoConfig)
         (match jitoConfig with Some c => tipLampports c | None => None end)
         (match jitoConfig with Some c => endpoint c | None => None end).

End PumpFunSDK.

(* ================================================================== *)
(** ** Shapes of planned transactions, and properties under scrutiny *)

Module Properties.
Import Js Solana Host Jito Util Slippage PumpFunSDK.
Local Open Scope list_scope.

(** Ceiling of [n / k] on naturals. *)
Definition ceil_div (n k : nat) : nat := ((n + k - 1) / k)%nat.

Section Shapes.

Variable p : CreateAndBuyParams.t.

Definition slippage_of : Z :=
  match CreateAndBuyParams.slippageBasisPoints p with
  | Some b => b
  | None => 500
  end.

Definition creator_key : PublicKey := publicKey (CreateAndBuyParams.creator p).
Definition mint_key : PublicKey := publicKey (CreateAndBuyParams.mint p).

(** The tip part of a transaction paid by [payer]: empty without relay
    routing, else one transfer from [payer] to one of the tip accounts. *)
Definition tip_shape (payer : PublicKey) (tip : Transaction) : Prop :=
  match enabled (CreateAndBuyParams.jitoConfig p) with
  | Some c =>
      exists account,
        In account TIP_ACCOUNTS /\
        tip = [SystemTransfer payer (Base58 account) (tip_of c)]
  | None => tip = []
  end.

(** The create-market instruction of the request: one [PumpCreate] with the
    name and symbol of the request, for the mint of the request and in the
    name of the creator. *)
Definition create_shape (tx : Transaction) : Prop :=
  exists uri,
    tx = [PumpCreate
            (CreateTokenMetadata.name (CreateAndBuyParams.createTokenMetadata p))
            (CreateTokenMetadata.symbol (CreateAndBuyParams.createTokenMetadata p))
            uri mint_key
            (AssociatedTokenAddress mint_key (BondingCurvePDA mint_key))
            (MetadataPDA mint_key) creator_key].

(** The maximum spend written into the buy of [solIn]: the magnitude of the
    slippage-bounded amount, which is the amount itself when it is not
    negative. *)
Definition max_spend (solIn : Z) : Z :=
  Z.abs (calculateWithSlippageBuy solIn slippage_of).

(** The instructions of one participant's buy of [solIn], priced against the
    global account [g]: both arguments fit in 64 bits. *)
Definition buy_shape (g : GlobalAccount) (buyer : PublicKey) (solIn : Z)
                     (part : Transaction) : Prop :=
  exists amount lookup,
    0 <= amount < 2 ^ 64 /\
    max_spend solIn < 2 ^ 64 /\
    part = buy_instructions buyer mint_key (feeRecipient g) amount
             (max_spend solIn) lookup.

(** The number of buys of the creator: one when [buyAmountSol > 0]. *)
Definition own_buys : nat :=
  if 0 <? CreateAndBuyParams.buyAmountSol p then 1%nat else 0%nat.

(** The first transaction: the tip of the creator, the create-market
    instruction, and the creator's own buy when [buyAmountSol > 0]. *)
Definition first_shape (tx : Transaction) : Prop :=
  exists tip create,
    tip_shape creator_key tip /\
    create_shape create /\
    if 0 <? CreateAndBuyParams.buyAmountSol p
    then exists g part,
           buy_shape g creator_key (CreateAndBuyParams.buyAmountSol p) part /\
           tx = tip ++ create ++ part
    else tx = tip ++ create.

(** The transaction of one batch: the tip of its first participant, then the
    buys of its participants in order. *)
Definition batch_shape (batch : list BundledBuy) (tx : Transaction) : Prop :=
  exists g tip parts,
    tx = tip ++ List.concat parts /\
    match batch with
    | first :: _ => tip_shape (publicKey (signer first)) tip
    | [] => tip = []
    end /\
    Forall2 (fun buy part =>
               buy_shape g (publicKey (signer buy)) (amountInSol buy) part)
            batch parts.

End Shapes.

(** Two lists of keys with the same members. *)
Definition same_keys (a b : list PublicKey) : Prop :=
  forall k, In k a <-> In k b.

(** The buy builder as the specification words it: the account creation is
    emitted exactly when the lookup reports absence. *)
Definition creates_iff_absent : Prop :=
  forall (buyer mint recipient : PublicKey) (amount solAmount : Z)
         (commitment : option Commitment) (rt : Runtime) (h : list Event) tx t,
    getBuyInstructions buyer mint recipient amount solAmount commitment rt h
    = (Ok tx, t) ->
    (In (create_holding_account buyer mint) tx <->
     reports_absence (holding_lookup buyer mint commitment rt h) = true).

(** The outcome of the sequential path as the specification words it: when
    the second of three transactions fails, the caller gets the first
    transaction's successful result, and at most two transactions were
    submitted. *)
Definition second_failure_returns_first_result : Prop :=
  forall (p : CreateAndBuyParams.t) (rt : Runtime) (h : list Event)
         t1 t2 t3 s1 s2 s3 tp r1 tr1 r2 tr2 out tr,
    enabled (CreateAndBuyParams.jitoConfig p) = None ->
    plan p rt h = (Ok ([t1; t2; t3], [s1; s2; s3]), tp) ->
    sendPlanned p (Some t1) (Some s1) rt (h ++ tp) = (Ok r1, tr1) ->
    success r1 = true ->
    sendPlanned p (Some t2) (Some s2) rt (h ++ tp ++ tr1) = (Ok r2, tr2) ->
    success r2 = false ->
    createAndBuy p rt h = (out, tr) ->
    out = Ok (Some r1) /\ (List.length (sent_transactions tr) <= 2)%nat.

(** The [error] field of a relay response. *)
Definition error_of (response : Json) : option Json :=
  match response with
  | JObj fields => assoc "error"%string fields
  | _ => None
  end.



End Properties.

(* ================================================================== *)
(** ** Concrete runtimes and requests *)

Module Scenario.
Import Js Solana Host Jito Util PumpFunSDK.
Local Open Scope string_scope.
Local Open Scope list_scope.
Local Open Scope Z_scope.

Definition global : GlobalAccount :=
  {| feeRecipient := Base58 "CebN5WGQ4jvEPvsVU4EoHEpgzq1VV7AbicfhtW4xC9iM";
     feeBasisPoints := 100;
     initialVirtualTokenReserves := 1073000000000000;
     initialVirtualSolReserves := 30000000000 |}.

Definition curve : BondingCurveAccount :=
  {| virtualTokenReserves := 1073000000000000;
     virtualSolReserves := 30000000000;
     realTokenReserves := 793100000000000;
     realSolReserves := 0;
     tokenTotalSupply := 1000000000000000;
     complete := false |}.

(** An oracle in which everything works, except: submission number [n]
    (counted from 0) is rejected by the node when [send_fails n]; holding
    accounts exist when [holding]; the relay answers [bundle_reply]. *)
Definition oracle (send_fails : nat -> bool) (holding : bool)
                  (bundle_reply : Json)
                  (R : Type) (h : list Event) (c : Call R) : Result R :=
  match c in Call R return Result R with
  | MathRandomIndex _ => Ok 2%nat
  | FetchPost _ _ => Ok {| status := 200; ok := true; body := "metadata" |}
  | GetAccountInfo _ _ => Ok (Some [])
  | GlobalAccount_fromBuffer _ => Ok global
  | GlobalAccount_getInitialBuyPrice g amount =>
      Ok (Z.quot (initialVirtualTokenReserves g * amount)
                 (initialVirtualSolReserves g + amount))
  | BondingCurveAccount_fromBuffer _ => Ok curve
  | BondingCurveAccount_getBuyPrice c amount =>
      Ok (Z.quot (virtualTokenReserves c * amount)
                 (virtualSolReserves c + amount))
  | SplToken_getAccount _ _ =>
      if holding then Ok tt else Throw (VTokenError "TokenAccountNotFoundError")
  | GetLatestBlockhash _ =>
      Ok {| blockhash := "EkSnNWid2cvwEVnVx9aBqawnmiCNiDgp3gUdkDPTKN1N";
            lastValidBlockHeight := 3090 |}
  | SendTransaction _ _ _ =>
      if send_fails (count is_send_transaction h)
      then Throw (VSendTransactionError "Transaction simulation failed")
      else Ok "5VERv8NMvzbJMEkV8xnrLkEaWRtSz9CosKDYjCJjBRnb"
  | ConfirmTransaction _ _ _ => Ok tt
  | GetTransaction _ _ => Ok (Some {| slot := 1; logMessages := [] |})
  | SendTransactionError_getLogs _ =>
      Ok (Some ["Program log: Error: slippage exceeded"])
  | JitoSendBundle _ _ => Ok bundle_reply
  end.

(** Keys given in base58 are keys of keypairs, hence on the curve; derived
    addresses are off it. *)
Definition toBase58 (k : PublicKey) : string :=
  match k with
  | Base58 s => s
  | _ => "11111111111111111111111111111111"
  end.

Definition isOnCurve (k : PublicKey) : bool :=
  match k with
  | Base58 _ => true
  | _ => false
  end.

(** The pure library functions of every runtime below, with the given
    oracle. *)
Definition runtime_of (decodes : bool)
                      (oracle : forall R : Type, list Event -> Call R -> Result R)
  : Runtime :=
  {| JSON_stringify := fun _ => "{code:-32602}";
     JSON_parse := fun _ => Some (JObj [("metadataUri", JStr "https://ipfs.io/ipfs/Qm")]);
     bs58_decodes := fun _ => decodes;
     AnchorError_parse := fun _ => Ok None;
     PublicKey_toBase58 := toBase58;
     PublicKey_isOnCurve := isOnCurve;
     Buffer_from_utf8 :=
       fun _ => Throw (VTypeError "The first argument must be of type string");
     RangeError_message := fun _ => "The value is out of range";
     answer := oracle |}.

Definition runtime (send_fails : nat -> bool) (holding : bool)
                   (bundle_reply : Json) : Runtime :=
  runtime_of true (oracle send_fails holding bundle_reply).

Definition accepted : Json := JObj [("result", JStr "bundle-id")].


(** Every submission succeeds. *)
Definition all_good : Runtime := runtime (fun _ => false) true accepted.

(** The second submission (number 1) is rejected. *)
Definition second_fails : Runtime := runtime (Nat.eqb 1) true accepted.


(** No holding account exists yet. *)
Definition no_holding : Runtime := runtime (fun _ => false) false accepted.

(** The node cannot be reached when a holding account is looked up. *)
Definition lookup_fails_oracle (R : Type) (h : list Event) (c : Call R)
  : Result R :=
  match c in Call R return Result R -> Result R with
  | SplToken_getAccount _ _ => fun _ => Throw (VError "fetch failed")
  | _ => fun otherwise => otherwise
  end (oracle (fun _ => false) true accepted R h c).

Definition lookup_fails : Runtime := runtime_of true lookup_fails_oracle.

Definition keypair (s : string) : Keypair :=
  {| publicKey := Base58 s; secretKey := ("secret-" ++ s)%string |}.

Definition metadata : CreateTokenMetadata.t :=
  {| CreateTokenMetadata.name := "TST";
     CreateTokenMetadata.symbol := "TST";
     CreateTokenMetadata.description := "a test token";
     CreateTokenMetadata.file := Blob "png";
     CreateTokenMetadata.twitter := None;
     CreateTokenMetadata.telegram := None;
     CreateTokenMetadata.website := None |}.

Definition buyers (names : list string) : list BundledBuy :=
  map (fun s => {| amountInSol := 1000000; signer := keypair s |}) names.

Definition request (buyAmountSol : Z) (jito : option JitoConfig)
                   (names : list string) : CreateAndBuyParams.t :=
  {| CreateAndBuyParams.creator := keypair "creator";
     CreateAndBuyParams.mint := keypair "mint";
     CreateAndBuyParams.createTokenMetadata := metadata;
     CreateAndBuyParams.buyAmountSol := buyAmountSol;
     CreateAndBuyParams.slippageBasisPoints := None;
     CreateAndBuyParams.priorityFees := None;
     CreateAndBuyParams.commitment := None;
     CreateAndBuyParams.finality := None;
     CreateAndBuyParams.jitoConfig := jito;
     CreateAndBuyParams.bundledBuys := Some (buyers names) |}.

Definition nine : list string :=
  ["b1"; "b2"; "b3"; "b4"; "b5"; "b6"; "b7"; "b8"; "b9"].

Definition five : list string := ["b1"; "b2"; "b3"; "b4"; "b5"].

Definition jito_on : option JitoConfig :=
  Some {| jitoEnabled := true; endpoint := None; tipLampports := None |}.

Definition jito_off : option JitoConfig :=
  Some {| jitoEnabled := false; endpoint := None; tipLampports := None |}.

(** The run of [plan] on a request, split into its parts. *)
Definition planned_transactions (p : CreateAndBuyParams.t) (rt : Runtime)
  : list Transaction :=
  match fst (plan p rt []) with
  | Ok (txs, _) => txs
  | Throw _ => []
  end.

Definition planned_signers (p : CreateAndBuyParams.t) (rt : Runtime)
  : list (list Keypair) :=
  match fst (plan p rt []) with
  | Ok (_, sgs) => sgs
  | Throw _ => []
  end.

Definition planned_trace (p : CreateAndBuyParams.t) (rt : Runtime)
  : list Event :=
  snd (plan p rt []).

(** Three planned transactions, the second of which the node rejects. *)
Definition three : CreateAndBuyParams.t := request 0 jito_off five.

Definition tx_at (i : nat) : Transaction :=
  nth i (planned_transactions three second_fails) [].

Definition sg_at (i : nat) : list Keypair :=
  nth i (planned_signers three second_fails) [].

Definition result_of (run : Result TransactionResult * list Event)
  : TransactionResult :=
  match fst run with
  | Ok r => r
  | Throw e => {| signature := None; error := Some e;
                  results := None; success := false |}
  end.

Definition first_send : Result TransactionResult * list Event :=
  sendPlanned three (Some (tx_at 0)) (Some (sg_at 0)) second_fails
              (planned_trace three second_fails).

Definition second_send : Result TransactionResult * list Event :=
  sendPlanned three (Some (tx_at 1)) (Some (sg_at 1)) second_fails
              (planned_trace three second_fails ++ snd first_send).

(** A relay request and the error the relay reports for it. *)
Definition relayed : CreateAndBuyParams.t := request 5 jito_on nine.


End Scenario.

(* ================================================================== *)
(** ** Further observations on traces, and the sell builder *)

Module Coverage.
Import Js Solana Host Jito Util Slippage PumpFunSDK Properties.
Local Open Scope string_scope.
Local Open Scope list_scope.
Local Open Scope Z_scope.
Local Open Scope sdk_scope.

(** The bundles handed to the relay, in order, with their endpoint. *)
Fixpoint sent_bundles (t : list Event)
  : list (JitoEndpoint * list VersionedTransaction) :=
  match t with
  | [] => []
  | Ev c _ :: rest =>
      match c with
      | JitoSendBundle endpoint txs => (endpoint, txs) :: sent_bundles rest
      | _ => sent_bundles rest
      end
  end.

(** The answers of the metadata gateway, in order. *)
Fixpoint fetch_responses (t : list Event) : list (Result HttpResponse) :=
  match t with
  | [] => []
  | Ev c r :: rest =>
      match c in Call R return Result R -> list (Result HttpResponse) with
      | FetchPost _ _ => fun r => r :: fetch_responses rest
      | _ => fun _ => fetch_responses rest
      end r
  end.

(** The answers of the node to direct submissions, in order. *)
Fixpoint node_answers (t : list Event) : list (Result string) :=
  match t with
  | [] => []
  | Ev c r :: rest =>
      match c in Call R return Result R -> list (Result string) with
      | SendTransaction _ _ _ => fun r => r :: node_answers rest
      | _ => fun _ => node_answers rest
      end r
  end.

(** A read of ledger state, an upload or a quote: what planning does. *)
Definition is_planning_call (e : Event) : bool :=
  match e with
  | Ev c _ =>
      match c with
      | FetchPost _ _ => true
      | GetAccountInfo _ _ => true
      | GlobalAccount_fromBuffer _ => true
      | GlobalAccount_getInitialBuyPrice _ _ => true
      | BondingCurveAccount_fromBuffer _ => true
      | BondingCurveAccount_getBuyPrice _ _ => true
      | SplToken_getAccount _ _ => true
      | _ => false
      end
  end.

Definition is_confirmation (e : Event) : bool :=
  match e with
  | Ev c _ =>
      match c with
      | ConfirmTransaction _ _ _ => true
      | GetTransaction _ _ => true
      | _ => false
      end
  end.

Definition is_random_draw (e : Event) : bool :=
  match e with
  | Ev c _ => match c with MathRandomIndex _ => true | _ => false end
  end.

Definition is_blockhash_fetch (e : Event) : bool :=
  match e with
  | Ev c _ => match c with GetLatestBlockhash _ => true | _ => false end
  end.

(** Not a planning call. *)
Definition no_planning (e : Event) : bool := negb (is_planning_call e).

(** A transaction signed by exactly the accounts its instructions are issued
    for. *)
Definition properly_signed (v : VersionedTransaction) : Prop :=
  same_keys (transaction_signers (instructions v)) (signatures v).

(** The compute-budget instructions [sendTx] puts in front. *)
Definition fee_instructions (fees : option PriorityFee) : Transaction :=
  match fees with
  | Some f => [SetComputeUnitLimit (unitLimit f);
               SetComputeUnitPrice (unitPrice f)]
  | None => []
  end.

(** The buys of a transaction: who buys, and the maximum spend. *)
Definition buys_of (tx : Transaction) : list (PublicKey * Z) :=
  flat_map (fun i =>
              match i with
              | PumpBuy _ solAmount _ _ _ _ user => [(user, solAmount)]
              | _ => []
              end) tx.

(** The transfers of a transaction: who pays, and how much. *)
Definition transfers_of (tx : Transaction) : list (PublicKey * Z) :=
  flat_map (fun i =>
              match i with
              | SystemTransfer fromPubkey _ lamports => [(fromPubkey, lamports)]
              | _ => []
              end) tx.

(** The buy a participant asks for: the participant's key and the maximum
    spend [createAndBuy] computes for the participant. *)
Definition requested_buy (p : CreateAndBuyParams.t) (b : BundledBuy)
  : PublicKey * Z :=
  (publicKey (signer b), max_spend p (amountInSol b)).

(** [bundledBuys] as a list: empty when missing. *)
Definition bundled (p : CreateAndBuyParams.t) : list BundledBuy :=
  match CreateAndBuyParams.bundledBuys p with
  | Some buys => buys
  | None => []
  end.

Definition is_transfer (i : Instruction) : bool :=
  match i with
  | SystemTransfer _ _ _ => true
  | _ => false
  end.

(** [response.result] *)
Definition result_of_response (response : Json) : option Json :=
  match response with
  | JObj fields => assoc "result" fields
  | _ => None
  end.

(** The result reported for a relay answer without error. *)
Definition bundle_success (response : Json) : TransactionResult :=
  {| signature := result_of_response response; error := None;
     results := None; success := true |}.

(** A result whose fields agree with its success flag: no error on success;
    an error and neither signature nor details on failure. *)
Definition consistent (r : TransactionResult) : Prop :=
  if success r
  then error r = None
  else error r <> None /\ signature r = None /\ results r = None.

(** The result of [sendTx] when the transaction cannot be fetched back. *)
Definition not_found_failure : TransactionResult :=
  {| signature := None; error := Some (VString "Transaction failed");
     results := None; success := false |}.

(** The prefixes of the messages the [catch] block of [sendTx] builds. *)
Definition failure_prefixes : list string :=
  [ "Transaction failed: Compute budget exceeded";
    "Anchor Error: "; "Program Error: "; "Transaction Error: ";
    "Unknown Error: " ].

(** The signed transaction [sendTx] builds on the block reference [b]. *)
Definition signed_transaction (payer : PublicKey) (b : string)
                              (body : Transaction) (signers : list Keypair)
  : VersionedTransaction :=
  {| payerKey := payer; recentBlockhash := b; instructions := body;
     signatures := map publicKey signers |}.

(** *** The sell builder ([src/pumpfun.ts], lines 472-540) *)

(** The sell instruction of the program, argument for argument. *)
Inductive SellInstruction : Type :=
| PumpSell (amount minSolOutput : Z)
           (feeRecipient mint associatedBondingCurve associatedUser user
              : PublicKey).

Definition getSellInstructions (seller mint feeRecipient : PublicKey)
                               (amount minSolOutput : Z)
  : M (list SellInstruction) :=
  associatedBondingCurve <-
    getAssociatedTokenAddress mint (BondingCurvePDA mint) true ;;
  associatedUser <- getAssociatedTokenAddress mint seller false ;;
  amount <- lift (u64 amount) ;;
  minSolOutput <- lift (u64 minSolOutput) ;;
  ret [PumpSell amount minSolOutput feeRecipient mint
                associatedBondingCurve associatedUser seller].

Section Sell.

(** [bondingCurveAccount.getSellPrice(amount, feeBasisPoints)], whose class
    is not among the sources: any function that returns or throws. *)
Variable getSellPrice : BondingCurveAccount -> Z -> Z -> Result Z.

Definition getSellInstructionsByTokenAmount
           (seller mint : PublicKey) (sellTokenAmount : Z)
           (slippageBasisPoints : option Z) (commitment : option Commitment)
  : M (list SellInstruction) :=
  let slippageBasisPoints := match slippageBasisPoints with Some b => b | None => 500 end in
  let commitment := match commitment with Some c => c | None => DEFAULT_COMMITMENT end in
  bondingCurveAccount <- getBondingCurveAccount mint commitment ;;
  match bondingCurveAccount with
  | None =>
      key <- asks (fun rt => PublicKey_toBase58 rt mint) ;;
      throw (VError ("Bonding curve account not found: " ++ key))
  | Some curve =>
      globalAccount <- getGlobalAccount commitment ;;
      minSolOutput <- lift (getSellPrice curve sellTokenAmount
                              (feeBasisPoints globalAccount)) ;;
      let sellAmountWithSlippage :=
        calculateWithSlippageSell minSolOutput slippageBasisPoints in
      getSellInstructions seller mint (feeRecipient globalAccount)
                          sellTokenAmount sellAmountWithSlippage
  end.

End Sell.


(** A runtime on which no account exists: every [getAccountInfo] is [null]. *)
Definition no_account_oracle (R : Type) (h : list Event) (c : Call R)
  : Result R :=
  match c in Call R return Result R -> Result R with
  | GetAccountInfo _ _ => fun _ => Ok None
  | _ => fun otherwise => otherwise
  end (Scenario.oracle (fun _ => false) true Scenario.accepted R h c).

Definition no_account : Runtime := Scenario.runtime_of true no_account_oracle.

Definition example_buy : BuyParams.t :=
  {| BuyParams.buyer := Scenario.keypair "buyer";
     BuyParams.mint := Base58 "mint";
     BuyParams.buyAmountSol := 1000000;
     BuyParams.slippageBasisPoints := None;
     BuyParams.priorityFees := Some {| unitPrice := 250000; unitLimit := 250000 |};
     BuyParams.commitment := None;
     BuyParams.finality := None;
     BuyParams.jitoConfig := None |}.

(** A runtime whose node returns a signature that is not base58. *)
Definition bad_signature : Runtime :=
  Scenario.runtime_of false (answer Scenario.all_good).

(** A runtime on which the block reference cannot be fetched. *)
Definition no_blockhash_oracle (R : Type) (h : list Event) (c : Call R)
  : Result R :=
  match c in Call R return Result R -> Result R with
  | GetLatestBlockhash _ => fun _ => Throw (VError "fetch failed")
  | _ => fun otherwise => otherwise
  end (Scenario.oracle (fun _ => false) true Scenario.accepted R h c).

Definition no_blockhash : Runtime :=
  Scenario.runtime_of true no_blockhash_oracle.

(** Lines 245-257 of [createAndBuy]: what follows the relay's answer. *)
Definition createAndBuy_after_relay (response : Json)
  : M (option TransactionResult) :=
  err <- field "error" response ;;
  if truthy_opt err then
    message <- asks (fun rt =>
                       match err with
                       | Some e => jito_bundle_error rt e
                       | None => ""
                       end) ;;
    ret (Some {| signature := None; error := Some (VError message);
                 results := None; success := false |})
  else
    result <- field "result" response ;;
    ret (Some {| signature := result; error := None;
                 results := None; success := true |}).

(** Lines 127-136 of [sendTx]: what follows the relay's answer. *)
Definition sendTx_after_relay (response : Json) : M TransactionResult :=
  err <- field "error" response ;;
  if truthy_opt err then
    message <- asks (fun rt =>
                       match err with
                       | Some e => jito_bundle_error rt e
                       | None => ""
                       end) ;;
    throw (VError message)
  else
    result <- field "result" response ;;
    ret {| signature := result; error := None;
           results := None; success := true |}.

(** The failure [sendTx] reports when the relay answers [null]. *)
Definition null_response_failure : TransactionResult :=
  {| signature := None;
     error := Some (TransactionError
                      "Unknown Error: Cannot read properties of null (reading 'error')"
                      None);
     results := None;
     success := false |}.

(** Runtimes whose relay answers an empty object, or [null]. *)
Definition relay_empty : Runtime :=
  Scenario.runtime (fun _ => false) true (JObj []).

Definition relay_null : Runtime :=
  Scenario.runtime (fun _ => false) true JNull.

(** One transaction sent through the relay with a tip of zero lamports. *)
Definition example_relay_send : Result TransactionResult * list Event :=
  sendTx [] (Base58 "payer") [Scenario.keypair "payer"] None None None
         (Some true) (Some 0) (Some "https://relay.example") Scenario.all_good [].

(** One transaction sent through a relay that answers [null]. *)
Definition example_null_send : Result TransactionResult * list Event :=
  sendTx [] (Base58 "payer") [Scenario.keypair "payer"] None None None
         (Some true) None None relay_null [].

(** A launch with five bundled buys, submitted one by one to a node that
    accepts everything. *)
Definition example_launch : Result (option TransactionResult) * list Event :=
  createAndBuy Scenario.three Scenario.all_good [].

Definition example_launch_result : TransactionResult :=
  match fst example_launch with
  | Ok (Some r) => r
  | _ => not_found_failure
  end.

(** Every transaction a run handed over, to the node or to the relay. *)
Definition handed_over (t : list Event) : list VersionedTransaction :=
  sent_transactions t ++ flat_map snd (sent_bundles t).

(** A launch with nine bundled buys through the relay, and a single buy. *)
Definition example_relayed : Result (option TransactionResult) * list Event :=
  createAndBuy Scenario.relayed Scenario.all_good [].

Definition example_bought : Result TransactionResult * list Event :=
  buy example_buy Scenario.all_good [].

(** A sell quote of a constant-product curve net of the fee, for examples. *)
Definition example_sell_price (c : BondingCurveAccount) (amount fee : Z)
  : Result Z :=
  let n := Z.quot (amount * virtualSolReserves c)
                  (virtualTokenReserves c + amount) in
  Ok (n - Z.quot (n * fee) 10000).

End Coverage.

(* ================================================================== *)
(** ** Theorems: slippage arithmetic *)

Module SlippageFacts.
Import Slippage.

Lemma margin_floor (amount basisPoints : Z) :
  0 <= amount -> 0 <= basisPoints ->
  Z.quot (amount * basisPoints) 10000 = (amount * basisPoints) / 10000.
Proof.
  intros Ha Hb. apply Z.quot_div_nonneg; nia.
Qed.

Lemma margin_nonneg (amount basisPoints : Z) :
  0 <= amount -> 0 <= basisPoints ->
  0 <= (amount * basisPoints) / 10000.
Proof.
  intros Ha Hb. apply Z.div_pos; nia.
Qed.

Lemma margin_positive_iff (amount basisPoints : Z) :
  0 <= amount -> 0 <= basisPoints ->
  (0 < (amount * basisPoints) / 10000 <-> 10000 <= amount * basisPoints).
Proof.
  intros Ha Hb.
  pose proof (Z.div_mod (amount * basisPoints) 10000 ltac:(lia)) as E.
  pose proof (Z.mod_pos_bound (amount * basisPoints) 10000 ltac:(lia)) as B.
  split; intro H; nia.
Qed.

(** C4. For a non-negative amount and a non-negative tolerance,
    [calculateWithSlippageBuy] returns exactly
    [amount + floor (amount * basisPoints / 10000)]. *)
Theorem buy_slippage_exact (amount basisPoints : Z) :
  0 <= amount -> 0 <= basisPoints ->
  calculateWithSlippageBuy amount basisPoints
    = amount + (amount * basisPoints) / 10000.
Proof.
  intros Ha Hb. unfold calculateWithSlippageBuy.
  now rewrite margin_floor.
Qed.

Lemma buy_slippage_exact_witness :
  calculateWithSlippageBuy 1000000 500 = 1000000 + (1000000 * 500) / 10000.
Proof.
  apply (buy_slippage_exact 1000000 500); lia.
Defined.

(** C9. A tolerance of zero basis points leaves the amount unchanged, on the
    buy side and on the sell side. *)
Theorem zero_slippage_identity (x : Z) :
  calculateWithSlippageBuy x 0 = x /\ calculateWithSlippageSell x 0 = x.
Proof.
  unfold calculateWithSlippageBuy, calculateWithSlippageSell.
  rewrite Z.mul_0_r. change (Z.quot 0 10000) with 0. lia.
Qed.

(** C3, as stated, fails: one unit at 500 basis points has a margin of zero,
    so the buy bound equals the amount. *)
Lemma strictly_worse_fails : ~ strictly_worse_rounded_away.
Proof.
  intro H. destruct (H 1 500 ltac:(lia)) as [Hbuy _].
  vm_compute in Hbuy. discriminate Hbuy.
Qed.

(** C3, amended. For a non-negative amount and a non-negative tolerance the
    buy bound is never below the amount and the sell bound never above it;
    either is strict exactly when [amount * basisPoints >= 10000]. The margin
    is truncated, so the buy bound is the exact bound rounded down and the
    sell bound the exact bound rounded up. *)
Theorem slippage_bounds_weakly_worse (amount basisPoints : Z) :
  0 <= amount -> 0 <= basisPoints ->
  amount <= calculateWithSlippageBuy amount basisPoints /\
  calculateWithSlippageSell amount basisPoints <= amount /\
  (amount < calculateWithSlippageBuy amount basisPoints
     <-> 10000 <= amount * basisPoints) /\
  (calculateWithSlippageSell amount basisPoints < amount
     <-> 10000 <= amount * basisPoints) /\
  calculateWithSlippageBuy amount basisPoints
    = (amount * (10000 + basisPoints)) / 10000 /\
  calculateWithSlippageSell amount basisPoints
    = cdiv (amount * (10000 - basisPoints)) 10000.
Proof.
  intros Ha Hb.
  unfold calculateWithSlippageBuy, calculateWithSlippageSell, cdiv.
  rewrite margin_floor by assumption.
  pose proof (margin_nonneg amount basisPoints Ha Hb) as Hm.
  pose proof (margin_positive_iff amount basisPoints Ha Hb) as Hp.
  repeat split; try lia.
  - replace (amount * (10000 + basisPoints))
      with (amount * basisPoints + amount * 10000) by ring.
    rewrite Z.div_add by lia. lia.
  - replace (- (amount * (10000 - basisPoints)))
      with (amount * basisPoints + (- amount) * 10000) by ring.
    rewrite Z.div_add by lia. lia.
Qed.

Lemma slippage_bounds_weakly_worse_witness :
  7 <= calculateWithSlippageBuy 7 5000 /\
  calculateWithSlippageSell 7 5000 <= 7 /\
  (7 < calculateWithSlippageBuy 7 5000 <-> 10000 <= 7 * 5000) /\
  (calculateWithSlippageSell 7 5000 < 7 <-> 10000 <= 7 * 5000) /\
  calculateWithSlippageBuy 7 5000 = (7 * (10000 + 5000)) / 10000 /\
  calculateWithSlippageSell 7 5000 = cdiv (7 * (10000 - 5000)) 10000.
Proof.
  apply (slippage_bounds_weakly_worse 7 5000); lia.
Defined.

(** C5, as stated, fails: one unit at 20000 basis points has a margin of two,
    and the sell bound is the number [-1], not an error. *)
Lemma sell_underflow_not_an_error : ~ sell_underflow_is_an_error.
Proof.
  intro H. destruct (H 1 20000 ltac:(vm_compute; reflexivity)) as [what E].
  discriminate E.
Qed.

(** C5, amended. [calculateWithSlippageSell] always returns a number: the
    signed difference [amount - trunc (amount * basisPoints / 10000)]. For a
    non-negative amount and tolerance that number is negative exactly when the
    margin exceeds the amount, and it is never negative for a tolerance of at
    most 10000 basis points. *)
Theorem sell_slippage_signed (amount basisPoints : Z) :
  0 <= amount -> 0 <= basisPoints ->
  calculateWithSlippageSell_call amount basisPoints
    = Returns (amount - (amount * basisPoints) / 10000) /\
  (calculateWithSlippageSell amount basisPoints < 0
     <-> amount < (amount * basisPoints) / 10000) /\
  (basisPoints <= 10000 -> 0 <= calculateWithSlippageSell amount basisPoints).
Proof.
  intros Ha Hb.
  unfold calculateWithSlippageSell_call, calculateWithSlippageSell.
  rewrite margin_floor by assumption.
  repeat split; try lia.
  intro Hle.
  assert ((amount * basisPoints) / 10000 <= amount); [| lia].
  apply Z.div_le_upper_bound; nia.
Qed.

Lemma sell_slippage_signed_witness :
  calculateWithSlippageSell_call 1 20000
    = Returns (1 - (1 * 20000) / 10000) /\
  (calculateWithSlippageSell 1 20000 < 0 <-> 1 < (1 * 20000) / 10000) /\
  (20000 <= 10000 -> 0 <= calculateWithSlippageSell 1 20000).
Proof.
  apply (sell_slippage_signed 1 20000); lia.
Defined.

End SlippageFacts.

(* ================================================================== *)
(** ** Theorems: the monad and its traces *)

Module MonadFacts.
Import Js Solana Host.

Lemma bind_inv {A B} (m : M A) (f : A -> M B) rt h r t :
  bind m f rt h = (r, t) ->
  (exists e, m rt h = (Throw e, t) /\ r = Throw e) \/
  (exists a t1 t2,
      m rt h = (Ok a, t1) /\ f a rt (h ++ t1) = (r, t2) /\ t = t1 ++ t2).
Proof.
  unfold bind. destruct (m rt h) as [[a | e] t1]; intro H.
  - right. destruct (f a rt (h ++ t1)) as [r2 t2] eqn:E.
    inversion H; subst. now exists a, t1, t2.
  - left. inversion H; subst. now exists e.
Qed.

Lemma bind_ok_inv {A B} (m : M A) (f : A -> M B) rt h b t :
  bind m f rt h = (Ok b, t) ->
  exists a t1 t2,
    m rt h = (Ok a, t1) /\ f a rt (h ++ t1) = (Ok b, t2) /\ t = t1 ++ t2.
Proof.
  intro H. destruct (bind_inv _ _ _ _ _ _ H) as [[e [_ D]] | R].
  - discriminate D.
  - exact R.
Qed.

Lemma bind_ok {A B} (m : M A) (f : A -> M B) rt h a t1 :
  m rt h = (Ok a, t1) ->
  bind m f rt h = (fst (f a rt (h ++ t1)), t1 ++ snd (f a rt (h ++ t1))).
Proof.
  intro E. unfold bind. rewrite E. now destruct (f a rt (h ++ t1)).
Qed.

Lemma bind_throw {A B} (m : M A) (f : A -> M B) rt h e t1 :
  m rt h = (Throw e, t1) -> bind m f rt h = (Throw e, t1).
Proof.
  intro E. unfold bind. now rewrite E.
Qed.

Lemma try_catch_inv {A} (m : M A) (handler : Value -> M A) rt h r t :
  try_catch m handler rt h = (r, t) ->
  (exists a, m rt h = (Ok a, t) /\ r = Ok a) \/
  (exists e t1 t2,
      m rt h = (Throw e, t1) /\ handler e rt (h ++ t1) = (r, t2)
      /\ t = t1 ++ t2).
Proof.
  unfold try_catch. destruct (m rt h) as [[a | e] t1]; intro H.
  - left. inversion H; subst. now exists a.
  - right. destruct (handler e rt (h ++ t1)) as [r2 t2] eqn:E.
    inversion H; subst. now exists e, t1, t2.
Qed.

Lemma emits_ret P {A} (a : A) : emits P (ret a).
Proof. intros rt h. reflexivity. Qed.

Lemma emits_throw P {A} e : emits P (@throw A e).
Proof. intros rt h. reflexivity. Qed.

Lemma emits_asks P {A} (f : Runtime -> A) : emits P (asks f).
Proof. intros rt h. reflexivity. Qed.

Lemma emits_lift P {A} (r : Result A) : emits P (lift r).
Proof. intros rt h. reflexivity. Qed.

Lemma emits_call P {R} (c : Call R) :
  (forall r, P (Ev c r) = true) -> emits P (call c).
Proof. intros H rt h. unfold call. simpl. now rewrite H. Qed.

Lemma emits_bind P {A B} (m : M A) (f : A -> M B) :
  emits P m -> (forall a, emits P (f a)) -> emits P (bind m f).
Proof.
  intros Hm Hf rt h. unfold bind.
  specialize (Hm rt h). destruct (m rt h) as [[a | e] t1]; simpl in *.
  - specialize (Hf a rt (h ++ t1)).
    destruct (f a rt (h ++ t1)) as [r t2]. simpl in *.
    rewrite forallb_app. now rewrite Hm, Hf.
  - exact Hm.
Qed.

Lemma emits_try_catch P {A} (m : M A) (handler : Value -> M A) :
  emits P m -> (forall e, emits P (handler e)) -> emits P (try_catch m handler).
Proof.
  intros Hm Hh rt h. unfold try_catch.
  specialize (Hm rt h). destruct (m rt h) as [[a | e] t1]; simpl in *.
  - exact Hm.
  - specialize (Hh e rt (h ++ t1)).
    destruct (handler e rt (h ++ t1)) as [r t2]. simpl in *.
    rewrite forallb_app. now rewrite Hm, Hh.
Qed.

Lemma emits_run P {A} (m : M A) rt h r t :
  emits P m -> m rt h = (r, t) -> forallb P t = true.
Proof.
  intros H E. specialize (H rt h). now rewrite E in H.
Qed.

Lemma ret_inv {A} (a : A) rt h r t :
  ret a rt h = (r, t) -> r = Ok a /\ t = [].
Proof. unfold ret. intro H. now inversion H. Qed.

Lemma throw_inv {A} e rt h (r : Result A) t :
  throw e rt h = (r, t) -> r = Throw e /\ t = [].
Proof. unfold throw. intro H. now inversion H. Qed.

Lemma asks_inv {A} (f : Runtime -> A) rt h r t :
  asks f rt h = (r, t) -> r = Ok (f rt) /\ t = [].
Proof. unfold asks. intro H. now inversion H. Qed.

Lemma lift_inv {A} (x : Result A) rt h r t :
  lift x rt h = (r, t) -> r = x /\ t = [].
Proof. unfold lift. intro H. now inversion H. Qed.

Lemma call_inv {R} (c : Call R) rt h r t :
  call c rt h = (r, t) -> r = answer rt R h c /\ t = [Ev c r].
Proof. unfold call. intro H. inversion H. now subst. Qed.

Lemma count_app p (t1 t2 : list Event) :
  count p (t1 ++ t2) = (count p t1 + count p t2)%nat.
Proof.
  unfold count. now rewrite filter_app, length_app.
Qed.

Lemma count_none p (t : list Event) :
  forallb (fun e => negb (p e)) t = true -> count p t = 0%nat.
Proof.
  unfold count. induction t as [| e t IH]; simpl; intro H.
  - reflexivity.
  - apply andb_prop in H. destruct H as [He Ht].
    destruct (p e); [discriminate He | now apply IH].
Qed.

Lemma sent_transactions_app (t1 t2 : list Event) :
  sent_transactions (t1 ++ t2) = sent_transactions t1 ++ sent_transactions t2.
Proof.
  induction t1 as [| [R c r] t1 IH]; simpl.
  - reflexivity.
  - destruct c; simpl; now rewrite IH.
Qed.

Lemma bundle_responses_app (t1 t2 : list Event) :
  bundle_responses (t1 ++ t2) = bundle_responses t1 ++ bundle_responses t2.
Proof.
  induction t1 as [| [R c r] t1 IH]; simpl.
  - reflexivity.
  - destruct c; simpl; now rewrite IH.
Qed.

Lemma bundle_responses_none (t : list Event) :
  forallb (fun e => negb (is_send_bundle e)) t = true ->
  bundle_responses t = [].
Proof.
  induction t as [| [R c r] t IH]; simpl; intro H.
  - reflexivity.
  - apply andb_prop in H. destruct H as [He Ht].
    destruct c; simpl in *; try discriminate He; now apply IH.
Qed.

Lemma sent_transactions_length (t : list Event) :
  List.length (sent_transactions t) = count is_send_transaction t.
Proof.
  unfold count. induction t as [| [R c r] t IH]; simpl.
  - reflexivity.
  - destruct c; simpl; now rewrite IH.
Qed.

Lemma succeeds_ret rt {A} (a : A) : succeeds rt (ret a).
Proof. intro h. now exists a, []. Qed.

Lemma succeeds_bind rt {A B} (m : M A) (f : A -> M B) :
  succeeds rt m -> (forall a, succeeds rt (f a)) -> succeeds rt (bind m f).
Proof.
  intros Hm Hf h. destruct (Hm h) as [a [t1 E1]].
  destruct (Hf a (h ++ t1)) as [b [t2 E2]].
  exists b, (t1 ++ t2). unfold bind. now rewrite E1, E2.
Qed.

Lemma succeeds_try_catch rt {A} (m : M A) (handler : Value -> M A) :
  (forall e, succeeds rt (handler e)) -> succeeds rt (try_catch m handler).
Proof.
  intros Hh h. unfold try_catch.
  destruct (m rt h) as [[a | e] t1].
  - now exists a, t1.
  - destruct (Hh e (h ++ t1)) as [b [t2 E2]].
    exists b, (t1 ++ t2). now rewrite E2.
Qed.

Lemma succeeds_call rt {R} (c : Call R) :
  (forall h, exists v, answer rt R h c = Ok v) -> succeeds rt (call c).
Proof.
  intros H h. destruct (H h) as [v E]. unfold call. rewrite E. eauto.
Qed.

End MonadFacts.

(* ================================================================== *)
(** ** Theorems: library functions *)

Module LibraryFacts.
Import Js Solana Host Jito Util PumpFunSDK MonadFacts.
Local Open Scope list_scope.

Lemma key_eqb_eq (a b : PublicKey) : key_eqb a b = true <-> a = b.
Proof.
  revert b. induction a as [s | | m IH | m IH | m IHm o IHo];
    intros [s' | | m' | m' | m' o']; cbn [key_eqb];
    try (split; intro H; [discriminate H | inversion H]).
  - rewrite String.eqb_eq. split; intro H; [now subst | now inversion H].
  - split; reflexivity.
  - rewrite IH. split; intro H; [now subst | now inversion H].
  - rewrite IH. split; intro H; [now subst | now inversion H].
  - rewrite andb_true_iff, IHm, IHo.
    split; [intros [-> ->]; reflexivity | intro H; now inversion H].
Qed.

Lemma is_required_In (vtx : VersionedTransaction) (k : Keypair) :
  is_required vtx k = true <-> In (publicKey k) (required_signers vtx).
Proof.
  unfold is_required. rewrite existsb_exists. split.
  - intros (x & Hin & Heq). apply key_eqb_eq in Heq. now subst.
  - intro Hin. exists (publicKey k). split; [exact Hin |].
    now apply key_eqb_eq.
Qed.

(** [u64] returns the magnitude, for magnitudes below [2^64], and throws
    for the others. *)
Lemma u64_ok (x a : Z) : u64 x = Ok a -> a = Z.abs x /\ 0 <= a < 2 ^ 64.
Proof.
  unfold u64. destruct (Z.abs x <? 2 ^ 64) eqn:E; [| discriminate].
  intro H. inversion H. apply Z.ltb_lt in E. split; [reflexivity | lia].
Qed.

Lemma u64_throw (x : Z) e :
  u64 x = Throw e ->
  2 ^ 64 <= Z.abs x /\ e = VError "byte array longer than desired length".
Proof.
  unfold u64. destruct (Z.abs x <? 2 ^ 64) eqn:E; [discriminate |].
  intro H. inversion H. apply Z.ltb_ge in E. now split.
Qed.

Lemma u64_fits (x : Z) : Z.abs x < 2 ^ 64 -> u64 x = Ok (Z.abs x).
Proof.
  intro H. unfold u64. apply Z.ltb_lt in H. now rewrite H.
Qed.

Lemma u64_overflow (x : Z) :
  2 ^ 64 <= Z.abs x ->
  u64 x = Throw (VError "byte array longer than desired length").
Proof.
  intro H. unfold u64. apply Z.ltb_ge in H. now rewrite H.
Qed.

Lemma getAssociatedTokenAddress_allowed mint owner rt h :
  getAssociatedTokenAddress mint owner true rt h
  = (Ok (AssociatedTokenAddress mint owner), []).
Proof. reflexivity. Qed.

Lemma getAssociatedTokenAddress_checked mint owner rt h :
  getAssociatedTokenAddress mint owner false rt h
  = if PublicKey_isOnCurve rt owner
    then (Ok (AssociatedTokenAddress mint owner), [])
    else (Throw (VTokenError "TokenOwnerOffCurveError"), []).
Proof.
  unfold getAssociatedTokenAddress, bind, asks.
  now destruct (PublicKey_isOnCurve rt owner).
Qed.

Lemma getAssociatedTokenAddress_inv mint owner allow rt h r t :
  getAssociatedTokenAddress mint owner allow rt h = (r, t) ->
  t = [] /\
  (r = Ok (AssociatedTokenAddress mint owner) \/
   r = Throw (VTokenError "TokenOwnerOffCurveError")
   /\ allow = false /\ PublicKey_isOnCurve rt owner = false).
Proof.
  destruct allow.
  - rewrite getAssociatedTokenAddress_allowed. intro H. inversion H. auto.
  - rewrite getAssociatedTokenAddress_checked.
    destruct (PublicKey_isOnCurve rt owner); intro H; inversion H; auto.
Qed.

(** [sign] emits nothing; it returns the transaction with the signers' keys
    added, and throws exactly when one of the signers is not required. *)
Lemma sign_ok vtx signers rt h :
  (forall k, In k signers -> In (publicKey k) (required_signers vtx)) ->
  sign vtx signers rt h
  = (Ok {| payerKey := payerKey vtx;
           recentBlockhash := recentBlockhash vtx;
           instructions := instructions vtx;
           signatures := signatures vtx ++ map publicKey signers |}, []).
Proof.
  intro H. unfold sign.
  destruct (find _ signers) as [k |] eqn:E; [| reflexivity].
  apply find_some in E. destruct E as [Hin Hk].
  apply H, is_required_In in Hin. rewrite Hin in Hk. discriminate Hk.
Qed.

Lemma sign_inv vtx signers rt h r t :
  sign vtx signers rt h = (r, t) ->
  t = [] /\
  ((r = Ok {| payerKey := payerKey vtx;
              recentBlockhash := recentBlockhash vtx;
              instructions := instructions vtx;
              signatures := signatures vtx ++ map publicKey signers |}
    /\ forall k, In k signers -> In (publicKey k) (required_signers vtx)) \/
   exists k,
     In k signers /\ ~ In (publicKey k) (required_signers vtx) /\
     r = Throw (VError ("Cannot sign with non signer key "
                          ++ PublicKey_toBase58 rt (publicKey k)))).
Proof.
  unfold sign. destruct (find _ signers) as [k |] eqn:E.
  - intro H. unfold bind, asks, throw in H. simpl in H. inversion H.
    split; [reflexivity |]. right. exists k.
    apply find_some in E. destruct E as [Hin Hk].
    split; [exact Hin |]. split; [| reflexivity].
    intro Hreq. apply is_required_In in Hreq. rewrite Hreq in Hk.
    discriminate Hk.
  - intro H. apply ret_inv in H. destruct H as [-> ->].
    split; [reflexivity |]. left. split; [reflexivity |].
    intros k Hin. apply is_required_In.
    pose proof (find_none _ _ E k Hin) as Hk. cbv beta in Hk.
    now destruct (is_required vtx k).
Qed.

Lemma emits_sign P vtx signers : emits P (sign vtx signers).
Proof.
  intros rt h. destruct (sign vtx signers rt h) as [r t] eqn:E.
  apply sign_inv in E. destruct E as [-> _]. reflexivity.
Qed.

Lemma setComputeUnitLimit_inv units rt h r t :
  setComputeUnitLimit units rt h = (r, t) ->
  t = [] /\
  (r = Ok (SetComputeUnitLimit units) /\ 0 <= units < 2 ^ 32 \/
   r = Throw (VRangeError (RangeError_message rt units))
   /\ ~ 0 <= units < 2 ^ 32).
Proof.
  unfold setComputeUnitLimit.
  destruct ((0 <=? units) && (units <? 2 ^ 32)) eqn:E.
  - intro H. apply ret_inv in H. destruct H as [-> ->].
    apply andb_true_iff in E. destruct E as [E1 E2].
    apply Z.leb_le in E1. apply Z.ltb_lt in E2. auto.
  - intro H. unfold bind, asks, throw in H. simpl in H. inversion H.
    split; [reflexivity |]. right. split; [reflexivity |].
    intros [Hlo Hhi]. apply Z.leb_le in Hlo. apply Z.ltb_lt in Hhi.
    rewrite Hlo, Hhi in E. discriminate E.
Qed.

(** The compute-budget instructions: built without any call, and either the
    two instructions of the fees or a RangeError for the unit limit. *)
Lemma compute_budget_inv fees rt h r t :
  compute_budget fees rt h = (r, t) ->
  t = [] /\
  (r = Ok (match fees with
           | Some f => [SetComputeUnitLimit (unitLimit f);
                        SetComputeUnitPrice (unitPrice f)]
           | None => []
           end) \/
   exists f,
     fees = Some f /\ ~ 0 <= unitLimit f < 2 ^ 32 /\
     r = Throw (VRangeError (RangeError_message rt (unitLimit f)))).
Proof.
  unfold compute_budget. destruct fees as [f |].
  - intro H. apply bind_inv in H.
    destruct H as [[e [E ->]] | (i & t1 & t2 & E & H & ->)];
      apply setComputeUnitLimit_inv in E;
      destruct E as [-> [[E _] | [E Hr]]]; try discriminate E.
    + inversion E. split; [reflexivity |]. right. eauto.
    + inversion E; subst i. apply ret_inv in H. destruct H as [-> ->].
      split; [reflexivity |]. now left.
  - intro H. apply ret_inv in H. destruct H as [-> ->]. auto.
Qed.

Lemma emits_compute_budget P fees : emits P (compute_budget fees).
Proof.
  intros rt h. destruct (compute_budget fees rt h) as [r t] eqn:E.
  apply compute_budget_inv in E. destruct E as [-> _]. reflexivity.
Qed.

Lemma emits_getAssociatedTokenAddress P mint owner allow :
  emits P (getAssociatedTokenAddress mint owner allow).
Proof.
  intros rt h.
  destruct (getAssociatedTokenAddress mint owner allow rt h) as [r t] eqn:E.
  apply getAssociatedTokenAddress_inv in E. destruct E as [-> _]. reflexivity.
Qed.

Lemma string_argument_inv v rt h r t :
  string_argument v rt h = (r, t) -> t = [].
Proof.
  unfold string_argument.
  destruct v as [[| b | z | s | items | fields] |];
    try (intro H; unfold bind, asks, lift in H; simpl in H;
         destruct (Buffer_from_utf8 rt _); now inversion H).
  intro H. apply ret_inv in H. now destruct H.
Qed.

Lemma emits_string_argument P v : emits P (string_argument v).
Proof.
  intros rt h. destruct (string_argument v rt h) as [r t] eqn:E.
  apply string_argument_inv in E. now subst.
Qed.

(** The create builder makes no call; when it returns, it returns the one
    create instruction. *)
Lemma getCreateInstructions_inv creator name symbol uri mint rt h r t :
  getCreateInstructions creator name symbol uri mint rt h = (r, t) ->
  t = [] /\
  forall tx,
    r = Ok tx ->
    exists s,
      tx = [PumpCreate name symbol s (publicKey mint)
              (AssociatedTokenAddress (publicKey mint)
                 (BondingCurvePDA (publicKey mint)))
              (MetadataPDA (publicKey mint)) creator].
Proof.
  unfold getCreateInstructions. cbv zeta. intro H.
  apply bind_inv in H.
  destruct H as [[e [E ->]] | (a & t1 & t2 & E & H & ->)].
  { rewrite getAssociatedTokenAddress_allowed in E. discriminate E. }
  rewrite getAssociatedTokenAddress_allowed in E. inversion E; subst a t1.
  apply bind_inv in H.
  destruct H as [[e [E' ->]] | (s & t1 & t3 & E' & H & ->)].
  - apply string_argument_inv in E'. rewrite E'.
    split; [reflexivity |]. intros tx F. discriminate F.
  - apply string_argument_inv in E'. subst t1.
    apply ret_inv in H. destruct H as [-> ->].
    split; [reflexivity |]. intros tx F. inversion F. eauto.
Qed.

Lemma emits_getCreateInstructions P creator name symbol uri mint :
  emits P (getCreateInstructions creator name symbol uri mint).
Proof.
  intros rt h.
  destruct (getCreateInstructions creator name symbol uri mint rt h)
    as [r t] eqn:E.
  apply getCreateInstructions_inv in E. destruct E as [-> _]. reflexivity.
Qed.

End LibraryFacts.

(** Decompose the hypotheses that describe a run, following the code. *)
Ltac run_inv :=
  repeat
    match goal with
    | H : Host.ret _ _ _ = (_, _) |- _ =>
        apply MonadFacts.ret_inv in H; destruct H as [? ?]
    | H : Host.throw _ _ _ = (_, _) |- _ =>
        apply MonadFacts.throw_inv in H; destruct H as [? ?]
    | H : Host.asks _ _ _ = (_, _) |- _ =>
        apply MonadFacts.asks_inv in H; destruct H as [? ?]
    | H : Host.lift _ _ _ = (_, _) |- _ =>
        apply MonadFacts.lift_inv in H; destruct H as [? ?]
    | H : Host.call _ _ _ = (_, _) |- _ =>
        apply MonadFacts.call_inv in H; destruct H as [? ?]
    | H : Host.bind _ _ _ _ = (Js.Ok _, _) |- _ =>
        apply MonadFacts.bind_ok_inv in H;
        destruct H as (? & ? & ? & ? & H & ?); cbv beta in H
    | H : Js.Ok _ = Js.Ok _ |- _ => inversion H; clear H
    | H : Js.Throw _ = Js.Ok _ |- _ => discriminate H
    | H : Js.Ok _ = Js.Throw _ |- _ => discriminate H
    end.

(** Apply a lemma about runs to the first hypothesis it fits. *)
Ltac by_lemma L :=
  match goal with
  | H : _ = (_, _) |- _ => apply L in H
  end.

(** One step of an [emits] proof, following the structure of the code. *)
Ltac emits_step :=
  first
    [ apply LibraryFacts.emits_sign
    | apply LibraryFacts.emits_compute_budget
    | apply LibraryFacts.emits_getAssociatedTokenAddress
    | apply LibraryFacts.emits_string_argument
    | apply LibraryFacts.emits_getCreateInstructions
    | apply MonadFacts.emits_ret
    | apply MonadFacts.emits_throw
    | apply MonadFacts.emits_asks
    | apply MonadFacts.emits_lift
    | apply MonadFacts.emits_call; intros; reflexivity
    | apply MonadFacts.emits_bind; [| intro]
    | apply MonadFacts.emits_try_catch; [| intro]
    | assumption
    | progress cbv zeta
    | match goal with
      | |- Host.emits _ (match ?x with _ => _ end) => destruct x
      | |- Host.emits _ (if ?x then _ else _) => destruct x
      | |- Host.emits _ (let (_, _) := ?x in _) => destruct x
      end ].

Ltac emits_auto := repeat emits_step.

(* ================================================================== *)
(** ** Theorems: the instruction builder *)

Module BuilderFacts.
Import Js Solana Host Jito Util Slippage PumpFunSDK Properties.
Import MonadFacts LibraryFacts.
Local Open Scope list_scope.

(** The run of [getBuyInstructions] in full. An off-curve buyer is refused
    before anything is looked up. Otherwise there is one lookup, whose
    answer selects the instructions, and the two amounts are encoded. *)
Lemma getBuyInstructions_run buyer mint feeRecipient amount solAmount
      commitment rt h :
  getBuyInstructions buyer mint feeRecipient amount solAmount commitment rt h
  = if PublicKey_isOnCurve rt buyer
    then
      (match u64 amount, u64 solAmount with
       | Ok a, Ok s =>
           Ok (buy_instructions buyer mint feeRecipient a s
                 (holding_lookup buyer mint commitment rt h))
       | Throw e, _ => Throw e
       | Ok _, Throw e => Throw e
       end,
       [Ev (SplToken_getAccount (AssociatedTokenAddress mint buyer)
              (match commitment with
               | Some c => c
               | None => DEFAULT_COMMITMENT
               end))
           (holding_lookup buyer mint commitment rt h)])
    else (Throw (VTokenError "TokenOwnerOffCurveError"), []).
Proof.
  unfold getBuyInstructions. cbv zeta.
  unfold bind at 1. rewrite getAssociatedTokenAddress_allowed.
  unfold bind at 1. rewrite getAssociatedTokenAddress_checked.
  destruct (PublicKey_isOnCurve rt buyer); [| reflexivity].
  unfold holding_lookup, buy_instructions, bind, try_catch, call, ret, lift.
  rewrite !app_nil_r. cbn [app].
  destruct (answer rt unit h _) as [[] | e];
    destruct (u64 amount); destruct (u64 solAmount); reflexivity.
Qed.

(** When the buy builder returns, the buyer is on the curve, both amounts
    fit, and the instructions carry their magnitudes. *)
Lemma getBuyInstructions_returns buyer mint recipient amount solAmount
      commitment rt h tx t :
  getBuyInstructions buyer mint recipient amount solAmount commitment rt h
  = (Ok tx, t) ->
  PublicKey_isOnCurve rt buyer = true /\
  Z.abs amount < 2 ^ 64 /\ Z.abs solAmount < 2 ^ 64 /\
  tx = buy_instructions buyer mint recipient (Z.abs amount) (Z.abs solAmount)
         (holding_lookup buyer mint commitment rt h) /\
  t = [Ev (SplToken_getAccount (AssociatedTokenAddress mint buyer)
             (match commitment with
              | Some c => c
              | None => DEFAULT_COMMITMENT
              end))
          (holding_lookup buyer mint commitment rt h)].
Proof.
  rewrite getBuyInstructions_run.
  destruct (PublicKey_isOnCurve rt buyer); [| discriminate].
  destruct (u64 amount) as [a | e] eqn:Ea; [| discriminate].
  destruct (u64 solAmount) as [s0 | e] eqn:Es; [| discriminate].
  apply u64_ok in Ea. destruct Ea as [-> Ha].
  apply u64_ok in Es. destruct Es as [-> Hs].
  intro H. inversion H. repeat split; lia.
Qed.

Lemma getBuyInstructionsBySolAmount_ok buyer mint buyAmountSol slippage
      commitment rt h tx t :
  getBuyInstructionsBySolAmount buyer mint buyAmountSol slippage commitment
    rt h = (Ok tx, t) ->
  exists g amount h',
    0 <= amount < 2 ^ 64 /\
    Z.abs (calculateWithSlippageBuy buyAmountSol
             (match slippage with Some b => b | None => 500 end)) < 2 ^ 64 /\
    tx = buy_instructions buyer mint (feeRecipient g) amount
           (Z.abs (calculateWithSlippageBuy buyAmountSol
                     (match slippage with Some b => b | None => 500 end)))
           (holding_lookup buyer mint None rt h').
Proof.
  unfold getBuyInstructionsBySolAmount. cbv zeta. intro H.
  apply bind_ok_inv in H. destruct H as (curve & t1 & t2 & _ & H & _).
  destruct curve as [curve |].
  2: { apply bind_ok_inv in H. destruct H as (k & t3 & t4 & _ & H & _).
       apply throw_inv in H. destruct H as [F _]. discriminate F. }
  apply bind_ok_inv in H. destruct H as (quoted & t3 & t4 & _ & H & _).
  apply bind_ok_inv in H. destruct H as (g & t5 & t6 & _ & H & _).
  apply getBuyInstructions_returns in H.
  destruct H as (_ & Ha & Hs & -> & _).
  exists g, (Z.abs quoted), (((h ++ t1) ++ t3) ++ t5).
  split; [lia |]. split; [exact Hs | reflexivity].
Qed.

(** C8, as stated, fails: when the lookup fails because the node cannot be
    reached, it does not report absence, and the account creation is emitted
    all the same. *)
Lemma holding_account_created_without_absence : ~ creates_iff_absent.
Proof.
  intro H.
  specialize (H (Base58 "buyer") (Base58 "mint") GlobalPDA 1 1 None
                Scenario.lookup_fails []
                [create_holding_account (Base58 "buyer") (Base58 "mint");
                 buy_instruction (Base58 "buyer") (Base58 "mint") GlobalPDA 1 1]
                [Ev (SplToken_getAccount
                       (AssociatedTokenAddress (Base58 "mint") (Base58 "buyer"))
                       DEFAULT_COMMITMENT)
                    (Throw (VError "fetch failed"))]
                eq_refl).
  destruct H as [H _]. specialize (H (or_introl eq_refl)).
  vm_compute in H. discriminate H.
Qed.

(** C8, amended. [getBuyInstructions] refuses an off-curve buyer before any
    lookup. For any other buyer it makes exactly one lookup and catches
    whatever the lookup throws: the create-holding-account instruction is
    emitted, in front of the buy instruction, if and only if the lookup
    throws, be it for absence or for any other reason, and what it throws is
    never surfaced; when the lookup returns, the sequence is the single buy
    instruction. The buy instruction carries the magnitudes of the token
    amount and of the maximum spend; the builder throws when one of them
    does not fit in 64 bits. Through [getBuyInstructionsBySolAmount] the
    maximum spend is the magnitude of the slippage-bounded amount, which is
    that amount itself for a non-negative amount and tolerance. *)
Theorem buy_creates_holding_account_iff_lookup_throws
        buyer mint recipient amount solAmount commitment rt h :
  (PublicKey_isOnCurve rt buyer = false ->
   getBuyInstructions buyer mint recipient amount solAmount commitment rt h
   = (Throw (VTokenError "TokenOwnerOffCurveError"), [])) /\
  (PublicKey_isOnCurve rt buyer = true ->
   snd (getBuyInstructions buyer mint recipient amount solAmount commitment
          rt h)
   = [Ev (SplToken_getAccount (AssociatedTokenAddress mint buyer)
            (match commitment with
             | Some c => c
             | None => DEFAULT_COMMITMENT
             end))
         (holding_lookup buyer mint commitment rt h)] /\
   (Z.abs amount < 2 ^ 64 -> Z.abs solAmount < 2 ^ 64 ->
    exists tx,
      fst (getBuyInstructions buyer mint recipient amount solAmount
             commitment rt h) = Ok tx /\
      (lookup_throws (holding_lookup buyer mint commitment rt h) = true ->
       tx = [create_holding_account buyer mint;
             buy_instruction buyer mint recipient
               (Z.abs amount) (Z.abs solAmount)]) /\
      (lookup_throws (holding_lookup buyer mint commitment rt h) = false ->
       tx = [buy_instruction buyer mint recipient
               (Z.abs amount) (Z.abs solAmount)]) /\
      (In (create_holding_account buyer mint) tx <->
       lookup_throws (holding_lookup buyer mint commitment rt h) = true)) /\
   (2 ^ 64 <= Z.abs amount \/ 2 ^ 64 <= Z.abs solAmount ->
    fst (getBuyInstructions buyer mint recipient amount solAmount
           commitment rt h)
    = Throw (VError "byte array longer than desired length"))) /\
  (forall buyAmountSol slippage tx t,
      getBuyInstructionsBySolAmount buyer mint buyAmountSol slippage
        commitment rt h = (Ok tx, t) ->
      exists g quoted,
        0 <= quoted < 2 ^ 64 /\
        Z.abs (calculateWithSlippageBuy buyAmountSol
                 (match slippage with Some b => b | None => 500 end))
        < 2 ^ 64 /\
        last tx (create_holding_account buyer mint)
        = buy_instruction buyer mint (feeRecipient g) quoted
            (Z.abs (calculateWithSlippageBuy buyAmountSol
                      (match slippage with Some b => b | None => 500 end))) /\
        (0 <= buyAmountSol ->
         0 <= match slippage with Some b => b | None => 500 end ->
         Z.abs (calculateWithSlippageBuy buyAmountSol
                  (match slippage with Some b => b | None => 500 end))
         = calculateWithSlippageBuy buyAmountSol
             (match slippage with Some b => b | None => 500 end))).
Proof.
  rewrite getBuyInstructions_run.
  split; [intros ->; reflexivity |].
  split.
  - intros ->. cbn [fst snd]. split; [reflexivity |]. split.
    + intros Ha Hs. rewrite (u64_fits _ Ha), (u64_fits _ Hs).
      eexists. split; [reflexivity |]. unfold buy_instructions.
      destruct (lookup_throws _).
      * split; [reflexivity |]. split; [discriminate |].
        split; [reflexivity |]. intros _. now left.
      * split; [discriminate |]. split; [reflexivity |].
        split; [| discriminate]. cbn [In]. intros [F | []]. discriminate F.
    + intros [Ha | Hs].
      * now rewrite (u64_overflow _ Ha).
      * rewrite (u64_overflow _ Hs).
        destruct (u64 amount) as [a | e] eqn:E; [reflexivity |].
        apply u64_throw in E. destruct E as [_ ->]. reflexivity.
  - intros buyAmountSol slippage tx t H.
    apply getBuyInstructionsBySolAmount_ok in H.
    destruct H as (g & quoted & h' & Hq & Hs & ->).
    exists g, quoted. split; [exact Hq |]. split; [exact Hs |]. split.
    + unfold buy_instructions. destruct (lookup_throws _); reflexivity.
    + intros Ha Hb. apply Z.abs_eq.
      unfold calculateWithSlippageBuy.
      pose proof (Z.quot_pos (buyAmountSol * match slippage with
                                             | Some b => b
                                             | None => 500
                                             end) 10000).
      nia.
Qed.

Lemma buy_creates_holding_account_iff_lookup_throws_witness :
  exists tx,
    fst (getBuyInstructions (Base58 "buyer") (Base58 "mint") GlobalPDA
           (-7) 1050000 None Scenario.lookup_fails []) = Ok tx /\
    (lookup_throws
       (holding_lookup (Base58 "buyer") (Base58 "mint") None
          Scenario.lookup_fails []) = true ->
     tx = [create_holding_account (Base58 "buyer") (Base58 "mint");
           buy_instruction (Base58 "buyer") (Base58 "mint") GlobalPDA
             (Z.abs (-7)) (Z.abs 1050000)]) /\
    (lookup_throws
       (holding_lookup (Base58 "buyer") (Base58 "mint") None
          Scenario.lookup_fails []) = false ->
     tx = [buy_instruction (Base58 "buyer") (Base58 "mint") GlobalPDA
             (Z.abs (-7)) (Z.abs 1050000)]) /\
    (In (create_holding_account (Base58 "buyer") (Base58 "mint")) tx <->
     lookup_throws
       (holding_lookup (Base58 "buyer") (Base58 "mint") None
          Scenario.lookup_fails []) = true).
Proof.
  refine (proj1 (proj2 (proj1 (proj2
            (buy_creates_holding_account_iff_lookup_throws
               (Base58 "buyer") (Base58 "mint") GlobalPDA (-7) 1050000 None
               Scenario.lookup_fails [])) _)) _ _).
  - reflexivity.
  - vm_compute. reflexivity.
  - vm_compute. reflexivity.
Defined.

End BuilderFacts.

(* ================================================================== *)
(** ** Theorems: batching of bundled buys *)

Module BatchFacts.
Import Solana PumpFunSDK Properties.
Local Open Scope nat_scope.
Local Open Scope list_scope.

Lemma slice_length {A} (l : list A) (i : nat) :
  List.length (slice l i (i + MAX_BUNDLED_BUYS_PER_TX))
  = Nat.min MAX_BUNDLED_BUYS_PER_TX (List.length l - i).
Proof.
  unfold slice. rewrite length_firstn, length_skipn.
  replace (i + MAX_BUNDLED_BUYS_PER_TX - i) with MAX_BUNDLED_BUYS_PER_TX by lia.
  reflexivity.
Qed.

Lemma ceil_div_step (m : nat) :
  0 < m -> ceil_div m 4 = S (ceil_div (m - 4) 4).
Proof.
  intro Hm. unfold ceil_div.
  destruct (Nat.le_gt_cases 4 m) as [Hge | Hlt].
  - replace (m + 4 - 1) with (m - 4 + 4 - 1 + 1 * 4) by lia.
    rewrite Nat.div_add by lia. lia.
  - replace (m - 4) with 0 by lia.
    assert (m = 1 \/ m = 2 \/ m = 3) as [-> | [-> | ->]] by lia; reflexivity.
Qed.

(** The loop stops on its own condition: any two amounts of fuel of at least
    the number of remaining elements give the same batches. *)
Lemma batches_fuel_enough {A} (l : list A) :
  forall fuel1 fuel2 i,
    List.length l - i <= fuel1 ->
    List.length l - i <= fuel2 ->
    batches_from fuel1 l i = batches_from fuel2 l i.
Proof.
  induction fuel1 as [| fuel1 IH]; intros fuel2 i H1 H2.
  - destruct fuel2 as [| fuel2]; [reflexivity |].
    simpl. replace (i <? List.length l) with false; [reflexivity |].
    symmetry. apply Nat.ltb_ge. lia.
  - simpl. destruct (i <? List.length l) eqn:Hi.
    + apply Nat.ltb_lt in Hi.
      destruct fuel2 as [| fuel2]; [lia |].
      simpl. apply Nat.ltb_lt in Hi. rewrite Hi. apply Nat.ltb_lt in Hi.
      f_equal. apply IH; unfold MAX_BUNDLED_BUYS_PER_TX; lia.
    + destruct fuel2 as [| fuel2]; [reflexivity |].
      simpl. now rewrite Hi.
Qed.

Lemma batches_from_length {A} (l : list A) :
  forall fuel i,
    List.length l - i <= fuel ->
    List.length (batches_from fuel l i) = ceil_div (List.length l - i) 4.
Proof.
  induction fuel as [| fuel IH]; intros i Hf.
  - replace (List.length l - i) with 0 by lia. reflexivity.
  - cbn [batches_from]. destruct (i <? List.length l) eqn:Hi.
    + apply Nat.ltb_lt in Hi. cbn [List.length].
      rewrite IH by (unfold MAX_BUNDLED_BUYS_PER_TX; lia).
      rewrite (ceil_div_step (List.length l - i)) by lia.
      unfold MAX_BUNDLED_BUYS_PER_TX. do 2 f_equal. lia.
    + apply Nat.ltb_ge in Hi.
      replace (List.length l - i) with 0 by lia. reflexivity.
Qed.

Lemma batches_from_sizes {A} (l : list A) :
  forall fuel i,
    Forall (fun b => 1 <= List.length b <= MAX_BUNDLED_BUYS_PER_TX)
           (batches_from fuel l i).
Proof.
  induction fuel as [| fuel IH]; intro i; simpl.
  - constructor.
  - destruct (i <? List.length l) eqn:Hi; [| constructor].
    apply Nat.ltb_lt in Hi. constructor; [| apply IH].
    rewrite slice_length. unfold MAX_BUNDLED_BUYS_PER_TX. lia.
Qed.

Lemma batches_from_concat {A} (l : list A) :
  forall fuel i,
    List.length l - i <= fuel ->
    List.concat (batches_from fuel l i) = skipn i l.
Proof.
  induction fuel as [| fuel IH]; intros i Hf.
  - simpl. symmetry. apply skipn_all2. lia.
  - simpl. destruct (i <? List.length l) eqn:Hi.
    + apply Nat.ltb_lt in Hi. simpl.
      rewrite IH by (unfold MAX_BUNDLED_BUYS_PER_TX; lia).
      unfold slice.
      replace (i + MAX_BUNDLED_BUYS_PER_TX - i) with MAX_BUNDLED_BUYS_PER_TX by lia.
      rewrite Nat.add_comm, <- skipn_skipn.
      apply firstn_skipn.
    + apply Nat.ltb_ge in Hi. simpl. symmetry. apply skipn_all2. lia.
Qed.

(** [ceil_div n 4] is the least number of groups of four that cover [n]. *)
Lemma ceil_div_four (n : nat) :
  n <= 4 * ceil_div n 4 /\ (0 < n -> 4 * (ceil_div n 4 - 1) < n).
Proof.
  unfold ceil_div.
  pose proof (Nat.div_mod_eq (n + 4 - 1) 4) as E.
  pose proof (Nat.mod_upper_bound (n + 4 - 1) 4 ltac:(lia)) as B.
  lia.
Qed.

Lemma make_batches_length {A} (l : list A) :
  List.length (make_batches l) = ceil_div (List.length l) 4.
Proof.
  unfold make_batches. rewrite batches_from_length by lia.
  now rewrite Nat.sub_0_r.
Qed.

Lemma make_batches_concat {A} (l : list A) :
  List.concat (make_batches l) = l.
Proof.
  unfold make_batches. now rewrite batches_from_concat by lia.
Qed.

Lemma make_batches_nine {A} (l : list A) :
  List.length l = 9 ->
  exists a b c d e f g h i,
    make_batches l = [[a; b; c; d]; [e; f; g; h]; [i]].
Proof.
  intro H.
  do 9 (destruct l as [| ? l]; [discriminate H |]).
  destruct l; [| discriminate H].
  do 9 eexists. reflexivity.
Qed.

Lemma batches_of_length buys :
  List.length (batches_of (Some buys)) = ceil_div (List.length buys) 4.
Proof.
  destruct buys as [| b buys]; [reflexivity |].
  apply make_batches_length.
Qed.

Lemma batches_of_sizes bundledBuys :
  Forall (fun b => 1 <= List.length b <= MAX_BUNDLED_BUYS_PER_TX)
         (batches_of bundledBuys).
Proof.
  destruct bundledBuys as [[| b buys] |].
  - constructor.
  - apply batches_from_sizes.
  - constructor.
Qed.

Lemma batches_of_concat buys :
  List.concat (batches_of (Some buys)) = buys.
Proof.
  destruct buys as [| b buys]; [reflexivity |].
  apply make_batches_concat.
Qed.

End BatchFacts.

(* ================================================================== *)
(** ** Theorems: the plan of [createAndBuy] *)

Module PlanFacts.
Import Js Solana Host Jito Util Slippage PumpFunSDK Properties.
Import MonadFacts LibraryFacts BuilderFacts BatchFacts.
Local Open Scope list_scope.

Lemma random_element_ok (l : list string) rt h s t :
  l <> [] ->
  random_element l rt h = (Ok s, t) ->
  In s l /\ exists r, t = [Ev (MathRandomIndex (List.length l)) r].
Proof.
  intros Hl H. unfold random_element in H. run_inv. subst.
  split.
  - apply nth_In. apply Nat.mod_upper_bound.
    destruct l; [contradiction | discriminate].
  - rewrite app_nil_r. eauto.
Qed.

Lemma tip_from_ok p k rt h tip t :
  tip_from p (Some k) rt h = (Ok tip, t) ->
  tip_shape p k tip /\
  count is_global_fetch t = 0%nat /\ count is_initial_buy_price t = 0%nat.
Proof.
  intro H. unfold tip_from in H. unfold tip_shape.
  destruct (enabled (CreateAndBuyParams.jitoConfig p)) as [c |].
  - run_inv. subst.
    by_lemma random_element_ok; [| discriminate].
    match goal with H : In _ _ /\ _ |- _ => destruct H as [Hin [r ->]] end.
    split; [eauto |]. split; reflexivity.
  - run_inv. subst. repeat split.
Qed.

Lemma tip_from_none_ok p rt h tip t :
  tip_from p None rt h = (Ok tip, t) ->
  tip = [] /\
  count is_global_fetch t = 0%nat /\ count is_initial_buy_price t = 0%nat.
Proof.
  intro H. unfold tip_from in H.
  destruct (enabled (CreateAndBuyParams.jitoConfig p)) as [c |];
    run_inv; subst; repeat split.
Qed.

Lemma getGlobalAccount_ok commitment rt h g t :
  getGlobalAccount commitment rt h = (Ok g, t) ->
  count is_global_fetch t = 1%nat /\ count is_initial_buy_price t = 0%nat.
Proof.
  unfold getGlobalAccount. intro H.
  apply bind_ok_inv in H. destruct H as (account & t1 & t2 & E & H & ->).
  apply call_inv in E. destruct E as [_ ->].
  destruct account as [data |].
  - apply call_inv in H. destruct H as [_ ->]. split; reflexivity.
  - apply throw_inv in H. destruct H as [F _]. discriminate F.
Qed.

Lemma getBuyInstructions_ok buyer mint recipient amount solAmount
      commitment rt h tx t :
  getBuyInstructions buyer mint recipient amount solAmount commitment rt h
  = (Ok tx, t) ->
  (exists lookup,
      Z.abs amount < 2 ^ 64 /\ Z.abs solAmount < 2 ^ 64 /\
      tx = buy_instructions buyer mint recipient
             (Z.abs amount) (Z.abs solAmount) lookup) /\
  count is_global_fetch t = 0%nat /\ count is_initial_buy_price t = 0%nat.
Proof.
  intro H. apply getBuyInstructions_returns in H.
  destruct H as (_ & Ha & Hs & -> & ->).
  split; [eauto |]. split; reflexivity.
Qed.

(** What [getBuyInstructions] returns is a buy of the shape [buy_shape]
    describes. *)
Lemma buy_shape_intro p g buyer solIn quoted lookup :
  Z.abs quoted < 2 ^ 64 ->
  Z.abs (calculateWithSlippageBuy solIn (slippage_of p)) < 2 ^ 64 ->
  buy_shape p g buyer solIn
    (buy_instructions buyer (mint_key p) (feeRecipient g) (Z.abs quoted)
       (Z.abs (calculateWithSlippageBuy solIn (slippage_of p))) lookup).
Proof.
  intros Hq Hs. exists (Z.abs quoted), lookup.
  split; [lia |]. split; [exact Hs | reflexivity].
Qed.

Lemma price_call_counts g amount rt h r t :
  call (GlobalAccount_getInitialBuyPrice g amount) rt h = (r, t) ->
  count is_global_fetch t = 0%nat /\ count is_initial_buy_price t = 1%nat.
Proof.
  intro H. apply call_inv in H. destruct H as [_ ->]. split; reflexivity.
Qed.

Lemma batchBuys_ok p g :
  forall batch acc rt h tx t,
    batchBuys p g batch acc rt h = (Ok tx, t) ->
    exists parts,
      tx = acc ++ List.concat parts /\
      Forall2 (fun buy part =>
                 buy_shape p g (publicKey (signer buy)) (amountInSol buy) part)
              batch parts /\
      count is_global_fetch t = 0%nat /\
      count is_initial_buy_price t = List.length batch.
Proof.
  induction batch as [| buy rest IH]; intros acc rt h tx t H; cbn [batchBuys] in H.
  - run_inv. subst. exists []. rewrite app_nil_r. repeat split. constructor.
  - apply bind_ok_inv in H. destruct H as (quoted & t1 & t2 & Hq & H & ->).
    apply bind_ok_inv in H. destruct H as (buyTx & t3 & t4 & Hb & H & ->).
    apply IH in H. destruct H as [parts [-> [Hparts [Cg Cq]]]].
    apply price_call_counts in Hq. destruct Hq as [Qg Qq].
    apply getBuyInstructions_ok in Hb.
    destruct Hb as [(lookup & Ha & Hs & ->) [Bg Bq]].
    eexists (_ :: parts). split; [| split; [| split]].
    + cbn [List.concat]. rewrite <- app_assoc. reflexivity.
    + constructor; [| exact Hparts]. now apply buy_shape_intro.
    + rewrite !count_app, Qg, Bg, Cg. reflexivity.
    + rewrite !count_app, Qq, Bq, Cq. reflexivity.
Qed.

Lemma batchTransaction_ok p batch rt h tx t :
  batchTransaction p batch rt h = (Ok tx, t) ->
  batch_shape p batch tx /\
  count is_global_fetch t = 1%nat /\
  count is_initial_buy_price t = List.length batch.
Proof.
  unfold batchTransaction. intro H.
  apply bind_ok_inv in H. destruct H as (g & t1 & t2 & Hg & H & ->).
  apply bind_ok_inv in H. destruct H as (tip & t3 & t4 & Ht & H & ->).
  apply getGlobalAccount_ok in Hg. destruct Hg as [Gg Gq].
  apply batchBuys_ok in H. destruct H as [parts [-> [Hparts [Bg Bq]]]].
  assert (match batch with
          | first :: _ => tip_shape p (publicKey (signer first)) tip
          | [] => tip = []
          end /\ count is_global_fetch t3 = 0%nat
          /\ count is_initial_buy_price t3 = 0%nat) as [Hs [Tg Tq]].
  { destruct batch as [| first rest]; cbn [hd_error option_map] in Ht.
    - eapply tip_from_none_ok, Ht.
    - eapply tip_from_ok, Ht. }
  split; [| split].
  - exists g, tip, parts. auto.
  - rewrite !count_app, Gg, Tg, Bg. reflexivity.
  - rewrite !count_app, Gq, Tq, Bq. reflexivity.
Qed.

Lemma processBatches_ok p :
  forall batches txs sgs rt h txs' sgs' t,
    processBatches p batches txs sgs rt h = (Ok (txs', sgs'), t) ->
    exists btxs,
      txs' = txs ++ btxs /\
      sgs' = sgs ++ map (map signer) batches /\
      Forall2 (batch_shape p) batches btxs /\
      count is_global_fetch t = List.length batches /\
      count is_initial_buy_price t = List.length (List.concat batches).
Proof.
  induction batches as [| batch rest IH]; intros txs sgs rt h txs' sgs' t H;
    cbn [processBatches] in H.
  - run_inv. subst. exists []. rewrite !app_nil_r. repeat split. constructor.
  - apply bind_ok_inv in H. destruct H as (batchTx & t1 & t2 & Hb & H & ->).
    apply IH in H. destruct H as [btxs [-> [-> [Hshape [Hg Hq]]]]].
    apply batchTransaction_ok in Hb. destruct Hb as [Hb [Bg Bq]].
    exists (batchTx :: btxs). split; [| split; [| split; [| split]]].
    + now rewrite <- app_assoc.
    + cbn [map]. now rewrite <- app_assoc.
    + now constructor.
    + rewrite count_app, Bg, Hg. reflexivity.
    + rewrite count_app, Bq, Hq. cbn [List.concat]. now rewrite length_app.
Qed.

Lemma firstTransaction_ok p uri rt h tx t :
  firstTransaction p uri rt h = (Ok tx, t) ->
  first_shape p tx /\
  count is_global_fetch t
    = own_buys p /\
  count is_initial_buy_price t = own_buys p.
Proof.
  unfold firstTransaction, first_shape, own_buys. intro H.
  apply bind_ok_inv in H. destruct H as (create & t0 & t0' & Hc & H & ->).
  apply getCreateInstructions_inv in Hc. destruct Hc as [-> Hc].
  destruct (Hc create eq_refl) as [s Hcreate].
  assert (create_shape p create) as Hshape by (exists s; exact Hcreate).
  clear Hc Hcreate.
  apply bind_ok_inv in H. destruct H as (tip & t1 & t2 & Ht & H & ->).
  apply tip_from_ok in Ht. destruct Ht as [Hs [Tg Tq]].
  cbn [app].
  destruct (0 <? CreateAndBuyParams.buyAmountSol p).
  - apply bind_ok_inv in H. destruct H as (g & t3 & t4 & Hg & H & ->).
    apply bind_ok_inv in H. destruct H as (quoted & t5 & t6 & Hq & H & ->).
    apply bind_ok_inv in H. destruct H as (buyTx & t7 & t8 & Hb & H & ->).
    apply ret_inv in H. destruct H as [H ->]. inversion H; subst tx.
    apply getGlobalAccount_ok in Hg. destruct Hg as [Gg Gq].
    apply price_call_counts in Hq. destruct Hq as [Qg Qq].
    apply getBuyInstructions_ok in Hb.
    destruct Hb as [(lookup & Ha & Hm & ->) [Bg Bq]].
    split; [| split].
    + exists tip, create. split; [exact Hs |]. split; [exact Hshape |].
      eexists g, _.
      split; [apply (buy_shape_intro p g _ _ quoted lookup); assumption |].
      now rewrite <- app_assoc.
    + rewrite !count_app, Tg, Gg, Qg, Bg. reflexivity.
    + rewrite !count_app, Tq, Gq, Qq, Bq. reflexivity.
  - apply ret_inv in H. destruct H as [H ->]. inversion H; subst tx.
    split; [| split].
    + exists tip, create. split; [exact Hs |]. split; [exact Hshape |].
      reflexivity.
    + rewrite !count_app, Tg. reflexivity.
    + rewrite !count_app, Tq. reflexivity.
Qed.

(** The metadata upload neither fetches the global account nor quotes. *)
Lemma createTokenMetadata_quiet create :
  emits (fun e => negb (is_global_fetch e) && negb (is_initial_buy_price e))
        (createTokenMetadata create).
Proof.
  unfold createTokenMetadata. emits_auto.
Qed.

Lemma quiet_counts (t : list Event) :
  forallb (fun e => negb (is_global_fetch e) && negb (is_initial_buy_price e)) t
  = true ->
  count is_global_fetch t = 0%nat /\ count is_initial_buy_price t = 0%nat.
Proof.
  intro H. split; apply count_none;
    (rewrite forallb_forall in *; intros e He; specialize (H e He);
     apply andb_prop in H; tauto).
Qed.

(** What a plan consists of. *)
Lemma plan_ok p rt h txs sgs t :
  plan p rt h = (Ok (txs, sgs), t) ->
  exists first secondary,
    txs = first :: secondary /\
    sgs = [CreateAndBuyParams.creator p; CreateAndBuyParams.mint p]
            :: map (map signer) (batches_of (CreateAndBuyParams.bundledBuys p)) /\
    first_shape p first /\
    Forall2 (batch_shape p)
            (batches_of (CreateAndBuyParams.bundledBuys p)) secondary /\
    count is_global_fetch t
      = (own_buys p
         + List.length (batches_of (CreateAndBuyParams.bundledBuys p)))%nat /\
    count is_initial_buy_price t
      = (own_buys p
         + List.length
             (List.concat (batches_of (CreateAndBuyParams.bundledBuys p))))%nat.
Proof.
  unfold plan. intro H.
  apply bind_ok_inv in H. destruct H as (meta & t1 & t2 & Hm & H & ->).
  apply bind_ok_inv in H. destruct H as (uri & t3 & t4 & Hu & H & ->).
  apply bind_ok_inv in H. destruct H as (first & t5 & t6 & Hf & H & ->).
  apply (emits_run _ _ _ _ _ _ (createTokenMetadata_quiet _)) in Hm.
  apply quiet_counts in Hm. destruct Hm as [Mg Mq].
  unfold field, lift in Hu. inversion Hu; subst t3.
  apply firstTransaction_ok in Hf. destruct Hf as [Hfirst [Fg Fq]].
  apply processBatches_ok in H.
  destruct H as [secondary [-> [-> [Hshape [Pg Pq]]]]].
  exists first, secondary.
  split; [reflexivity |]. split; [reflexivity |].
  split; [exact Hfirst |]. split; [exact Hshape |]. split.
  - rewrite !count_app, Mg, Fg, Pg. reflexivity.
  - rewrite !count_app, Mq, Fq, Pq. reflexivity.
Qed.

(** *** What the shapes say about buys and signers *)

Lemma buy_count_app (a b : Transaction) :
  buy_count (a ++ b) = (buy_count a + buy_count b)%nat.
Proof.
  unfold buy_count. now rewrite filter_app, length_app.
Qed.

Lemma transaction_signers_app (a b : Transaction) :
  transaction_signers (a ++ b) = transaction_signers a ++ transaction_signers b.
Proof.
  unfold transaction_signers. apply flat_map_app.
Qed.

Lemma buy_instructions_count buyer mint recipient amount solAmount lookup :
  buy_count (buy_instructions buyer mint recipient amount solAmount lookup)
  = 1%nat.
Proof.
  unfold buy_instructions. destruct (lookup_throws lookup); reflexivity.
Qed.

Lemma buy_instructions_signers buyer mint recipient amount solAmount lookup k :
  In k (transaction_signers
          (buy_instructions buyer mint recipient amount solAmount lookup))
  <-> k = buyer.
Proof.
  unfold buy_instructions.
  destruct (lookup_throws lookup); simpl; intuition congruence.
Qed.

Lemma tip_shape_count p payer tip :
  tip_shape p payer tip -> buy_count tip = 0%nat.
Proof.
  unfold tip_shape. destruct (enabled _).
  - intros [account [_ ->]]. reflexivity.
  - intros ->. reflexivity.
Qed.

Lemma tip_shape_signers p payer tip k :
  tip_shape p payer tip -> In k (transaction_signers tip) -> k = payer.
Proof.
  unfold tip_shape. destruct (enabled _).
  - intros [account [_ ->]]. simpl. intuition congruence.
  - intros ->. simpl. contradiction.
Qed.

Lemma parts_count p g :
  forall batch parts,
    Forall2 (fun buy part =>
               buy_shape p g (publicKey (signer buy)) (amountInSol buy) part)
            batch parts ->
    buy_count (List.concat parts) = List.length batch.
Proof.
  induction 1 as [| buy part batch parts (amount & lookup & _ & _ & ->) _ IH].
  - reflexivity.
  - cbn [List.concat List.length].
    now rewrite buy_count_app, buy_instructions_count, IH.
Qed.

Lemma parts_signers p g :
  forall batch parts,
    Forall2 (fun buy part =>
               buy_shape p g (publicKey (signer buy)) (amountInSol buy) part)
            batch parts ->
    same_keys (transaction_signers (List.concat parts))
              (map publicKey (map signer batch)).
Proof.
  induction 1 as [| buy part batch parts (amount & lookup & _ & _ & ->) _ IH]; intro k.
  - simpl. tauto.
  - cbn [List.concat map]. rewrite transaction_signers_app, in_app_iff.
    rewrite buy_instructions_signers. specialize (IH k). simpl.
    intuition congruence.
Qed.

Lemma batch_shape_count p batch tx :
  batch_shape p batch tx -> buy_count tx = List.length batch.
Proof.
  intros [g [tip [parts [-> [Htip Hparts]]]]].
  rewrite buy_count_app, (parts_count _ _ _ _ Hparts).
  destruct batch as [| first rest].
  - now subst tip.
  - now rewrite (tip_shape_count _ _ _ Htip).
Qed.

Lemma batch_shape_signers p batch tx :
  batch_shape p batch tx ->
  same_keys (transaction_signers tx) (map publicKey (map signer batch)).
Proof.
  intros [g [tip [parts [-> [Htip Hparts]]]]] k.
  rewrite transaction_signers_app, in_app_iff.
  pose proof (parts_signers _ _ _ _ Hparts k) as Hk.
  destruct batch as [| first rest].
  - subst tip. simpl in *. tauto.
  - split.
    + intros [Hin | Hin]; [| now apply Hk].
      apply (tip_shape_signers _ _ _ _ Htip) in Hin. subst k. now left.
    + intro Hin. right. now apply Hk.
Qed.


Lemma first_shape_signers p tx :
  first_shape p tx ->
  same_keys (transaction_signers tx)
            (map publicKey [CreateAndBuyParams.creator p;
                            CreateAndBuyParams.mint p]).
Proof.
  unfold first_shape.
  intros [tip [create [Htip [[uri ->] Htx]]]] k.
  pose proof (tip_shape_signers _ _ _ k Htip) as Ht.
  unfold creator_key in *.
  destruct (0 <? CreateAndBuyParams.buyAmountSol p).
  - destruct Htx as [g [part [(amount & lookup & _ & _ & ->) ->]]].
    rewrite !transaction_signers_app, !in_app_iff.
    rewrite buy_instructions_signers. unfold creator_key. simpl.
    intuition congruence.
  - subst tx. rewrite transaction_signers_app, in_app_iff. simpl.
    intuition congruence.
Qed.

Lemma shapes_counts p :
  forall batches secondary,
    Forall2 (batch_shape p) batches secondary ->
    map buy_count secondary = map (@List.length _) batches.
Proof.
  induction 1 as [| batch tx batches secondary Hb _ IH].
  - reflexivity.
  - cbn [map]. now rewrite IH, (batch_shape_count _ _ _ Hb).
Qed.

Lemma shapes_signers p :
  forall batches secondary,
    Forall2 (batch_shape p) batches secondary ->
    Forall2 (fun tx sg => same_keys (transaction_signers tx) (map publicKey sg))
            secondary (map (map signer) batches).
Proof.
  induction 1 as [| batch tx batches secondary Hb _ IH].
  - constructor.
  - cbn [map]. constructor; [| exact IH].
    now apply (batch_shape_signers p).
Qed.

Lemma list_sum_lengths {A} (bs : list (list A)) :
  list_sum (map (@List.length _) bs) = List.length (List.concat bs).
Proof.
  induction bs as [| b bs IH]; simpl.
  - reflexivity.
  - now rewrite length_app, IH.
Qed.

(** *** Planning succeeds when the collaborators answer *)

Section Progress.

Variable rt : Runtime.
Hypothesis Hrt : answers_planning rt.

(** The keys of keypairs are on the curve, and the quotes fit in 64 bits. *)
Hypothesis Hcurve : forall k : Keypair, PublicKey_isOnCurve rt (publicKey k) = true.
Hypothesis Hquote :
  forall h g amount quoted,
    answer rt Z h (GlobalAccount_getInitialBuyPrice g amount) = Ok quoted ->
    Z.abs quoted < 2 ^ 64.

Lemma random_element_succeeds l : succeeds rt (random_element l).
Proof.
  unfold random_element. apply succeeds_bind.
  - apply succeeds_call. intro h. apply Hrt.
  - intro i. apply succeeds_ret.
Qed.

Lemma tip_from_succeeds p k : succeeds rt (tip_from p (Some k)).
Proof.
  unfold tip_from. destruct (enabled _).
  - apply succeeds_bind; [apply random_element_succeeds |].
    intro a. apply succeeds_ret.
  - apply succeeds_ret.
Qed.

Lemma getGlobalAccount_succeeds commitment :
  succeeds rt (getGlobalAccount commitment).
Proof.
  destruct Hrt as [_ [Hfetch [Hdecode _]]].
  intro h. unfold getGlobalAccount, bind, call.
  destruct (Hfetch h commitment) as [data ->].
  destruct (Hdecode (h ++ [Ev (GetAccountInfo GlobalPDA commitment)
                              (Ok (Some data))]) data) as [g ->].
  eauto.
Qed.

(** The buy builder returns, whatever the lookup answers, for a keypair's
    key and amounts that fit. *)
Lemma getBuyInstructions_succeeds (buyer : Keypair) mint recipient
      amount solAmount c :
  Z.abs amount < 2 ^ 64 -> Z.abs solAmount < 2 ^ 64 ->
  succeeds rt (getBuyInstructions (publicKey buyer) mint recipient
                 amount solAmount c).
Proof.
  intros Ha Hs h. rewrite getBuyInstructions_run, Hcurve.
  rewrite (u64_fits _ Ha), (u64_fits _ Hs). eauto.
Qed.

(** A quote followed by the buy it prices. *)
Lemma quoted_buy_succeeds p (buyer : Keypair) g solIn
      (k : Transaction -> M Transaction) :
  max_spend p solIn < 2 ^ 64 ->
  (forall buyTx, succeeds rt (k buyTx)) ->
  succeeds rt
    (bind (call (GlobalAccount_getInitialBuyPrice g solIn))
       (fun buyAmount =>
          bind (getBuyInstructions (publicKey buyer)
                  (publicKey (CreateAndBuyParams.mint p)) (feeRecipient g)
                  buyAmount
                  (calculateWithSlippageBuy solIn (slippage_of p)) None)
               k)).
Proof.
  intros Hs Hk h.
  destruct Hrt as (_ & _ & _ & Hprice).
  destruct (Hprice h g solIn) as [quoted Eq].
  pose proof (Hquote _ _ _ _ Eq) as Hq.
  destruct (getBuyInstructions_succeeds buyer
              (publicKey (CreateAndBuyParams.mint p)) (feeRecipient g)
              quoted (calculateWithSlippageBuy solIn (slippage_of p)) None
              Hq Hs (h ++ [Ev (GlobalAccount_getInitialBuyPrice g solIn)
                              (Ok quoted)]))
    as (buyTx & t1 & E1).
  destruct (Hk buyTx ((h ++ [Ev (GlobalAccount_getInitialBuyPrice g solIn)
                                (Ok quoted)]) ++ t1)) as (tx & t2 & E2).
  exists tx, ([Ev (GlobalAccount_getInitialBuyPrice g solIn) (Ok quoted)]
                ++ t1 ++ t2).
  unfold bind at 1. unfold call at 1. rewrite Eq.
  unfold bind at 1. rewrite E1, E2. reflexivity.
Qed.

Lemma batchBuys_succeeds p g :
  forall batch acc,
    Forall (fun b => max_spend p (amountInSol b) < 2 ^ 64) batch ->
    succeeds rt (batchBuys p g batch acc).
Proof.
  induction batch as [| buy rest IH]; intros acc Hfit; cbn [batchBuys].
  - apply succeeds_ret.
  - inversion Hfit as [| ? ? Hbuy Hrest]; subst.
    apply (quoted_buy_succeeds p (signer buy) g (amountInSol buy)
             (fun buyTx => batchBuys p g rest (acc ++ buyTx)) Hbuy).
    intro buyTx. now apply IH.
Qed.

Lemma batchTransaction_succeeds p batch :
  batch <> [] ->
  Forall (fun b => max_spend p (amountInSol b) < 2 ^ 64) batch ->
  succeeds rt (batchTransaction p batch).
Proof.
  intros Hne Hfit. destruct batch as [| first rest]; [contradiction |].
  unfold batchTransaction. apply succeeds_bind.
  - apply getGlobalAccount_succeeds.
  - intro g. apply succeeds_bind.
    + apply tip_from_succeeds.
    + intro tip. now apply batchBuys_succeeds.
Qed.

Lemma processBatches_succeeds p :
  forall batches txs sgs,
    Forall (fun b => b <> []) batches ->
    Forall (Forall (fun b => max_spend p (amountInSol b) < 2 ^ 64)) batches ->
    succeeds rt (processBatches p batches txs sgs).
Proof.
  induction batches as [| batch rest IH]; intros txs sgs Hne Hfit;
    cbn [processBatches].
  - apply succeeds_ret.
  - inversion Hne; subst. inversion Hfit; subst. apply succeeds_bind.
    + now apply batchTransaction_succeeds.
    + intro batchTx. now apply IH.
Qed.

Lemma getCreateInstructions_succeeds creator name symbol s mint :
  succeeds rt (getCreateInstructions creator name symbol (Some (JStr s)) mint).
Proof.
  intro h. eexists. eexists. reflexivity.
Qed.

Lemma firstTransaction_succeeds p s :
  max_spend p (CreateAndBuyParams.buyAmountSol p) < 2 ^ 64 ->
  succeeds rt (firstTransaction p (Some (JStr s))).
Proof.
  intro Hfit. unfold firstTransaction. apply succeeds_bind.
  - apply getCreateInstructions_succeeds.
  - intro create. apply succeeds_bind.
    + apply tip_from_succeeds.
    + intro tip. cbv zeta. destruct (0 <? _).
      * apply succeeds_bind; [apply getGlobalAccount_succeeds |].
        intro g.
        apply (quoted_buy_succeeds p (CreateAndBuyParams.creator p) g
                 (CreateAndBuyParams.buyAmountSol p)
                 (fun buyTx => ret ((tip ++ create) ++ buyTx)) Hfit).
        intro buyTx. apply succeeds_ret.
      * apply succeeds_ret.
Qed.

Lemma batches_fit {A} (P : A -> Prop) (l : list A) :
  forall fuel i, Forall P l -> Forall (Forall P) (batches_from fuel l i).
Proof.
  induction fuel as [| fuel IH]; intros i Hl; cbn [batches_from].
  - constructor.
  - destruct (i <? List.length l)%nat; [| constructor].
    constructor; [| now apply IH].
    unfold slice. apply Forall_forall. intros x Hx.
    assert (In x l) as Hin.
    { rewrite <- (firstn_skipn i l). apply in_or_app. right.
      rewrite <- (firstn_skipn (i + MAX_BUNDLED_BUYS_PER_TX - i) (skipn i l)).
      apply in_or_app. now left. }
    rewrite Forall_forall in Hl. now apply Hl.
Qed.

(** Once the metadata upload has returned an object whose [metadataUri] is a
    string, planning returns a plan, provided every maximum spend fits in
    64 bits. *)
Lemma plan_succeeds p h meta t0 s :
  createTokenMetadata (CreateAndBuyParams.createTokenMetadata p) rt h
  = (Ok meta, t0) ->
  property "metadataUri" meta = Ok (Some (JStr s)) ->
  max_spend p (CreateAndBuyParams.buyAmountSol p) < 2 ^ 64 ->
  (forall buys,
      CreateAndBuyParams.bundledBuys p = Some buys ->
      Forall (fun b => max_spend p (amountInSol b) < 2 ^ 64) buys) ->
  exists txs sgs t, plan p rt h = (Ok (txs, sgs), t).
Proof.
  intros Hm Hu Hown Hbuys. unfold plan.
  assert (succeeds rt
            (bind (firstTransaction p (Some (JStr s)))
                  (fun firstTx =>
                     processBatches p
                       (batches_of (CreateAndBuyParams.bundledBuys p))
                       [firstTx]
                       [[CreateAndBuyParams.creator p;
                         CreateAndBuyParams.mint p]]))) as Hrest.
  { apply succeeds_bind; [now apply firstTransaction_succeeds |].
    intro firstTx. apply processBatches_succeeds.
    - eapply Forall_impl; [| apply batches_of_sizes].
      intros b Hb Hnil. subst b. simpl in Hb. lia.
    - unfold batches_of.
      destruct (CreateAndBuyParams.bundledBuys p) as [[| b buys] |];
        [constructor | | constructor].
      unfold make_batches. apply batches_fit. now apply Hbuys. }
  destruct (Hrest (h ++ t0)) as [[txs sgs] [t E]].
  exists txs, sgs, (t0 ++ t).
  unfold bind at 1. rewrite Hm.
  unfold bind at 1. unfold field, lift. rewrite Hu.
  rewrite app_nil_r. now rewrite E.
Qed.

End Progress.

(** *** The claims about the plan *)

(** C2. A request with [N >= 1] bundled buyers is planned as one primary
    transaction, which holds the create-market instruction, followed by
    [ceil (N / 4)] secondary transactions, each with at least one and at most
    four buys, all [N] buys being placed; for [N = 9] there are three
    secondary transactions with 4, 4 and 1 buys. *)
Theorem plan_one_primary_ceil_secondary p rt h txs sgs t buys :
  CreateAndBuyParams.bundledBuys p = Some buys ->
  (1 <= List.length buys)%nat ->
  plan p rt h = (Ok (txs, sgs), t) ->
  exists first secondary,
    txs = first :: secondary /\
    first_shape p first /\
    List.length secondary
      = ceil_div (List.length buys) MAX_BUNDLED_BUYS_PER_TX /\
    Forall (fun tx => (1 <= buy_count tx <= MAX_BUNDLED_BUYS_PER_TX)%nat)
           secondary /\
    list_sum (map buy_count secondary) = List.length buys /\
    (List.length buys = 9%nat ->
     map buy_count secondary = [4%nat; 4%nat; 1%nat]).
Proof.
  intros Hb HN H. apply plan_ok in H.
  destruct H as [first [secondary [-> [_ [Hfirst [Hshape _]]]]]].
  rewrite Hb in Hshape.
  pose proof (shapes_counts _ _ _ Hshape) as Hcounts.
  exists first, secondary. split; [reflexivity |]. split; [exact Hfirst |].
  split; [| split; [| split]].
  - rewrite <- (length_map buy_count), Hcounts, length_map.
    apply batches_of_length.
  - apply Forall_forall. intros tx Htx.
    apply (in_map buy_count) in Htx. rewrite Hcounts in Htx.
    apply in_map_iff in Htx. destruct Htx as [batch [<- Hin]].
    pose proof (batches_of_sizes (Some buys)) as Hs.
    rewrite Forall_forall in Hs. now apply Hs.
  - rewrite Hcounts, list_sum_lengths. now rewrite batches_of_concat.
  - intro H9. rewrite Hcounts.
    destruct buys as [| b0 rest]; [discriminate H9 |].
    cbn [batches_of].
    destruct (make_batches_nine (b0 :: rest) H9)
      as (a & b & c & d & e & f & g & i & j & ->).
    reflexivity.
Qed.

Lemma plan_one_primary_ceil_secondary_witness :
  exists first secondary,
    Scenario.planned_transactions
      (Scenario.request 5 Scenario.jito_on Scenario.nine) Scenario.all_good
    = first :: secondary /\
    first_shape (Scenario.request 5 Scenario.jito_on Scenario.nine) first /\
    List.length secondary
      = ceil_div (List.length (Scenario.buyers Scenario.nine))
                 MAX_BUNDLED_BUYS_PER_TX /\
    Forall (fun tx => (1 <= buy_count tx <= MAX_BUNDLED_BUYS_PER_TX)%nat)
           secondary /\
    list_sum (map buy_count secondary)
      = List.length (Scenario.buyers Scenario.nine) /\
    (List.length (Scenario.buyers Scenario.nine) = 9%nat ->
     map buy_count secondary = [4%nat; 4%nat; 1%nat]).
Proof.
  apply (plan_one_primary_ceil_secondary
           (Scenario.request 5 Scenario.jito_on Scenario.nine)
           Scenario.all_good []
           (Scenario.planned_transactions
              (Scenario.request 5 Scenario.jito_on Scenario.nine)
              Scenario.all_good)
           (Scenario.planned_signers
              (Scenario.request 5 Scenario.jito_on Scenario.nine)
              Scenario.all_good)
           (Scenario.planned_trace
              (Scenario.request 5 Scenario.jito_on Scenario.nine)
              Scenario.all_good)
           (Scenario.buyers Scenario.nine)).
  - reflexivity.
  - simpl. lia.
  - vm_compute. reflexivity.
Defined.

(** C7. In every plan the signers attached to a transaction are exactly the
    accounts in whose name its instructions are issued: the first transaction
    is signed by the creator and the mint, and the transaction of a batch by
    the signers of the buys of that batch, with or without relay routing and
    for any number of bundled buys. *)
Theorem plan_signers_match_instructions p rt h txs sgs t :
  plan p rt h = (Ok (txs, sgs), t) ->
  exists first secondary,
    txs = first :: secondary /\
    sgs = [CreateAndBuyParams.creator p; CreateAndBuyParams.mint p]
            :: map (map signer) (batches_of (CreateAndBuyParams.bundledBuys p)) /\
    Forall2 (batch_shape p)
            (batches_of (CreateAndBuyParams.bundledBuys p)) secondary /\
    Forall2 (fun tx sg =>
               same_keys (transaction_signers tx) (map publicKey sg))
            txs sgs.
Proof.
  intro H. apply plan_ok in H.
  destruct H as [first [secondary [-> [-> [Hfirst [Hshape _]]]]]].
  exists first, secondary. repeat split; try assumption.
  constructor.
  - now apply first_shape_signers.
  - now apply (shapes_signers p).
Qed.

Lemma plan_signers_match_instructions_witness :
  exists first secondary,
    Scenario.planned_transactions
      (Scenario.request 5 Scenario.jito_off Scenario.nine) Scenario.no_holding
    = first :: secondary /\
    Scenario.planned_signers
      (Scenario.request 5 Scenario.jito_off Scenario.nine) Scenario.no_holding
    = [Scenario.keypair "creator"; Scenario.keypair "mint"]
        :: map (map signer)
             (batches_of (Some (Scenario.buyers Scenario.nine))) /\
    Forall2 (batch_shape (Scenario.request 5 Scenario.jito_off Scenario.nine))
            (batches_of (Some (Scenario.buyers Scenario.nine))) secondary /\
    Forall2 (fun tx sg =>
               same_keys (transaction_signers tx) (map publicKey sg))
            (Scenario.planned_transactions
               (Scenario.request 5 Scenario.jito_off Scenario.nine)
               Scenario.no_holding)
            (Scenario.planned_signers
               (Scenario.request 5 Scenario.jito_off Scenario.nine)
               Scenario.no_holding).
Proof.
  apply (plan_signers_match_instructions
           (Scenario.request 5 Scenario.jito_off Scenario.nine)
           Scenario.no_holding []
           _ _
           (Scenario.planned_trace
              (Scenario.request 5 Scenario.jito_off Scenario.nine)
              Scenario.no_holding)).
  vm_compute. reflexivity.
Defined.




End PlanFacts.

(* ================================================================== *)
(** ** Theorems: submission *)

Module SubmitFacts.
Import Js Solana Host Jito Util Slippage PumpFunSDK Properties.
Import MonadFacts LibraryFacts BuilderFacts BatchFacts PlanFacts.
Local Open Scope list_scope.

(** *** Code that submits nothing *)

Create HintDb quiet.

Ltac quiet := repeat first [solve [auto with quiet] | emits_step].

Lemma random_element_quiet l : emits no_submission (random_element l).
Proof. unfold random_element. quiet. Qed.
#[local] Hint Resolve random_element_quiet : quiet.

Lemma string_or_quiet a b :
  emits no_submission b -> emits no_submission (string_or a b).
Proof. intro H. unfold string_or. quiet. Qed.

Lemma endpoint_quiet a :
  emits no_submission (string_or a getRandomJitoMainnetEndpoint).
Proof. apply string_or_quiet. apply random_element_quiet. Qed.
#[local] Hint Resolve endpoint_quiet : quiet.

Lemma getRandomTipAccount_quiet : emits no_submission getRandomTipAccount.
Proof. apply random_element_quiet. Qed.
#[local] Hint Resolve getRandomTipAccount_quiet : quiet.

Lemma buildVersionedTx_quiet payer tx commitment :
  emits no_submission (buildVersionedTx payer tx commitment).
Proof. unfold buildVersionedTx. quiet. Qed.
#[local] Hint Resolve buildVersionedTx_quiet : quiet.

Lemma field_quiet name obj : emits no_submission (field name obj).
Proof. unfold field. quiet. Qed.
#[local] Hint Resolve field_quiet : quiet.

Lemma getTxDetails_quiet sig commitment finality :
  emits no_submission (getTxDetails sig commitment finality).
Proof. unfold getTxDetails. quiet. Qed.
#[local] Hint Resolve getTxDetails_quiet : quiet.

Lemma sendTx_catch_quiet e : emits no_submission (sendTx_catch e).
Proof. unfold sendTx_catch. quiet. Qed.
#[local] Hint Resolve sendTx_catch_quiet : quiet.

Lemma createTokenMetadata_submits_nothing create :
  emits no_submission (createTokenMetadata create).
Proof. unfold createTokenMetadata. quiet. Qed.
#[local] Hint Resolve createTokenMetadata_submits_nothing : quiet.

Lemma getGlobalAccount_quiet commitment :
  emits no_submission (getGlobalAccount commitment).
Proof. unfold getGlobalAccount. quiet. Qed.
#[local] Hint Resolve getGlobalAccount_quiet : quiet.

Lemma getBuyInstructions_quiet buyer mint recipient amount solAmount commitment :
  emits no_submission
        (getBuyInstructions buyer mint recipient amount solAmount commitment).
Proof. unfold getBuyInstructions. quiet. Qed.
#[local] Hint Resolve getBuyInstructions_quiet : quiet.

Lemma tip_from_submits_nothing p payer : emits no_submission (tip_from p payer).
Proof. unfold tip_from. quiet. Qed.
#[local] Hint Resolve tip_from_submits_nothing : quiet.

Lemma firstTransaction_quiet p uri :
  emits no_submission (firstTransaction p uri).
Proof. unfold firstTransaction. quiet. Qed.
#[local] Hint Resolve firstTransaction_quiet : quiet.

Lemma batchBuys_quiet p g :
  forall batch acc, emits no_submission (batchBuys p g batch acc).
Proof.
  induction batch as [| buy rest IH]; intro acc; cbn [batchBuys]; quiet.
Qed.
#[local] Hint Resolve batchBuys_quiet : quiet.

Lemma batchTransaction_quiet p batch :
  emits no_submission (batchTransaction p batch).
Proof. unfold batchTransaction. quiet. Qed.
#[local] Hint Resolve batchTransaction_quiet : quiet.

Lemma processBatches_quiet p :
  forall batches txs sgs, emits no_submission (processBatches p batches txs sgs).
Proof.
  induction batches as [| batch rest IH]; intros txs sgs;
    cbn [processBatches]; quiet.
Qed.
#[local] Hint Resolve processBatches_quiet : quiet.

(** Planning submits nothing. *)
Lemma plan_quiet p : emits no_submission (plan p).
Proof. unfold plan. quiet. Qed.

Lemma signAll_quiet p :
  forall k i txs sgs acc, emits no_submission (signAll p k i txs sgs acc).
Proof.
  induction k as [| k IH]; intros i txs sgs acc; cbn [signAll]; quiet.
Qed.

Lemma quiet_facts (t : list Event) :
  forallb no_submission t = true ->
  bundle_responses t = [] /\
  count is_send_bundle t = 0%nat /\ count is_send_transaction t = 0%nat.
Proof.
  intro H. split; [| split].
  - apply bundle_responses_none. rewrite forallb_forall in *.
    intros e He. specialize (H e He). unfold no_submission, is_submission in H.
    destruct (is_send_bundle e); [| reflexivity].
    now rewrite orb_true_r in H.
  - apply count_none. rewrite forallb_forall in *.
    intros e He. specialize (H e He). unfold no_submission, is_submission in H.
    destruct (is_send_bundle e); [| reflexivity].
    now rewrite orb_true_r in H.
  - apply count_none. rewrite forallb_forall in *.
    intros e He. specialize (H e He). unfold no_submission, is_submission in H.
    now destruct (is_send_transaction e).
Qed.

(** *** Counting submissions *)

Lemma at_most_quiet P {A} (m : M A) :
  emits (fun e => negb (P e)) m -> at_most P 0 m.
Proof.
  intros H rt h. rewrite count_none; [lia | apply H].
Qed.

Lemma at_most_no_submission {A} (m : M A) :
  emits no_submission m ->
  at_most is_send_transaction 0 m /\ at_most is_send_bundle 0 m.
Proof.
  intro H. split; intros rt h;
    destruct (quiet_facts _ (H rt h)) as [_ [Hb Hs]]; lia.
Qed.

Lemma at_most_ret P {A} (a : A) : at_most P 0 (ret a).
Proof. intros rt h. simpl. unfold count. simpl. lia. Qed.

Lemma at_most_call P {R} (c : Call R) : at_most P 1 (call c).
Proof.
  intros rt h. unfold call, count. simpl. destruct (P _); simpl; lia.
Qed.

Lemma at_most_call_other P {R} (c : Call R) :
  (forall r, P (Ev c r) = false) -> at_most P 0 (call c).
Proof.
  intros H rt h. unfold call, count. simpl. rewrite H. simpl. lia.
Qed.

Lemma at_most_bind P n1 n2 n {A B} (m : M A) (f : A -> M B) :
  at_most P n1 m -> (forall a, at_most P n2 (f a)) -> (n1 + n2 <= n)%nat ->
  at_most P n (bind m f).
Proof.
  intros Hm Hf Hn rt h. unfold bind.
  specialize (Hm rt h). destruct (m rt h) as [[a | e] t1]; simpl in *.
  - specialize (Hf a rt (h ++ t1)).
    destruct (f a rt (h ++ t1)) as [r t2]. simpl in *.
    rewrite count_app. lia.
  - lia.
Qed.

Lemma at_most_try_catch P n1 n2 n {A} (m : M A) (handler : Value -> M A) :
  at_most P n1 m -> (forall e, at_most P n2 (handler e)) ->
  (n1 + n2 <= n)%nat ->
  at_most P n (try_catch m handler).
Proof.
  intros Hm Hh Hn rt h. unfold try_catch.
  specialize (Hm rt h). destruct (m rt h) as [[a | e] t1]; simpl in *.
  - lia.
  - specialize (Hh e rt (h ++ t1)).
    destruct (handler e rt (h ++ t1)) as [r t2]. simpl in *.
    rewrite count_app. lia.
Qed.

(** The direct branch of [sendTx] hands at most one transaction to the
    ledger. *)
Lemma sendTx_try_direct_sends versionedTx ep commitment finality :
  at_most is_send_transaction 1
          (sendTx_try false versionedTx ep commitment finality) /\
  at_most is_send_bundle 0
          (sendTx_try false versionedTx ep commitment finality).
Proof.
  unfold sendTx_try. split.
  - apply (at_most_bind _ 1 0); [apply at_most_call | | reflexivity].
    intro sig.
    apply (at_most_bind _ 0 0); [| | reflexivity].
    + apply at_most_no_submission, getTxDetails_quiet.
    + intros [r |]; apply at_most_ret.
  - apply (at_most_bind _ 0 0);
      [apply at_most_call_other; reflexivity | | reflexivity].
    intro sig.
    apply (at_most_bind _ 0 0); [| | reflexivity].
    + apply at_most_no_submission, getTxDetails_quiet.
    + intros [r |]; apply at_most_ret.
Qed.

Lemma sendTx_direct_sends tx payer signers fees commitment finality tip ep :
  at_most is_send_transaction 1
          (sendTx tx payer signers fees commitment finality None tip ep) /\
  at_most is_send_bundle 0
          (sendTx tx payer signers fees commitment finality None tip ep).
Proof.
  unfold sendTx. cbv zeta.
  split.
  - apply (at_most_bind _ 0 1); [| | reflexivity].
    { apply at_most_no_submission, emits_compute_budget. }
    intro newTx0.
    apply (at_most_bind _ 0 1); [apply at_most_ret | | reflexivity].
    intro newTx1.
    apply (at_most_bind _ 0 1); [| | reflexivity].
    { apply at_most_no_submission, buildVersionedTx_quiet. }
    intro versionedTx.
    apply (at_most_bind _ 0 1); [| | reflexivity].
    { apply at_most_no_submission, emits_sign. }
    intro signed.
    apply (at_most_try_catch _ 1 0); [| | reflexivity].
    + apply sendTx_try_direct_sends.
    + intro. apply at_most_no_submission, sendTx_catch_quiet.
  - apply (at_most_bind _ 0 0); [| | reflexivity].
    { apply at_most_no_submission, emits_compute_budget. }
    intro newTx0.
    apply (at_most_bind _ 0 0); [apply at_most_ret | | reflexivity].
    intro newTx1.
    apply (at_most_bind _ 0 0); [| | reflexivity].
    { apply at_most_no_submission, buildVersionedTx_quiet. }
    intro versionedTx.
    apply (at_most_bind _ 0 0); [| | reflexivity].
    { apply at_most_no_submission, emits_sign. }
    intro signed.
    apply (at_most_try_catch _ 0 0); [| | reflexivity].
    + apply sendTx_try_direct_sends.
    + intro. apply at_most_no_submission, sendTx_catch_quiet.
Qed.

Lemma sendPlanned_sends p tx signers rt h r t :
  sendPlanned p tx signers rt h = (r, t) ->
  (count is_send_transaction t <= 1)%nat /\ count is_send_bundle t = 0%nat.
Proof.
  unfold sendPlanned. intro H.
  assert (forall (m : M TransactionResult),
             emits no_submission m -> m rt h = (r, t) ->
             (count is_send_transaction t <= 1)%nat
             /\ count is_send_bundle t = 0%nat) as Hquiet.
  { intros m Hm E.
    destruct (quiet_facts _ (emits_run _ _ _ _ _ _ Hm E)) as (_ & Hb & Hs).
    rewrite Hb, Hs. split; [apply Nat.le_0_1 | reflexivity]. }
  destruct tx as [tx |]; destruct signers as [[| payer rest] |];
    cbv beta iota in H;
    try (solve [eapply Hquiet; [| exact H]; quiet]).
  pose proof (sendTx_direct_sends tx (publicKey payer) (payer :: rest)
                (CreateAndBuyParams.priorityFees p)
                (Some match CreateAndBuyParams.commitment p with
                      | Some c => c | None => DEFAULT_COMMITMENT end)
                (Some match CreateAndBuyParams.finality p with
                      | Some f => f | None => DEFAULT_FINALITY end)
                None None) as [Hs Hb].
  specialize (Hs rt h). specialize (Hb rt h). rewrite H in Hs, Hb.
  simpl in Hs, Hb. split; [exact Hs | lia].
Qed.

(** *** The sequential path *)

(** C1, as stated, fails: with five bundled buyers (three transactions) and a
    node that rejects the second submission, [createAndBuy] returns the
    failure of the second transaction, not the first transaction's result. *)
Lemma second_failure_does_not_return_first_result :
  ~ second_failure_returns_first_result.
Proof.
  intro H.
  edestruct (H (Scenario.request 0 Scenario.jito_off Scenario.five)
               Scenario.second_fails []) as [Hout _].
  - reflexivity.
  - vm_compute. reflexivity.
  - vm_compute. reflexivity.
  - reflexivity.
  - vm_compute. reflexivity.
  - reflexivity.
  - vm_compute. reflexivity.
  - discriminate Hout.
Qed.

(** C1, amended. In the sequential path, when the first of three planned
    transactions succeeds and the second fails, [createAndBuy] returns the
    failure result of the second transaction; the run consists of the
    planning, the submission of the first and the submission of the second
    transaction and nothing more, so the third transaction is never
    submitted: at most two transactions reach the ledger and none the
    relay. *)
Theorem second_failure_is_returned
        p rt h t1 t2 t3 s1 s2 s3 tp r1 tr1 r2 tr2 :
  enabled (CreateAndBuyParams.jitoConfig p) = None ->
  plan p rt h = (Ok ([t1; t2; t3], [s1; s2; s3]), tp) ->
  sendPlanned p (Some t1) (Some s1) rt (h ++ tp) = (Ok r1, tr1) ->
  success r1 = true ->
  sendPlanned p (Some t2) (Some s2) rt (h ++ tp ++ tr1) = (Ok r2, tr2) ->
  success r2 = false ->
  createAndBuy p rt h = (Ok (Some r2), tp ++ tr1 ++ tr2) /\
  (List.length (sent_transactions (tp ++ tr1 ++ tr2)) <= 2)%nat /\
  count is_send_bundle (tp ++ tr1 ++ tr2) = 0%nat.
Proof.
  intros Hen Hplan H1 Hs1 H2 Hs2.
  split; [| split].
  - unfold createAndBuy, bind. rewrite Hplan.
    unfold submit. rewrite Hen.
    unfold sendSequentially. cbn [List.length sendAll nth_error].
    unfold bind. rewrite H1, Hs1. cbn [negb Nat.eqb].
    rewrite <- app_assoc, H2, Hs2. cbn [negb]. unfold ret.
    now rewrite app_nil_r.
  - rewrite sent_transactions_length, !count_app.
    destruct (quiet_facts _ (emits_run _ _ _ _ _ _ (plan_quiet p) Hplan))
      as [_ [_ Hp]].
    destruct (sendPlanned_sends _ _ _ _ _ _ _ H1) as [C1 _].
    destruct (sendPlanned_sends _ _ _ _ _ _ _ H2) as [C2 _].
    lia.
  - rewrite !count_app.
    destruct (quiet_facts _ (emits_run _ _ _ _ _ _ (plan_quiet p) Hplan))
      as [_ [Hp _]].
    destruct (sendPlanned_sends _ _ _ _ _ _ _ H1) as [_ C1].
    destruct (sendPlanned_sends _ _ _ _ _ _ _ H2) as [_ C2].
    lia.
Qed.

(** *** The relay path *)

Lemma quiet_run {A} (m : M A) rt h r t :
  emits no_submission m -> m rt h = (r, t) ->
  bundle_responses t = [] /\
  count is_send_bundle t = 0%nat /\ count is_send_transaction t = 0%nat.
Proof.
  intros Hq E. apply quiet_facts. exact (emits_run _ _ _ _ _ _ Hq E).
Qed.







Lemma second_failure_is_returned_witness :
  createAndBuy Scenario.three Scenario.second_fails []
  = (Ok (Some (Scenario.result_of Scenario.second_send)),
     Scenario.planned_trace Scenario.three Scenario.second_fails
       ++ snd Scenario.first_send ++ snd Scenario.second_send) /\
  (List.length
     (sent_transactions
        (Scenario.planned_trace Scenario.three Scenario.second_fails
           ++ snd Scenario.first_send ++ snd Scenario.second_send)) <= 2)%nat /\
  count is_send_bundle
        (Scenario.planned_trace Scenario.three Scenario.second_fails
           ++ snd Scenario.first_send ++ snd Scenario.second_send) = 0%nat.
Proof.
  apply (second_failure_is_returned
           Scenario.three Scenario.second_fails []
           (Scenario.tx_at 0) (Scenario.tx_at 1) (Scenario.tx_at 2)
           (Scenario.sg_at 0) (Scenario.sg_at 1) (Scenario.sg_at 2)
           (Scenario.planned_trace Scenario.three Scenario.second_fails)
           (Scenario.result_of Scenario.first_send) (snd Scenario.first_send)
           (Scenario.result_of Scenario.second_send)
           (snd Scenario.second_send)).
  - reflexivity.
  - vm_compute. reflexivity.
  - vm_compute. reflexivity.
  - vm_compute. reflexivity.
  - vm_compute. reflexivity.
  - vm_compute. reflexivity.
Defined.



End SubmitFacts.

(* ================================================================== *)
(** ** Further theorems: slippage, batching, upload, builders *)

Module CoverageFacts.
Import Js Solana Host Jito Util Slippage PumpFunSDK Properties Coverage.
Import MonadFacts LibraryFacts BuilderFacts BatchFacts PlanFacts SubmitFacts.
Local Open Scope list_scope.

(** *** Slippage *)

(** The bounds are monotone: a larger amount or a larger tolerance never
    lowers the maximum spend, a larger tolerance never raises the minimum
    output, and up to 10000 basis points a larger amount never lowers the
    minimum output. *)
Theorem slippage_monotone (a a' bp bp' : Z) :
  0 <= a <= a' -> 0 <= bp <= bp' ->
  calculateWithSlippageBuy a bp <= calculateWithSlippageBuy a' bp' /\
  calculateWithSlippageSell a bp' <= calculateWithSlippageSell a bp /\
  (bp <= 10000 ->
   calculateWithSlippageSell a bp <= calculateWithSlippageSell a' bp).
Proof.
  intros Ha Hb.
  unfold calculateWithSlippageBuy, calculateWithSlippageSell.
  rewrite !SlippageFacts.margin_floor by lia.
  assert ((a * bp) / 10000 <= (a' * bp') / 10000) as H1
    by (apply Z.div_le_mono; nia).
  assert ((a * bp) / 10000 <= (a * bp') / 10000) as H2
    by (apply Z.div_le_mono; nia).
  split; [lia |]. split; [lia |].
  intro Hle.
  assert ((a' * bp) / 10000 <= (a * bp + (a' - a) * 10000) / 10000) as H3
    by (apply Z.div_le_mono; nia).
  rewrite Z.div_add in H3 by lia. lia.
Qed.

Lemma slippage_monotone_witness :
  calculateWithSlippageBuy 199 500 <= calculateWithSlippageBuy 200 600 /\
  calculateWithSlippageSell 199 600 <= calculateWithSlippageSell 199 500 /\
  (500 <= 10000 ->
   calculateWithSlippageSell 199 500 <= calculateWithSlippageSell 200 500).
Proof.
  apply (slippage_monotone 199 200 500 600); lia.
Defined.

(** *** Batching *)

Lemma batches_from_full {A} (l : list A) :
  forall fuel i,
    Forall (fun b => List.length b = MAX_BUNDLED_BUYS_PER_TX)
           (removelast (batches_from fuel l i)).
Proof.
  induction fuel as [| fuel IH]; intro i; cbn [batches_from].
  - constructor.
  - destruct (i <? List.length l)%nat eqn:Hi; [| constructor].
    specialize (IH (i + MAX_BUNDLED_BUYS_PER_TX)%nat).
    destruct (batches_from fuel l (i + MAX_BUNDLED_BUYS_PER_TX)) as [| b bs] eqn:E.
    + constructor.
    + cbn [removelast]. constructor; [| exact IH].
      rewrite slice_length.
      destruct fuel as [| fuel']; [discriminate E |].
      cbn [batches_from] in E.
      destruct (i + MAX_BUNDLED_BUYS_PER_TX <? List.length l)%nat eqn:Hn;
        [| discriminate E].
      apply Nat.ltb_lt in Hn. unfold MAX_BUNDLED_BUYS_PER_TX in *. lia.
Qed.

(** The batches partition the bundled buys in request order: concatenated
    they give the list back, every batch before the last holds four buys, and
    the last one holds the rest. *)
Theorem batches_partition (buys : list BundledBuy) :
  List.concat (batches_of (Some buys)) = buys /\
  Forall (fun b => List.length b = 4%nat)
         (removelast (batches_of (Some buys))) /\
  List.length buys
  = (4 * (List.length (batches_of (Some buys)) - 1)
     + List.length (last (batches_of (Some buys)) []))%nat.
Proof.
  assert (Forall (fun b => List.length b = 4%nat)
                 (removelast (batches_of (Some buys)))) as Hfull.
  { destruct buys as [| b buys]; [constructor |]. apply batches_from_full. }
  split; [apply batches_of_concat |]. split; [exact Hfull |].
  rewrite <- (batches_of_concat buys) at 1.
  rewrite <- list_sum_lengths.
  destruct (batches_of (Some buys)) as [| b0 bs] eqn:E; [reflexivity |].
  rewrite <- E in *.
  assert (batches_of (Some buys) <> []) as Hne by (rewrite E; discriminate).
  rewrite (app_removelast_last [] Hne) at 1.
  rewrite map_app, list_sum_app. cbn [map list_sum].
  assert (List.length (batches_of (Some buys))
          = S (List.length (removelast (batches_of (Some buys))))) as Hlen.
  { rewrite (app_removelast_last [] Hne) at 1.
    rewrite length_app. simpl. lia. }
  rewrite Hlen.
  assert (list_sum (map (@List.length _) (removelast (batches_of (Some buys))))
          = (4 * List.length (removelast (batches_of (Some buys))))%nat) as Hsum.
  { clear - Hfull. induction Hfull as [| b bs Hb _ IH]; [reflexivity |].
    simpl in *. rewrite Hb, IH. lia. }
  rewrite Hsum. unfold list_sum. cbn [fold_right]. lia.
Qed.

(** *** The metadata upload *)

(** [createTokenMetadata] validates the file before it touches the network,
    makes at most one request, and returns a value exactly when that request
    was answered with a status other than 500, [ok], a non-empty body and a
    body that parses; the value is then the parsed body. *)
Theorem upload_returns_parsed_body create rt h :
  match CreateTokenMetadata.file create with
  | NotABlob =>
      createTokenMetadata create rt h
      = (Throw (VError "File must be a Blob or File object"), [])
  | Blob _ => List.length (snd (createTokenMetadata create rt h)) = 1%nat
  end /\
  (forall j,
      fst (createTokenMetadata create rt h) = Ok j <->
      exists resp,
        fetch_responses (snd (createTokenMetadata create rt h)) = [Ok resp] /\
        status resp <> 500 /\ ok resp = true /\
        body resp <> ""%string /\
        JSON_parse rt (body resp) = Some j).
Proof.
  unfold createTokenMetadata.
  destruct (CreateTokenMetadata.file create) as [content |].
  2: { split; [reflexivity |]. intro j. split; [discriminate |].
       intros (resp & Htr & _). discriminate Htr. }
  cbv zeta.
  match goal with
  | |- context [bind ?m ?f rt h] => destruct (bind m f rt h) as [r t] eqn:E
  end.
  cbn [fst snd].
  apply bind_inv in E.
  destruct E as [[e [E ->]] | (resp & t1 & t2 & E1 & E2 & ->)].
  { apply call_inv in E. destruct E as [_ ->].
    split; [reflexivity |]. intro j. split; [discriminate |].
    intros (resp & Htr & _). discriminate Htr. }
  apply call_inv in E1. destruct E1 as [_ ->].
  assert (t2 = [] /\
          (forall j, r = Ok j <->
                     status resp <> 500 /\ ok resp = true /\
                     body resp <> ""%string /\
                     JSON_parse rt (body resp) = Some j)) as [-> Hr].
  { destruct (status resp =? 500) eqn:Hs.
    { apply throw_inv in E2. destruct E2 as [-> ->]. split; [reflexivity |].
      intro j. split; [discriminate |]. intros [Hne _].
      apply Z.eqb_eq in Hs. contradiction. }
    apply Z.eqb_neq in Hs.
    destruct (ok resp) eqn:Hok; cbn [negb] in E2.
    2: { apply throw_inv in E2. destruct E2 as [-> ->]. split; [reflexivity |].
         intro j. split; [discriminate |]. intros (_ & F & _). discriminate F. }
    destruct (body resp =? "")%string eqn:Hb.
    { apply throw_inv in E2. destruct E2 as [-> ->]. split; [reflexivity |].
      intro j. split; [discriminate |]. intros (_ & _ & Hb' & _).
      apply String.eqb_eq in Hb. contradiction. }
    apply String.eqb_neq in Hb.
    apply bind_inv in E2.
    destruct E2 as [[e [E _]] | (parsed & t3 & t4 & E3 & E4 & ->)].
    { apply asks_inv in E. destruct E as [F _]. discriminate F. }
    apply asks_inv in E3. destruct E3 as [Hp ->]. inversion Hp as [Hp'].
    subst parsed. clear Hp.
    destruct (JSON_parse rt (body resp)) as [j0 |].
    - apply ret_inv in E4. destruct E4 as [-> ->]. split; [reflexivity |].
      intro j. split.
      + intro H. inversion H; subst. auto.
      + intros (_ & _ & _ & H). inversion H. reflexivity.
    - apply throw_inv in E4. destruct E4 as [-> ->]. split; [reflexivity |].
      intro j. split; [discriminate |]. intros (_ & _ & _ & H). discriminate H. }
  split; [reflexivity |].
  intro j. rewrite Hr. split.
  - intros (H1 & H2 & H3 & H4). exists resp. split; [reflexivity |]. auto.
  - intros (resp' & Htr & H1 & H2 & H3 & H4).
    inversion Htr; subst resp'. auto.
Qed.

(** *** Builders without a bonding curve *)

(** When the bonding-curve account of the mint does not exist, the buy
    builder, [buy] itself and the sell builder all throw right after that one
    lookup, with a message that names the mint: the global account is not
    fetched, no holding account is looked up and nothing is submitted. *)
Theorem no_curve_no_trade getSellPrice b rt h :
  answer rt (option Buffer) h
         (GetAccountInfo (BondingCurvePDA (BuyParams.mint b))
            (match BuyParams.commitment b with
             | Some c => c
             | None => DEFAULT_COMMITMENT
             end)) = Ok None ->
  let lookup :=
    Ev (GetAccountInfo (BondingCurvePDA (BuyParams.mint b))
          (match BuyParams.commitment b with
           | Some c => c
           | None => DEFAULT_COMMITMENT
           end)) (Ok None) in
  let not_found :=
    VError ("Bonding curve account not found: "
              ++ PublicKey_toBase58 rt (BuyParams.mint b)) in
  buy b rt h = (Throw not_found, [lookup]) /\
  getBuyInstructionsBySolAmount (publicKey (BuyParams.buyer b))
      (BuyParams.mint b) (BuyParams.buyAmountSol b)
      (BuyParams.slippageBasisPoints b) (BuyParams.commitment b) rt h
    = (Throw not_found, [lookup]) /\
  getSellInstructionsByTokenAmount getSellPrice
      (publicKey (BuyParams.buyer b)) (BuyParams.mint b)
      (BuyParams.buyAmountSol b)
      (BuyParams.slippageBasisPoints b) (BuyParams.commitment b) rt h
    = (Throw not_found, [lookup]).
Proof.
  intro H. cbv zeta.
  unfold buy, getSellInstructionsByTokenAmount, getBuyInstructionsBySolAmount,
    getBondingCurveAccount, bind, call, asks, throw.
  cbv zeta. rewrite H. repeat split.
Qed.

Lemma no_curve_no_trade_witness :
  let lookup :=
    Ev (GetAccountInfo (BondingCurvePDA (Base58 "mint")) DEFAULT_COMMITMENT)
       (Ok None) in
  buy example_buy no_account []
    = (Throw (VError "Bonding curve account not found: mint"), [lookup]) /\
  getBuyInstructionsBySolAmount (Base58 "buyer") (Base58 "mint") 1000000
      None None no_account []
    = (Throw (VError "Bonding curve account not found: mint"), [lookup]) /\
  getSellInstructionsByTokenAmount example_sell_price
      (Base58 "buyer") (Base58 "mint") 1000000 None None no_account []
    = (Throw (VError "Bonding curve account not found: mint"), [lookup]).
Proof.
  apply (no_curve_no_trade example_sell_price example_buy no_account []).
  reflexivity.
Defined.

(** *** The sell builder *)




(** *** One transaction through [sendTx] *)

Lemma sent_bundles_app (t1 t2 : list Event) :
  sent_bundles (t1 ++ t2) = sent_bundles t1 ++ sent_bundles t2.
Proof.
  induction t1 as [| [R c r] t1 IH]; simpl.
  - reflexivity.
  - destruct c; simpl; now rewrite IH.
Qed.

Lemma quiet_sends_nothing (t : list Event) :
  forallb no_submission t = true ->
  sent_transactions t = [] /\ sent_bundles t = [].
Proof.
  induction t as [| [R c r] t IH]; simpl; intro H.
  - split; reflexivity.
  - apply andb_prop in H. destruct H as [He Ht].
    destruct c; simpl in *; try discriminate He; now apply IH.
Qed.

Lemma quiet_run_sends_nothing {A} (m : M A) rt h r t :
  emits no_submission m -> m rt h = (r, t) ->
  sent_transactions t = [] /\ sent_bundles t = [].
Proof.
  intros Hq E. apply quiet_sends_nothing. exact (emits_run _ _ _ _ _ _ Hq E).
Qed.

Lemma getTxDetails_run sig commitment finality rt h r t :
  getTxDetails sig commitment finality rt h = (r, t) ->
  if bs58_decodes rt sig
  then forall x, r = Ok x ->
                 exists t', t' ++ [Ev (GetTransaction sig finality) (Ok x)] = t
  else r = Ok None /\ t = [].
Proof.
  unfold getTxDetails. intro H.
  apply bind_inv in H.
  destruct H as [[e [E _]] | (d & t1 & t2 & E1 & H & ->)].
  { apply asks_inv in E. destruct E as [F _]. discriminate F. }
  apply asks_inv in E1. destruct E1 as [Hd ->]. inversion Hd; subst d.
  destruct (bs58_decodes rt sig); cbn [negb] in H.
  - intros x ->.
    apply bind_ok_inv in H. destruct H as (b & t3 & t4 & Hb & H & ->).
    apply bind_ok_inv in H. destruct H as (u & t5 & t6 & Hu & H & ->).
    apply call_inv in H. destruct H as [_ ->].
    exists (t3 ++ t5). simpl. now rewrite <- app_assoc.
  - apply ret_inv in H. destruct H as [-> ->]. split; reflexivity.
Qed.

(** The direct branch always hands the signed transaction to the node, once;
    a returned result is the success carrying the node's signature or the
    "Transaction failed" failure. *)
Lemma sendTx_try_direct_run v ep commitment finality rt h r t :
  sendTx_try false v ep commitment finality rt h = (r, t) ->
  sent_transactions t = [v] /\ sent_bundles t = [] /\
  (forall res, r = Ok res ->
     exists sig t',
       t = Ev (SendTransaction v false commitment) (Ok sig) :: t' /\
       node_answers t' = [] /\
       ((bs58_decodes rt sig = true /\ success res = true /\
         signature res = Some (JStr sig) /\ error res = None /\
         results res <> None)
        \/ (res = not_found_failure /\
            (bs58_decodes rt sig = false -> t' = [])))) /\
  (forall e, r = Throw e ->
     t = [Ev (SendTransaction v false commitment) (Throw e)] \/
     exists sig t',
       t = Ev (SendTransaction v false commitment) (Ok sig) :: t' /\
       bs58_decodes rt sig = true).
Proof.
  unfold sendTx_try. intro H.
  apply bind_inv in H.
  destruct H as [[e [E ->]] | (sig & t1 & t2 & E1 & H & ->)].
  { apply call_inv in E. destruct E as [Ha ->].
    repeat split.
    - intros res F. discriminate F.
    - intros e0 F. inversion F; subst e0. now left. }
  apply call_inv in E1. destruct E1 as [_ ->].
  apply bind_inv in H.
  destruct H as [[e [E ->]] | (details & t3 & t4 & E3 & H & ->)].
  { destruct (quiet_run_sends_nothing _ _ _ _ _ (getTxDetails_quiet _ _ _) E)
      as [Hs Hb].
    pose proof (getTxDetails_run _ _ _ _ _ _ _ E) as Hd.
    cbn [app sent_transactions sent_bundles]. rewrite Hs, Hb.
    repeat split.
    - intros res F. discriminate F.
    - intros e0 F. right. exists sig, t2. split; [reflexivity |].
      destruct (bs58_decodes rt sig); [reflexivity |].
      destruct Hd as [F' _]. discriminate F'. }
  destruct (quiet_run_sends_nothing _ _ _ _ _ (getTxDetails_quiet _ _ _) E3)
    as [Hs Hb].
  assert (node_answers t3 = []) as Hn.
  { pose proof (emits_run _ _ _ _ _ _ (getTxDetails_quiet _ _ _) E3) as Hq.
    clear - Hq. induction t3 as [| [R c r] t3 IH]; [reflexivity |].
    simpl in Hq. apply andb_prop in Hq. destruct Hq as [He Ht].
    destruct c; simpl in *; try discriminate He; now apply IH. }
  pose proof (getTxDetails_run _ _ _ _ _ _ _ E3) as Hd.
  destruct details as [x |]; apply ret_inv in H; destruct H as [-> ->];
    rewrite app_nil_r; cbn [app sent_transactions sent_bundles];
    rewrite Hs, Hb; (split; [reflexivity |]); (split; [reflexivity |]);
    (split; [| intros e0 F; discriminate F]);
    intros res F; inversion F; subst res; exists sig, t3;
    (split; [reflexivity |]); (split; [exact Hn |]).
  - left. destruct (bs58_decodes rt sig).
    + repeat split. discriminate.
    + destruct Hd as [F' _]. discriminate F'.
  - right. split; [reflexivity |]. intro Hf. rewrite Hf in Hd. apply Hd.
Qed.

Lemma prefix_app (p s : string) : String.prefix p (p ++ s) = true.
Proof.
  induction p as [| a p IH]; simpl.
  - destruct s; reflexivity.
  - destruct (Ascii.ascii_dec a a) as [_ | F]; [exact IH | contradiction].
Qed.

Lemma known_prefix (p s : string) :
  In p failure_prefixes ->
  existsb (fun q => String.prefix q (p ++ s)) failure_prefixes = true.
Proof.
  intro Hin. apply existsb_exists. exists p. split; [exact Hin |].
  apply prefix_app.
Qed.

Ltac known_prefix :=
  first
    [ apply (known_prefix "Transaction failed: Compute budget exceeded"
               ". Try increasing compute unit limit.")
    | apply (known_prefix "Anchor Error: ")
    | apply (known_prefix "Program Error: ")
    | apply (known_prefix "Transaction Error: ")
    | apply (known_prefix "Unknown Error: ") ];
  simpl; tauto.

(** The [catch] block: every error becomes a failure result whose message
    starts with one of five known prefixes; only errors of the node's
    [SendTransactionError] kind cause a call (for the logs). *)
Lemma sendTx_catch_run e rt h r t :
  sendTx_catch e rt h = (r, t) ->
  forallb no_submission t = true /\
  (forall res, r = Ok res ->
     success res = false /\ signature res = None /\ results res = None /\
     exists message logs,
       error res = Some (TransactionError message logs) /\
       existsb (fun p => String.prefix p message) failure_prefixes = true) /\
  (forall thrown, r = Throw thrown ->
     exists m, e = VSendTransactionError m /\
               t = [Ev (SendTransactionError_getLogs m) (Throw thrown)]) /\
  (match e with VSendTransactionError _ => False | _ => True end ->
   t = [] /\ exists res, r = Ok res).
Proof.
  intro H. split; [exact (emits_run _ _ _ _ _ _ (sendTx_catch_quiet e) H) |].
  unfold sendTx_catch in H.
  apply bind_inv in H.
  destruct H as [[thrown [E ->]] | ([message logs] & t1 & t2 & E1 & H & ->)].
  - (* building the message threw *)
    destruct e; try (apply ret_inv in E; destruct E as [F _]; discriminate F).
    apply bind_inv in E.
    destruct E as [[e0 [E F]] | (l & t3 & t4 & E3 & E & ->)].
    + apply call_inv in E. destruct E as [Ha ->]. inversion F; subst e0.
      split; [intros res G; discriminate G |]. split.
      * intros thrown' G. inversion G; subst thrown'. rewrite Ha. eauto.
      * intros [].
    + exfalso.
      destruct (match l with
                | Some l0 => existsb (includes "exceeded CUs meter") l0
                | None => false
                end).
      { apply ret_inv in E. destruct E as [F _]. discriminate F. }
      destruct (includes "custom program error:" message).
      * apply bind_inv in E.
        destruct E as [[e0 [E _]] | (parsed & t5 & t6 & E5 & E & _)].
        { apply asks_inv in E. destruct E as [F _]. discriminate F. }
        destruct parsed as [[m |] | e1];
          apply ret_inv in E; destruct E as [F _]; discriminate F.
      * apply ret_inv in E. destruct E as [F _]. discriminate F.
  - apply ret_inv in H. destruct H as [-> ->]. rewrite app_nil_r.
    assert (existsb (fun p => String.prefix p message) failure_prefixes = true
            /\ (match e with VSendTransactionError _ => False | _ => True end
                -> t1 = [])) as [Hp Hn].
    { destruct e;
        try (apply ret_inv in E1; destruct E1 as [F ->];
             inversion F; subst; split; [known_prefix | intros _; reflexivity]).
      apply bind_ok_inv in E1. destruct E1 as (l & t3 & t4 & E3 & E & ->).
      split; [| intros []].
      destruct (match l with
                | Some l0 => existsb (includes "exceeded CUs meter") l0
                | None => false
                end).
      { apply ret_inv in E. destruct E as [F _]. inversion F. known_prefix. }
      destruct (includes "custom program error:" message0).
      * apply bind_ok_inv in E. destruct E as (parsed & t5 & t6 & E5 & E & _).
        destruct parsed as [[m |] | e1];
          apply ret_inv in E; destruct E as [F _]; inversion F; known_prefix.
      * apply ret_inv in E. destruct E as [F _]. inversion F. known_prefix. }
    split; [| split].
    + intros res F. inversion F; subst res. cbn.
      repeat split. eauto.
    + intros thrown F. discriminate F.
    + intro Hk. split; [now apply Hn | eauto].
Qed.

(** What [sign] returns in [sendTx] is the signed transaction. *)
Lemma sign_built payer b body signers rt h r t :
  sign {| payerKey := payer; recentBlockhash := b; instructions := body;
          signatures := [] |} signers rt h = (r, t) ->
  t = [] /\
  (r = Ok (signed_transaction payer b body signers) \/ exists e, r = Throw e).
Proof.
  intro H. apply sign_inv in H. destruct H as [-> [[-> _] | (k & _ & _ & ->)]].
  - split; [reflexivity |]. now left.
  - split; [reflexivity |]. right. eauto.
Qed.

Lemma fee_instructions_built fees rt h r t :
  compute_budget fees rt h = (r, t) ->
  t = [] /\ (r = Ok (fee_instructions fees) \/ exists e, r = Throw e).
Proof.
  intro H. apply compute_budget_inv in H.
  destruct H as [-> [-> | (f & _ & _ & ->)]].
  - split; [reflexivity |]. now left.
  - split; [reflexivity |]. right. eauto.
Qed.

(** The structure of a direct [sendTx]. Before the [try] block it makes one
    call at most, for the block reference, and it throws when the
    compute-budget instructions cannot be built, when that call throws, or
    when signing throws. Else the signed transaction goes through the [try]
    block and its [catch]. *)
Lemma sendTx_direct_run tx payer signers fees commitment finality tip ep
      rt h r t :
  sendTx tx payer signers fees commitment finality None tip ep rt h = (r, t) ->
  let cm := match commitment with Some c => c | None => DEFAULT_COMMITMENT end in
  let fin := match finality with Some f => f | None => DEFAULT_FINALITY end in
  (exists e,
      r = Throw e /\
      (t = [] \/
       t = [Ev (GetLatestBlockhash (Some cm)) (Throw e)] \/
       exists b, t = [Ev (GetLatestBlockhash (Some cm)) (Ok b)]))
  \/
  (exists b t1,
      t = Ev (GetLatestBlockhash (Some cm)) (Ok b) :: t1 /\
      try_catch
        (sendTx_try false
           (signed_transaction payer (blockhash b)
              (fee_instructions fees ++ tx) signers) ep cm fin)
        sendTx_catch rt (h ++ [Ev (GetLatestBlockhash (Some cm)) (Ok b)])
      = (r, t1)).
Proof.
  unfold sendTx. cbv zeta. intro H.
  apply bind_inv in H.
  destruct H as [[e [E ->]] | (newTx0 & t0 & t0' & E0 & H & ->)].
  { apply fee_instructions_built in E. destruct E as [-> _].
    left. exists e. split; [reflexivity |]. now left. }
  apply fee_instructions_built in E0.
  destruct E0 as [-> [F | [e F]]]; [| discriminate F].
  inversion F; subst newTx0. rewrite app_nil_r in H. cbn [app].
  apply bind_inv in H.
  destruct H as [[e [E _]] | (newTx1 & t1 & t2 & E1 & H & ->)].
  { apply ret_inv in E. destruct E as [F' _]. discriminate F'. }
  apply ret_inv in E1. destruct E1 as [F' ->]. inversion F'; subst newTx1.
  rewrite app_nil_r in H. cbn [app].
  apply bind_inv in H.
  destruct H as [[e [E ->]] | (v & t3 & t4 & E3 & H & ->)].
  - left. unfold buildVersionedTx in E.
    apply bind_inv in E.
    destruct E as [[e0 [E F'']] | (b & t5 & t6 & _ & E & _)].
    + apply call_inv in E. destruct E as [_ ->]. inversion F''; subst e0.
      exists e. split; [reflexivity |]. right. now left.
    + apply ret_inv in E. destruct E as [F'' _]. discriminate F''.
  - unfold buildVersionedTx in E3.
    apply bind_ok_inv in E3. destruct E3 as (b & t5 & t6 & Eb & E & ->).
    apply call_inv in Eb. destruct Eb as [_ ->].
    apply ret_inv in E. destruct E as [F'' ->]. inversion F''; subst v.
    cbn [app] in H |- *.
    apply bind_inv in H.
    destruct H as [[e [E ->]] | (signed & t7 & t8 & E7 & H & ->)].
    + apply sign_built in E. destruct E as [-> _].
      left. exists e. split; [reflexivity |]. right. right. eauto.
    + apply sign_built in E7.
      destruct E7 as [-> [F3 | [e F3]]]; [| discriminate F3].
      inversion F3; subst signed. rewrite app_nil_r in H.
      right. exists b, t8. split; [reflexivity |]. exact H.
Qed.

(** What a direct [sendTx] hands over, however it ends. *)
Lemma sendTx_direct_sent
        tx payer signers fees commitment finality tip ep rt h r t :
  sendTx tx payer signers fees commitment finality None tip ep rt h = (r, t) ->
  sent_bundles t = [] /\
  ((exists e, r = Throw e /\ sent_transactions t = []) \/
   (exists b,
       sent_transactions t
       = [signed_transaction payer b (fee_instructions fees ++ tx) signers])).
Proof.
  intro H. apply sendTx_direct_run in H. cbv zeta in H.
  destruct H as [[e [-> [-> | [-> | [b ->]]]]] | (b & t1 & -> & H)].
  - split; [reflexivity |]. left. eauto.
  - split; [reflexivity |]. left. eauto.
  - split; [reflexivity |]. left. eauto.
  - apply try_catch_inv in H.
    destruct H as [[a [E ->]] | (e & t2 & t3 & E & H & ->)].
    + apply sendTx_try_direct_run in E. destruct E as [Hs [Hb _]].
      cbn [sent_bundles sent_transactions]. rewrite Hs, Hb.
      split; [reflexivity |]. right. eauto.
    + apply sendTx_try_direct_run in E. destruct E as [Hs [Hb _]].
      apply sendTx_catch_run in H. destruct H as [Hq _].
      apply quiet_sends_nothing in Hq. destruct Hq as [Hs3 Hb3].
      cbn [sent_bundles sent_transactions].
      rewrite sent_transactions_app, sent_bundles_app, Hs, Hb, Hs3, Hb3.
      split; [reflexivity |]. right. exists (blockhash b). reflexivity.
Qed.

(** A direct [sendTx] hands the node at most one transaction and the relay
    none. The transaction it hands over is paid by [payer], starts with the
    two compute-budget instructions when priority fees are given, continues
    with the caller's instructions unchanged, and is signed by exactly the
    given signers. Nothing is handed over only if fetching the block
    reference threw, and then [sendTx] throws. *)
Theorem sendTx_direct_submission
        tx payer signers fees commitment finality tip ep rt h r t :
  sendTx tx payer signers fees commitment finality None tip ep rt h = (r, t) ->
  sent_bundles t = [] /\
  ((exists e, r = Throw e /\ sent_transactions t = []) \/
   (exists b,
       sent_transactions t
       = [signed_transaction payer b (fee_instructions fees ++ tx) signers])).
Proof.
  intro H. exact (sendTx_direct_sent _ _ _ _ _ _ _ _ _ _ _ _ H).
Qed.

Lemma node_answers_app (t1 t2 : list Event) :
  node_answers (t1 ++ t2) = node_answers t1 ++ node_answers t2.
Proof.
  induction t1 as [| [R c r] t1 IH]; simpl.
  - reflexivity.
  - destruct c; simpl; now rewrite IH.
Qed.

(** A direct [sendTx] that has entered its [try] block converts every
    failure of submission and confirmation into a result. When it throws,
    either it threw before the [try] block, having submitted nothing and
    made one call at most (for the block reference), or the [try] block
    threw a [SendTransactionError] after the one submission and fetching
    its logs threw: the last call is then that fetch, and the error is the
    one it threw. *)
Theorem sendTx_direct_throws_only
        tx payer signers fees commitment finality tip ep rt h e t :
  sendTx tx payer signers fees commitment finality None tip ep rt h
  = (Throw e, t) ->
  (sent_transactions t = [] /\ (List.length t <= 1)%nat) \/
  (List.length (sent_transactions t) = 1%nat /\
   exists m t', t = t' ++ [Ev (SendTransactionError_getLogs m) (Throw e)]).
Proof.
  intro H. apply sendTx_direct_run in H. cbv zeta in H.
  destruct H as [[e0 [_ [-> | [-> | [b ->]]]]] | (b & t1 & -> & H)];
    try (left; split; [reflexivity | cbn [List.length]; lia]).
  right. apply try_catch_inv in H.
  destruct H as [[a [_ F]] | (e1 & t2 & t3 & E & H & ->)];
    [discriminate F |].
  apply sendTx_try_direct_run in E. destruct E as [Hs _].
  pose proof (sendTx_catch_run _ _ _ _ _ H) as (Hq & _ & Hthrow & _).
  destruct (quiet_sends_nothing _ Hq) as [Hs3 _].
  destruct (Hthrow e eq_refl) as [m [-> Ht3]].
  split.
  - cbn [sent_transactions]. rewrite sent_transactions_app, Hs, Hs3.
    reflexivity.
  - rewrite Ht3.
    exists m, (Ev (GetLatestBlockhash
                     (Some match commitment with
                           | Some c => c
                           | None => DEFAULT_COMMITMENT
                           end)) (Ok b) :: t2).
    reflexivity.
Qed.

(** When the node returns a signature that is not base58, a direct [sendTx]
    reports the failure "Transaction failed" at once: it neither waits for a
    confirmation nor fetches the transaction. *)
Theorem invalid_signature_not_confirmed
        tx payer signers fees commitment finality tip ep rt h r t sig :
  sendTx tx payer signers fees commitment finality None tip ep rt h = (r, t) ->
  node_answers t = [Ok sig] ->
  bs58_decodes rt sig = false ->
  r = Ok not_found_failure /\
  count is_confirmation t = 0%nat /\
  List.length t = 2%nat.
Proof.
  intros H Hn Hf. apply sendTx_direct_run in H. cbv zeta in H.
  destruct H as [[e0 [_ [-> | [-> | [b ->]]]]] | (b & t1 & -> & H)];
    try discriminate Hn.
  cbn [node_answers] in Hn.
  apply try_catch_inv in H.
  destruct H as [[a [E ->]] | (e1 & t2 & t3 & E & H & ->)].
  - apply sendTx_try_direct_run in E. destruct E as (_ & _ & Hok & _).
    destruct (Hok a eq_refl) as (sig' & t' & -> & Hn' & Hcase).
    cbn [node_answers] in Hn. rewrite Hn' in Hn. inversion Hn; subst sig'.
    destruct Hcase as [[Ht _] | [-> Hempty]]; [congruence |].
    rewrite (Hempty Hf). repeat split.
  - exfalso.
    apply sendTx_try_direct_run in E. destruct E as (_ & _ & _ & Ht).
    rewrite node_answers_app in Hn.
    destruct (Ht _ eq_refl) as [-> | (sig' & t' & -> & Hd)].
    + discriminate Hn.
    + cbn [node_answers] in Hn. inversion Hn; subst sig'. congruence.
Qed.

Lemma sendTx_direct_submission_witness :
  sent_bundles
    (snd (sendTx [] (Base58 "payer") [Scenario.keypair "payer"]
            (Some {| unitPrice := 7; unitLimit := 9 |})
            None None None None None Scenario.all_good [])) = [] /\
  ((exists e,
       fst (sendTx [] (Base58 "payer") [Scenario.keypair "payer"]
              (Some {| unitPrice := 7; unitLimit := 9 |})
              None None None None None Scenario.all_good []) = Throw e /\
       sent_transactions
         (snd (sendTx [] (Base58 "payer") [Scenario.keypair "payer"]
                 (Some {| unitPrice := 7; unitLimit := 9 |})
                 None None None None None Scenario.all_good [])) = []) \/
   (exists b,
       sent_transactions
         (snd (sendTx [] (Base58 "payer") [Scenario.keypair "payer"]
                 (Some {| unitPrice := 7; unitLimit := 9 |})
                 None None None None None Scenario.all_good []))
       = [signed_transaction (Base58 "payer") b
            (fee_instructions (Some {| unitPrice := 7; unitLimit := 9 |}) ++ [])
            [Scenario.keypair "payer"]])).
Proof.
  apply (sendTx_direct_submission [] (Base58 "payer")
           [Scenario.keypair "payer"]
           (Some {| unitPrice := 7; unitLimit := 9 |})
           None None None None Scenario.all_good []).
  apply surjective_pairing.
Defined.

Lemma sendTx_direct_throws_only_witness :
  (sent_transactions
     [Ev (GetLatestBlockhash (Some DEFAULT_COMMITMENT))
         (Throw (VError "fetch failed"))] = [] /\
   (List.length
      [Ev (GetLatestBlockhash (Some DEFAULT_COMMITMENT))
          (Throw (VError "fetch failed"))] <= 1)%nat) \/
  (List.length
     (sent_transactions
        [Ev (GetLatestBlockhash (Some DEFAULT_COMMITMENT))
            (Throw (VError "fetch failed"))]) = 1%nat /\
   exists m t',
     [Ev (GetLatestBlockhash (Some DEFAULT_COMMITMENT))
         (Throw (VError "fetch failed"))]
     = t' ++ [Ev (SendTransactionError_getLogs m)
                 (Throw (VError "fetch failed"))]).
Proof.
  apply (sendTx_direct_throws_only [] (Base58 "payer")
           [Scenario.keypair "payer"] None None None None None
           no_blockhash []).
  reflexivity.
Defined.

Lemma invalid_signature_not_confirmed_witness :
  fst (sendTx [] (Base58 "payer") [Scenario.keypair "payer"] None None None
         None None None bad_signature [])
  = Ok not_found_failure /\
  count is_confirmation
    (snd (sendTx [] (Base58 "payer") [Scenario.keypair "payer"] None None
            None None None None bad_signature [])) = 0%nat /\
  List.length
    (snd (sendTx [] (Base58 "payer") [Scenario.keypair "payer"] None None
            None None None None bad_signature [])) = 2%nat.
Proof.
  apply (invalid_signature_not_confirmed [] (Base58 "payer")
           [Scenario.keypair "payer"] None None None None None
           bad_signature []
           _ _ "5VERv8NMvzbJMEkV8xnrLkEaWRtSz9CosKDYjCJjBRnb").
  - apply surjective_pairing.
  - vm_compute. reflexivity.
  - reflexivity.
Defined.

(** *** The relay *)

(** [sendBundle] posts the transactions it is given, once, and submits
    nothing directly; a non-empty endpoint is used as given, without a random
    draw. *)
Lemma sendBundle_run txs ep rt h r t :
  sendBundle txs ep rt h = (r, t) ->
  sent_transactions t = [] /\
  ((sent_bundles t = [] /\ bundle_responses t = [] /\ exists e, r = Throw e)
   \/
   (exists endpoint,
       sent_bundles t = [(endpoint, txs)] /\ bundle_responses t = [r] /\
       (forall e0, ep = Some e0 -> e0 <> ""%string ->
                   endpoint = e0 /\ count is_random_draw t = 0%nat))).
Proof.
  unfold sendBundle. intro H.
  apply bind_inv in H.
  destruct H as [[e [E ->]] | (endpoint & t1 & t2 & E1 & H & ->)].
  - destruct (quiet_run_sends_nothing _ _ _ _ _ (endpoint_quiet ep) E)
      as [Hs Hb].
    destruct (quiet_run _ _ _ _ _ (endpoint_quiet ep) E) as [Hn _].
    split; [exact Hs |]. left. eauto.
  - destruct (quiet_run_sends_nothing _ _ _ _ _ (endpoint_quiet ep) E1)
      as [Hs Hb].
    destruct (quiet_run _ _ _ _ _ (endpoint_quiet ep) E1) as [Hn _].
    apply call_inv in H. destruct H as [_ ->].
    rewrite sent_transactions_app, sent_bundles_app, bundle_responses_app.
    rewrite Hs, Hb, Hn. split; [reflexivity |]. right.
    exists endpoint. split; [reflexivity |]. split; [reflexivity |].
    intros e0 -> Hne. unfold string_or in E1.
    apply String.eqb_neq in Hne. rewrite Hne in E1.
    apply ret_inv in E1. destruct E1 as [F ->]. inversion F. split; reflexivity.
Qed.

Lemma sendAsBundle_run p c txs sgs rt h out t a :
  sendAsBundle p c txs sgs rt h = (out, t) ->
  In a (bundle_responses t) ->
  sent_transactions t = [] /\ bundle_responses t = [a] /\
  match a with
  | Throw e => out = Throw e
  | Ok response =>
      exists h' t', createAndBuy_after_relay response rt h' = (out, t')
  end.
Proof.
  unfold sendAsBundle. intros H Hin.
  apply bind_inv in H.
  destruct H as [[e0 [E ->]] | (ser & t1 & t2 & E1 & H & ->)].
  { destruct (quiet_run _ _ _ _ _ (signAll_quiet _ _ _ _ _ _) E) as [Hn _].
    rewrite Hn in Hin. contradiction. }
  destruct (quiet_run _ _ _ _ _ (signAll_quiet _ _ _ _ _ _) E1) as [Hn1 _].
  destruct (quiet_run_sends_nothing _ _ _ _ _ (signAll_quiet _ _ _ _ _ _) E1)
    as [Hs1 _].
  rewrite bundle_responses_app, Hn1 in *. cbn [app] in *.
  rewrite sent_transactions_app, Hs1. cbn [app].
  apply bind_inv in H.
  destruct H as [[e0 [E ->]] | (endpoint & t3 & t4 & E3 & H & ->)].
  { destruct (quiet_run _ _ _ _ _ (endpoint_quiet _) E) as [Hn _].
    rewrite Hn in Hin. contradiction. }
  destruct (quiet_run _ _ _ _ _ (endpoint_quiet _) E3) as [Hn3 _].
  destruct (quiet_run_sends_nothing _ _ _ _ _ (endpoint_quiet _) E3)
    as [Hs3 _].
  rewrite bundle_responses_app, Hn3 in *. cbn [app] in *.
  rewrite sent_transactions_app, Hs3. cbn [app].
  apply bind_inv in H.
  destruct H as [[e0 [E ->]] | (response & t5 & t6 & E5 & H & ->)].
  { apply sendBundle_run in E.
    destruct E as [Hs [(_ & Hn & _) | (ep' & _ & Hn & _)]];
      rewrite Hn in *; [contradiction |].
    destruct Hin as [<- | []]. repeat split; assumption. }
  assert (forallb no_submission t6 = true) as Hq6.
  { eapply emits_run; [| exact H]. quiet. }
  destruct (quiet_facts _ Hq6) as [Hn6 _].
  destruct (quiet_sends_nothing _ Hq6) as [Hs6 _].
  rewrite bundle_responses_app, sent_transactions_app, Hn6, Hs6, !app_nil_r in *.
  apply sendBundle_run in E5.
  destruct E5 as [Hs [(_ & _ & e0 & F) | (ep' & _ & Hn & _)]];
    [discriminate F |].
  rewrite Hn in *. destruct Hin as [<- | []].
  repeat split; [assumption |]. eauto.
Qed.

Lemma createAndBuy_relay_run p c rt h out t a :
  enabled (CreateAndBuyParams.jitoConfig p) = Some c ->
  createAndBuy p rt h = (out, t) ->
  In a (bundle_responses t) ->
  sent_transactions t = [] /\ bundle_responses t = [a] /\
  match a with
  | Throw e => out = Throw e
  | Ok response =>
      exists h' t', createAndBuy_after_relay response rt h' = (out, t')
  end.
Proof.
  unfold createAndBuy. intros Hen H Hin.
  apply bind_inv in H.
  destruct H as [[e0 [E ->]] | ([txs sgs] & t1 & t2 & E1 & H & ->)].
  { destruct (quiet_run _ _ _ _ _ (plan_quiet p) E) as [Hn _].
    rewrite Hn in Hin. contradiction. }
  destruct (quiet_run _ _ _ _ _ (plan_quiet p) E1) as [Hn1 _].
  destruct (quiet_run_sends_nothing _ _ _ _ _ (plan_quiet p) E1) as [Hs1 _].
  rewrite bundle_responses_app, Hn1 in *. cbn [app] in *.
  rewrite sent_transactions_app, Hs1. cbn [app].
  unfold submit in H. rewrite Hen in H.
  exact (sendAsBundle_run _ _ _ _ _ _ _ _ _ H Hin).
Qed.

(** On a relay answer that is not [null] and whose [error] is missing or
    falsy, [createAndBuy] reports success and passes [response.result] on as
    signature, even when the answer carries no result at all; nothing is
    submitted directly. *)
Theorem relay_answer_without_error_is_success p c rt h out t response :
  enabled (CreateAndBuyParams.jitoConfig p) = Some c ->
  createAndBuy p rt h = (out, t) ->
  In (Ok response) (bundle_responses t) ->
  response <> JNull ->
  truthy_opt (error_of response) = false ->
  out = Ok (Some (bundle_success response)) /\
  sent_transactions t = [].
Proof.
  intros Hen H Hin Hnull Herr.
  destruct (createAndBuy_relay_run _ _ _ _ _ _ _ Hen H Hin)
    as (Hs & _ & h' & t' & Hafter).
  split; [| exact Hs].
  unfold createAndBuy_after_relay, field, property, bind, lift, ret in Hafter.
  destruct response; try contradiction; simpl in Herr, Hafter;
    try rewrite Herr in Hafter; simpl in Hafter; now inversion Hafter.
Qed.

Lemma relay_answer_without_error_is_success_witness :
  fst (createAndBuy Scenario.relayed relay_empty [])
  = Ok (Some (bundle_success (JObj []))) /\
  sent_transactions (snd (createAndBuy Scenario.relayed relay_empty [])) = [].
Proof.
  apply (relay_answer_without_error_is_success
           Scenario.relayed
           {| jitoEnabled := true; endpoint := None; tipLampports := None |}
           relay_empty []).
  - reflexivity.
  - apply surjective_pairing.
  - vm_compute. left. reflexivity.
  - discriminate.
  - reflexivity.
Defined.

(** When the relay call throws, or the relay answers [null], [createAndBuy]
    throws: the caller gets an exception, not a result with
    [success = false]. On [null] the exception is the TypeError of reading
    [error] of [null]. *)
Theorem relay_failure_escapes_createAndBuy p c rt h out t a :
  enabled (CreateAndBuyParams.jitoConfig p) = Some c ->
  createAndBuy p rt h = (out, t) ->
  In a (bundle_responses t) ->
  match a with
  | Throw e => out = Throw e
  | Ok JNull =>
      out = Throw (VTypeError
                     "Cannot read properties of null (reading 'error')")
  | Ok _ => exists r, out = Ok (Some r)
  end.
Proof.
  intros Hen H Hin.
  destruct (createAndBuy_relay_run _ _ _ _ _ _ _ Hen H Hin) as (_ & _ & Ha).
  destruct a as [response | e]; [| exact Ha].
  destruct Ha as (h' & t' & Hafter).
  unfold createAndBuy_after_relay, field, property, bind, lift, ret, asks
    in Hafter.
  destruct response as [| b | z | s0 | items | fields]; simpl in Hafter.
  - inversion Hafter. reflexivity.
  - inversion Hafter. eauto.
  - inversion Hafter. eauto.
  - inversion Hafter. eauto.
  - inversion Hafter. eauto.
  - destruct (truthy_opt (assoc "error" fields)); simpl in Hafter;
      inversion Hafter; eauto.
Qed.

Lemma relay_failure_escapes_createAndBuy_witness :
  fst (createAndBuy Scenario.relayed relay_null [])
  = Throw (VTypeError "Cannot read properties of null (reading 'error')").
Proof.
  apply (relay_failure_escapes_createAndBuy
           Scenario.relayed
           {| jitoEnabled := true; endpoint := None; tipLampports := None |}
           relay_null []
           (fst (createAndBuy Scenario.relayed relay_null []))
           (snd (createAndBuy Scenario.relayed relay_null []))
           (Ok JNull)).
  - reflexivity.
  - apply surjective_pairing.
  - vm_compute. left. reflexivity.
Defined.

Lemma sendTx_try_relay_run v ep commitment finality rt h r t :
  sendTx_try true v ep commitment finality rt h = (r, t) ->
  sent_transactions t = [] /\
  (sent_bundles t = [] \/
   exists endpoint,
     sent_bundles t = [(endpoint, [v])] /\
     (forall e0, ep = Some e0 -> e0 <> ""%string -> endpoint = e0)) /\
  (bundle_responses t = [] \/ exists a, bundle_responses t = [a]) /\
  (forall a, In a (bundle_responses t) ->
     match a with
     | Throw e => r = Throw e
     | Ok response =>
         exists h' t', sendTx_after_relay response rt h' = (r, t')
     end) /\
  (forall res, r = Ok res -> success res = true /\ error res = None).
Proof.
  unfold sendTx_try. intro H.
  apply bind_inv in H.
  destruct H as [[e0 [E ->]] | (endpoint & t3 & t4 & E3 & H & ->)].
  { destruct (quiet_run _ _ _ _ _ (endpoint_quiet _) E) as [Hn _].
    destruct (quiet_run_sends_nothing _ _ _ _ _ (endpoint_quiet _) E)
      as [Hs Hb].
    rewrite Hn. repeat split; auto.
    - intros a [].
    - discriminate.
    - discriminate. }
  destruct (quiet_run _ _ _ _ _ (endpoint_quiet _) E3) as [Hn3 _].
  destruct (quiet_run_sends_nothing _ _ _ _ _ (endpoint_quiet _) E3)
    as [Hs3 Hb3].
  rewrite bundle_responses_app, sent_transactions_app, sent_bundles_app.
  rewrite Hn3, Hs3, Hb3. cbn [app].
  assert (forall e0, ep = Some e0 -> e0 <> ""%string -> endpoint = e0)
    as Hep.
  { intros e0 -> Hne. unfold string_or in E3.
    apply String.eqb_neq in Hne. rewrite Hne in E3.
    apply ret_inv in E3. destruct E3 as [F _]. now inversion F. }
  apply bind_inv in H.
  destruct H as [[e0 [E ->]] | (response & t5 & t6 & E5 & H & ->)].
  { apply sendBundle_run in E.
    destruct E as [Hs [(Hb & Hn & _) | (ep' & Hb & Hn & Hgiven)]];
      rewrite Hs, Hb, Hn.
    - repeat split; auto; try discriminate. intros a [].
    - split; [reflexivity |]. split; [| split; [| split]].
      + right. exists ep'. split; [reflexivity |].
        intros e1 He1 Hne. pose proof (Hep e1 He1 Hne) as Heq. subst endpoint.
        destruct (Hgiven e1 eq_refl Hne) as [Heq _]. exact Heq.
      + right. eauto.
      + intros a [<- | []]. reflexivity.
      + discriminate. }
  assert (forallb no_submission t6 = true) as Hq6.
  { eapply emits_run; [| exact H]. quiet. }
  destruct (quiet_facts _ Hq6) as [Hn6 _].
  destruct (quiet_sends_nothing _ Hq6) as [Hs6 Hb6].
  rewrite bundle_responses_app, sent_transactions_app, sent_bundles_app.
  rewrite Hn6, Hs6, Hb6, !app_nil_r.
  assert (forall res, r = Ok res -> success res = true /\ error res = None)
    as Hres.
  { intros res ->.
    apply bind_ok_inv in H. destruct H as (err & t7 & t8 & _ & H & _).
    destruct (truthy_opt err).
    - apply bind_ok_inv in H. destruct H as (m & t9 & t10 & _ & H & _).
      apply throw_inv in H. destruct H as [F _]. discriminate F.
    - apply bind_ok_inv in H. destruct H as (res' & t9 & t10 & _ & H & _).
      apply ret_inv in H. destruct H as [F _]. inversion F. split; reflexivity. }
  apply sendBundle_run in E5.
  destruct E5 as [Hs [(_ & _ & e0 & F) | (ep' & Hb & Hn & Hgiven)]];
    [discriminate F |].
  rewrite Hs, Hb, Hn.
  split; [reflexivity |]. split; [| split; [| split]].
  - right. exists ep'. split; [reflexivity |].
    intros e1 He1 Hne. pose proof (Hep e1 He1 Hne) as Heq. subst endpoint.
        destruct (Hgiven e1 eq_refl Hne) as [Heq _]. exact Heq.
  - right. eauto.
  - intros a [<- | []]. eauto.
  - exact Hres.
Qed.

(** The structure of [sendTx] through the relay. *)
Lemma sendTx_relay_run tx payer signers fees commitment finality tip ep
      rt h r t :
  sendTx tx payer signers fees commitment finality (Some true) tip ep rt h
  = (r, t) ->
  let cm := match commitment with Some c => c | None => DEFAULT_COMMITMENT end in
  let fin := match finality with Some f => f | None => DEFAULT_FINALITY end in
  let lamports := match tip with Some l => l | None => TIP_LAMPORTS end in
  (forallb no_submission t = true /\ exists e, r = Throw e) \/
  (exists account b t0 t1,
      t = t0 ++ t1 /\ forallb no_submission t0 = true /\
      try_catch
        (sendTx_try true
           (signed_transaction payer b
              ((fee_instructions fees
                  ++ [SystemTransfer payer (Base58 account) lamports]) ++ tx)
              signers) ep cm fin)
        sendTx_catch rt (h ++ t0)
      = (r, t1)).
Proof.
  unfold sendTx. cbv zeta. intro H.
  apply bind_inv in H.
  destruct H as [[e [E ->]] | (newTx0 & t0 & t0' & E0 & H & ->)].
  { left. split; [| eauto]. eapply emits_run; [| exact E]. quiet. }
  apply fee_instructions_built in E0.
  destruct E0 as [-> [F0 | [e F0]]]; [| discriminate F0].
  inversion F0; subst newTx0. rewrite app_nil_r in H. cbn [app].
  apply bind_inv in H.
  destruct H as [[e [E ->]] | (newTx1 & t1 & t2 & E1 & H & ->)].
  { left. split; [| eauto]. eapply emits_run; [| exact E]. quiet. }
  assert (forallb no_submission t1 = true) as Hq1
    by (eapply emits_run; [| exact E1]; quiet).
  apply bind_ok_inv in E1. destruct E1 as (account & t3 & t4 & _ & E1 & _).
  apply ret_inv in E1. destruct E1 as [F _]. inversion F; subst newTx1.
  apply bind_inv in H.
  destruct H as [[e [E ->]] | (v & t5 & t6 & E5 & H & ->)].
  { left. split; [| eauto]. rewrite forallb_app, Hq1.
    eapply emits_run; [| exact E]. quiet. }
  assert (forallb no_submission t5 = true) as Hq5
    by (eapply emits_run; [| exact E5]; quiet).
  unfold buildVersionedTx in E5.
  apply bind_ok_inv in E5. destruct E5 as (b & t7 & t8 & _ & E5 & _).
  apply ret_inv in E5. destruct E5 as [F' _]. inversion F'; subst v.
  apply bind_inv in H.
  destruct H as [[e [E ->]] | (signed & t9 & t10 & E9 & H & ->)].
  { apply sign_built in E. destruct E as [-> _].
    left. split; [| eauto]. now rewrite !forallb_app, Hq1, Hq5. }
  apply sign_built in E9.
  destruct E9 as [-> [F3 | [e F3]]]; [| discriminate F3].
  inversion F3; subst signed. rewrite app_nil_r in H. cbn [app].
  right. exists account, (blockhash b), (t1 ++ t5), t10.
  split; [now rewrite app_assoc |].
  split; [now rewrite forallb_app, Hq1, Hq5 |].
  rewrite app_assoc. exact H.
Qed.

(** What [sendTx] hands over through the relay, however it ends. *)
Lemma sendTx_relay_sent
        tx payer signers fees commitment finality tip ep rt h r t :
  sendTx tx payer signers fees commitment finality (Some true) tip ep rt h
  = (r, t) ->
  sent_transactions t = [] /\
  (sent_bundles t = [] \/
   exists endpoint account b,
     sent_bundles t
     = [(endpoint,
         [signed_transaction payer b
            ((fee_instructions fees
                ++ [SystemTransfer payer (Base58 account)
                      (match tip with Some l => l | None => TIP_LAMPORTS end)])
               ++ tx)
            signers])] /\
     (forall e0, ep = Some e0 -> e0 <> ""%string -> endpoint = e0)).
Proof.
  intro H. apply sendTx_relay_run in H. cbv zeta in H.
  destruct H as [[Hq _] | (account & b & t0 & t1 & -> & Hq & H)].
  - destruct (quiet_sends_nothing _ Hq) as [Hs Hb]. auto.
  - destruct (quiet_sends_nothing _ Hq) as [Hs0 Hb0].
    rewrite sent_transactions_app, sent_bundles_app, Hs0, Hb0. cbn [app].
    apply try_catch_inv in H.
    destruct H as [[a [E ->]] | (e & t2 & t3 & E & H & ->)].
    + apply sendTx_try_relay_run in E.
      destruct E as (Hs & [Hb | (endpoint & Hb & Hep)] & _);
        rewrite Hs, Hb; [auto |].
      split; [reflexivity |]. right. eauto.
    + apply sendTx_try_relay_run in E.
      apply sendTx_catch_run in H. destruct H as [Hq3 _].
      destruct (quiet_sends_nothing _ Hq3) as [Hs3 Hb3].
      rewrite sent_transactions_app, sent_bundles_app, Hs3, Hb3, !app_nil_r.
      destruct E as (Hs & [Hb | (endpoint & Hb & Hep)] & _);
        rewrite Hs, Hb; [auto |].
      split; [reflexivity |]. right. eauto.
Qed.

(** Through the relay, [sendTx] submits nothing directly and posts at most
    one bundle. The bundle holds one transaction: paid by [payer], made of
    the compute-budget instructions (when priority fees are given), then one
    tip transfer from the payer of exactly the given amount (100000 lamports
    when none is given, and 0 when 0 is given), then the caller's
    instructions; it is signed by exactly the given signers and goes to the
    given endpoint when there is one. *)
Theorem sendTx_relay_submission
        tx payer signers fees commitment finality tip ep rt h r t :
  sendTx tx payer signers fees commitment finality (Some true) tip ep rt h
  = (r, t) ->
  sent_transactions t = [] /\
  (sent_bundles t = [] \/
   exists endpoint account b,
     sent_bundles t
     = [(endpoint,
         [signed_transaction payer b
            ((fee_instructions fees
                ++ [SystemTransfer payer (Base58 account)
                      (match tip with Some l => l | None => TIP_LAMPORTS end)])
               ++ tx)
            signers])] /\
     (forall e0, ep = Some e0 -> e0 <> ""%string -> endpoint = e0)).
Proof.
  intro H. exact (sendTx_relay_sent _ _ _ _ _ _ _ _ _ _ _ _ H).
Qed.

Lemma sendTx_relay_submission_witness :
  sent_transactions (snd example_relay_send) = [] /\
  (sent_bundles (snd example_relay_send) = [] \/
   exists endpoint account b,
     sent_bundles (snd example_relay_send)
     = [(endpoint,
         [signed_transaction (Base58 "payer") b
            ((fee_instructions None
                ++ [SystemTransfer (Base58 "payer") (Base58 account) 0]) ++ [])
            [Scenario.keypair "payer"]])] /\
     (forall e0, Some "https://relay.example"%string = Some e0 ->
                 e0 <> ""%string -> endpoint = e0)).
Proof.
  apply (sendTx_relay_submission [] (Base58 "payer")
           [Scenario.keypair "payer"] None None None (Some 0)
           (Some "https://relay.example"%string) Scenario.all_good []
           (fst example_relay_send)).
  apply surjective_pairing.
Defined.

Lemma sendTx_after_relay_cases response rt h r t :
  sendTx_after_relay response rt h = (r, t) ->
  (response = JNull -> r = Throw (cannot_read "null" "error")) /\
  (response <> JNull -> truthy_opt (error_of response) = false ->
   r = Ok (bundle_success response)).
Proof.
  unfold sendTx_after_relay, field, property, bind, lift, ret, asks, throw.
  intro H. split.
  - intros ->. simpl in H. now inversion H.
  - intros Hnull Herr.
    destruct response as [| b | z | s0 | items | fields];
      try contradiction; simpl in Herr, H;
      try rewrite Herr in H; simpl in H; now inversion H.
Qed.

(** Through the relay, [sendTx] reports an answer without error as success
    carrying [response.result], and an answer [null] as a failure result: the
    TypeError is caught and wrapped, where [createAndBuy] lets it escape. *)
Theorem sendTx_relay_outcomes
        tx payer signers fees commitment finality tip ep rt h r t response :
  sendTx tx payer signers fees commitment finality (Some true) tip ep rt h
  = (r, t) ->
  In (Ok response) (bundle_responses t) ->
  (response = JNull -> r = Ok null_response_failure) /\
  (response <> JNull -> truthy_opt (error_of response) = false ->
   r = Ok (bundle_success response)).
Proof.
  intros H Hin. apply sendTx_relay_run in H. cbv zeta in H.
  destruct H as [[Hq _] | (account & b & t0 & t1 & -> & Hq & H)].
  { destruct (quiet_facts _ Hq) as [Hn _]. rewrite Hn in Hin. contradiction. }
  destruct (quiet_facts _ Hq) as [Hn0 _].
  rewrite bundle_responses_app, Hn0 in Hin. cbn [app] in Hin.
  apply try_catch_inv in H.
  destruct H as [[a [E ->]] | (e & t2 & t3 & E & H & ->)].
  - apply sendTx_try_relay_run in E. destruct E as (_ & _ & _ & Hv & _).
    destruct (Hv _ Hin) as (h' & t' & Hafter).
    apply sendTx_after_relay_cases in Hafter. destruct Hafter as [Hnull Hok].
    split.
    + intro Hr. specialize (Hnull Hr). discriminate Hnull.
    + intros Hr Herr. exact (Hok Hr Herr).
  - pose proof (sendTx_catch_run _ _ _ _ _ H) as [Hq3 _].
    destruct (quiet_facts _ Hq3) as [Hn3 _].
    rewrite bundle_responses_app, Hn3, app_nil_r in Hin.
    apply sendTx_try_relay_run in E. destruct E as (_ & _ & _ & Hv & _).
    destruct (Hv _ Hin) as (h' & t' & Hafter).
    apply sendTx_after_relay_cases in Hafter. destruct Hafter as [Hnull Hok].
    split.
    + intro Hr. specialize (Hnull Hr). inversion Hnull; subst e.
      unfold sendTx_catch, bind, ret in H. simpl in H. now inversion H.
    + intros Hr Herr. specialize (Hok Hr Herr). discriminate Hok.
Qed.

Lemma sendTx_relay_outcomes_witness :
  (JNull = JNull -> fst example_null_send = Ok null_response_failure) /\
  (JNull <> JNull -> truthy_opt (error_of JNull) = false ->
   fst example_null_send = Ok (bundle_success JNull)).
Proof.
  apply (sendTx_relay_outcomes [] (Base58 "payer") [Scenario.keypair "payer"]
           None None None None None relay_null []
           (fst example_null_send) (snd example_null_send)).
  - apply surjective_pairing.
  - vm_compute. left. reflexivity.
Defined.

(** *** Results agree with their success flag *)

Lemma sendTx_consistent tx payer signers fees commitment finality jito tip ep
      rt h res t :
  sendTx tx payer signers fees commitment finality jito tip ep rt h
  = (Ok res, t) ->
  consistent res.
Proof.
  intro H.
  destruct jito as [[|] |].
  - apply sendTx_relay_run in H. cbv zeta in H.
    destruct H as [[_ [e F]] | (account & b & t0 & t1 & -> & _ & H)];
      [discriminate F |].
    apply try_catch_inv in H.
    destruct H as [[a [E F]] | (e & t2 & t3 & E & H & ->)].
    + inversion F; subst a.
      apply sendTx_try_relay_run in E. destruct E as (_ & _ & _ & _ & Hr).
      destruct (Hr _ eq_refl) as [Hs He]. unfold consistent. now rewrite Hs.
    + apply sendTx_catch_run in H. destruct H as (_ & Hok & _).
      destruct (Hok _ eq_refl) as (Hs & Hsig & Hres & m & l & He & _).
      unfold consistent. rewrite Hs, He. repeat split; auto. discriminate.
  - change (sendTx tx payer signers fees commitment finality None tip ep rt h
            = (Ok res, t)) in H.
    apply sendTx_direct_run in H. cbv zeta in H.
    destruct H as [[e [F _]] | (b & t1 & -> & H)]; [discriminate F |].
    apply try_catch_inv in H.
    destruct H as [[a [E F]] | (e & t2 & t3 & E & H & ->)].
    + inversion F; subst a.
      apply sendTx_try_direct_run in E. destruct E as (_ & _ & Hr & _).
      destruct (Hr _ eq_refl) as (sig & t' & _ & _ & Hcase).
      unfold consistent.
      destruct Hcase as [(_ & Hs & _ & He & _) | [-> _]].
      * now rewrite Hs.
      * simpl. repeat split. discriminate.
    + apply sendTx_catch_run in H. destruct H as (_ & Hok & _).
      destruct (Hok _ eq_refl) as (Hs & Hsig & Hres & m & l & He & _).
      unfold consistent. rewrite Hs, He. repeat split; auto. discriminate.
  - apply sendTx_direct_run in H. cbv zeta in H.
    destruct H as [[e [F _]] | (b & t1 & -> & H)]; [discriminate F |].
    apply try_catch_inv in H.
    destruct H as [[a [E F]] | (e & t2 & t3 & E & H & ->)].
    + inversion F; subst a.
      apply sendTx_try_direct_run in E. destruct E as (_ & _ & Hr & _).
      destruct (Hr _ eq_refl) as (sig & t' & _ & _ & Hcase).
      unfold consistent.
      destruct Hcase as [(_ & Hs & _ & He & _) | [-> _]].
      * now rewrite Hs.
      * simpl. repeat split. discriminate.
    + apply sendTx_catch_run in H. destruct H as (_ & Hok & _).
      destruct (Hok _ eq_refl) as (Hs & Hsig & Hres & m & l & He & _).
      unfold consistent. rewrite Hs, He. repeat split; auto. discriminate.
Qed.

(** *** The sequential path of [createAndBuy] *)

Lemma firstn_skipn_nth {A} (l : list A) :
  forall i x n,
    nth_error l i = Some x ->
    firstn (S n) (skipn i l) = x :: firstn n (skipn (S i) l).
Proof.
  induction l as [| y l IH]; intros i x n H.
  - destruct i; discriminate H.
  - destruct i as [| i].
    + simpl in H. inversion H; subst. reflexivity.
    + simpl in H. cbn [skipn]. rewrite (IH i x n H). reflexivity.
Qed.

Lemma sendPlanned_cases p tx sg rt h r t :
  sendPlanned p tx sg rt h = (r, t) ->
  sent_bundles t = [] /\
  ((exists e, r = Throw e /\ sent_transactions t = []) \/
   (exists tx0 payer rest b,
       tx = Some tx0 /\ sg = Some (payer :: rest) /\
       sent_transactions t
       = [signed_transaction (publicKey payer) b
            (fee_instructions (CreateAndBuyParams.priorityFees p) ++ tx0)
            (payer :: rest)])).
Proof.
  unfold sendPlanned. intro H.
  destruct tx as [tx0 |]; destruct sg as [[| payer rest] |];
    try (apply throw_inv in H; destruct H as [-> ->];
         split; [reflexivity | left; eauto]).
  - apply sendTx_direct_sent in H. destruct H as [Hb [Hl | [b Hr]]].
    + split; [exact Hb |]. now left.
    + split; [exact Hb |]. right. exists tx0, payer, rest, b. auto.
  - apply bind_inv in H.
    destruct H as [[e [E ->]] | (x & t1 & t2 & E & H & ->)].
    + apply fee_instructions_built in E. destruct E as [-> _].
      split; [reflexivity | left; eauto].
    + apply fee_instructions_built in E. destruct E as [-> _].
      apply throw_inv in H. destruct H as [-> ->].
      split; [reflexivity | left; eauto].
Qed.

Lemma sendPlanned_consistent p tx sg rt h res t :
  sendPlanned p tx sg rt h = (Ok res, t) -> consistent res.
Proof.
  unfold sendPlanned. intro H.
  destruct tx as [tx0 |]; destruct sg as [[| payer rest] |];
    try (apply throw_inv in H; destruct H as [F _]; discriminate F).
  - exact (sendTx_consistent _ _ _ _ _ _ _ _ _ _ _ _ _ H).
  - apply bind_ok_inv in H. destruct H as (x & t1 & t2 & _ & H & _).
    apply throw_inv in H. destruct H as [F _]. discriminate F.
Qed.

(** What the loop of the sequential path has submitted when it ends, however
    it ends: a prefix of the plan from entry [i] on, each transaction with
    the compute-budget instructions in front and the signers of its entry. *)
Lemma sendAll_sent p :
  forall k i txs sgs r0 rt h out t,
    sendAll p k i txs sgs r0 rt h = (out, t) ->
    sent_bundles t = [] /\
    exists n,
      (n <= k)%nat /\
      map instructions (sent_transactions t)
      = map (app (fee_instructions (CreateAndBuyParams.priorityFees p)))
            (firstn n (skipn i txs)) /\
      map signatures (sent_transactions t)
      = map (map publicKey) (firstn n (skipn i sgs)).
Proof.
  induction k as [| k IH]; intros i txs sgs r0 rt h out t H; cbn [sendAll] in H.
  - apply ret_inv in H. destruct H as [_ ->].
    split; [reflexivity |]. exists 0%nat. repeat split. lia.
  - apply bind_inv in H.
    destruct H as [[e [E ->]] | (res & t1 & t2 & E1 & H & ->)].
    + apply sendPlanned_cases in E.
      destruct E as [Hb [(e0 & _ & Hs) | (tx0 & payer & rest & b & Htx & Hsg & Hs)]].
      * split; [exact Hb |]. exists 0%nat. rewrite Hs. repeat split. lia.
      * split; [exact Hb |]. exists 1%nat. rewrite Hs.
        rewrite (firstn_skipn_nth _ _ _ 0 Htx).
        rewrite (firstn_skipn_nth _ _ _ 0 Hsg).
        repeat split. lia.
    + apply sendPlanned_cases in E1.
      destruct E1 as [Hb [(e0 & F & _) | (tx0 & payer & rest & b & Htx & Hsg & Hs)]];
        [discriminate F |].
      rewrite sent_bundles_app, sent_transactions_app, Hb, Hs. cbn [app].
      destruct (negb (success res)).
      * apply ret_inv in H. destruct H as [_ ->].
        split; [reflexivity |]. exists 1%nat.
        rewrite (firstn_skipn_nth _ _ _ 0 Htx).
        rewrite (firstn_skipn_nth _ _ _ 0 Hsg).
        repeat split. lia.
      * apply IH in H. destruct H as [Hb2 (n & Hn & Hi & Hsig)].
        split; [exact Hb2 |]. exists (S n).
        rewrite (firstn_skipn_nth _ _ _ n Htx).
        rewrite (firstn_skipn_nth _ _ _ n Hsg).
        cbn [map]. rewrite Hi, Hsig. repeat split. lia.
Qed.

(** The loop, when it ends with a successful result: every iteration
    submitted one transaction, and the result is the one kept from entry 0. *)
Lemma sendAll_success p :
  forall k i txs sgs r0 rt h r t,
    sendAll p k i txs sgs r0 rt h = (Ok (Some r), t) ->
    success r = true ->
    count is_send_transaction t = k /\
    (i <> 0%nat -> r0 = Some r) /\
    (i = 0%nat -> k <> 0%nat ->
     exists t1,
       sendPlanned p (nth_error txs 0) (nth_error sgs 0) rt h = (Ok r, t1)).
Proof.
  induction k as [| k IH]; intros i txs sgs r0 rt h r t H Hs; cbn [sendAll] in H.
  - apply ret_inv in H. destruct H as [F ->]. inversion F.
    repeat split; auto. intros _ Hk. contradiction.
  - apply bind_ok_inv in H. destruct H as (res & t1 & t2 & E1 & H & ->).
    destruct (success res) eqn:Hres; cbn [negb] in H.
    2: { apply ret_inv in H. destruct H as [F _]. inversion F; subst res.
         congruence. }
    apply IH in H; [| exact Hs]. destruct H as (Hc & Hr0 & _).
    assert (count is_send_transaction t1 = 1%nat) as Hc1.
    { pose proof (sendPlanned_cases _ _ _ _ _ _ _ E1) as [_ Hcase].
      rewrite <- sent_transactions_length.
      destruct Hcase as [(e0 & F & _) | (tx0 & payer & rest & b & _ & _ & Hsent)];
        [discriminate F |].
      now rewrite Hsent. }
    rewrite count_app, Hc1, Hc. split; [reflexivity |].
    specialize (Hr0 (Nat.neq_succ_0 i)). split.
    + intro Hi. destruct i as [| i]; [contradiction |]. exact Hr0.
    + intros -> _. cbn [Nat.eqb] in Hr0. inversion Hr0; subst res. eauto.
Qed.

Lemma sendAll_consistent p :
  forall k i txs sgs r0 rt h r t,
    sendAll p k i txs sgs r0 rt h = (Ok (Some r), t) ->
    (forall r', r0 = Some r' -> consistent r') ->
    consistent r.
Proof.
  induction k as [| k IH]; intros i txs sgs r0 rt h r t H H0; cbn [sendAll] in H.
  - apply ret_inv in H. destruct H as [F _]. inversion F. now apply H0.
  - apply bind_ok_inv in H. destruct H as (res & t1 & t2 & E1 & H & _).
    pose proof (sendPlanned_consistent _ _ _ _ _ _ _ E1) as Hres.
    destruct (negb (success res)).
    + apply ret_inv in H. destruct H as [F _]. inversion F. now subst.
    + eapply IH; [exact H |]. intros r' Hr'.
      destruct (i =? 0)%nat; [inversion Hr'; now subst | now apply H0].
Qed.

(** *** Submission reads no ledger state *)

Create HintDb calm.

Ltac calm := repeat first [solve [auto with calm] | emits_step].

Lemma random_element_calm l : emits no_planning (random_element l).
Proof. unfold random_element. calm. Qed.
#[local] Hint Resolve random_element_calm : calm.

Lemma endpoint_calm a :
  emits no_planning (string_or a getRandomJitoMainnetEndpoint).
Proof.
  unfold string_or, getRandomJitoMainnetEndpoint. calm.
Qed.
#[local] Hint Resolve endpoint_calm : calm.

Lemma sendBundle_calm txs ep : emits no_planning (sendBundle txs ep).
Proof. unfold sendBundle. calm. Qed.
#[local] Hint Resolve sendBundle_calm : calm.

Lemma buildVersionedTx_calm payer tx commitment :
  emits no_planning (buildVersionedTx payer tx commitment).
Proof. unfold buildVersionedTx. calm. Qed.
#[local] Hint Resolve buildVersionedTx_calm : calm.

Lemma field_calm name obj : emits no_planning (field name obj).
Proof. unfold field. calm. Qed.
#[local] Hint Resolve field_calm : calm.

Lemma getTxDetails_calm sig commitment finality :
  emits no_planning (getTxDetails sig commitment finality).
Proof. unfold getTxDetails. calm. Qed.
#[local] Hint Resolve getTxDetails_calm : calm.

Lemma sendTx_catch_calm e : emits no_planning (sendTx_catch e).
Proof. unfold sendTx_catch. calm. Qed.
#[local] Hint Resolve sendTx_catch_calm : calm.

Lemma sendTx_try_calm jito v ep commitment finality :
  emits no_planning (sendTx_try jito v ep commitment finality).
Proof. unfold sendTx_try. calm. Qed.
#[local] Hint Resolve sendTx_try_calm : calm.

Lemma sendTx_calm tx payer signers fees commitment finality jito tip ep :
  emits no_planning
        (sendTx tx payer signers fees commitment finality jito tip ep).
Proof. unfold sendTx, getRandomTipAccount. calm. Qed.
#[local] Hint Resolve sendTx_calm : calm.

Lemma sendPlanned_calm p tx sg : emits no_planning (sendPlanned p tx sg).
Proof.
  unfold sendPlanned.
  destruct tx as [tx0 |]; destruct sg as [[| payer rest] |]; calm.
Qed.
#[local] Hint Resolve sendPlanned_calm : calm.

Lemma sendAll_calm p :
  forall k i txs sgs r0, emits no_planning (sendAll p k i txs sgs r0).
Proof.
  induction k as [| k IH]; intros i txs sgs r0; cbn [sendAll]; calm.
Qed.
#[local] Hint Resolve sendAll_calm : calm.

Lemma signAll_calm p :
  forall k i txs sgs acc, emits no_planning (signAll p k i txs sgs acc).
Proof.
  induction k as [| k IH]; intros i txs sgs acc; cbn [signAll]; calm.
Qed.
#[local] Hint Resolve signAll_calm : calm.

Lemma submit_calm p txs sgs : emits no_planning (submit p txs sgs).
Proof.
  unfold submit, sendAsBundle, sendSequentially. calm.
Qed.

(** [createAndBuy] builds every transaction before it submits the first: its
    trace is the trace of planning, in which nothing is submitted, followed
    by the trace of submission, in which no account is read, nothing is
    uploaded and no price is quoted. If planning throws, [createAndBuy]
    throws the same error and submission never starts. *)
Theorem createAndBuy_plans_before_submitting p rt h out t :
  createAndBuy p rt h = (out, t) ->
  exists ts,
    t = snd (plan p rt h) ++ ts /\
    forallb no_submission (snd (plan p rt h)) = true /\
    forallb no_planning ts = true /\
    (forall e, fst (plan p rt h) = Throw e -> out = Throw e /\ ts = []).
Proof.
  unfold createAndBuy. intro H.
  pose proof (plan_quiet p rt h) as Hq.
  apply bind_inv in H.
  destruct H as [[e [E ->]] | ([txs sgs] & t1 & t2 & E1 & H & ->)].
  - rewrite E in *. cbn [fst snd] in *.
    exists []. rewrite app_nil_r.
    split; [reflexivity |]. split; [exact Hq |]. split; [reflexivity |].
    intros e1 F. inversion F; subst e1. split; reflexivity.
  - rewrite E1 in *. cbn [fst snd] in *.
    exists t2.
    split; [reflexivity |]. split; [exact Hq |]. split.
    + exact (emits_run _ _ _ _ _ _ (submit_calm p txs sgs) H).
    + intros e1 F. discriminate F.
Qed.

Lemma createAndBuy_plans_before_submitting_witness :
  exists ts,
    snd (createAndBuy Scenario.three Scenario.second_fails [])
    = snd (plan Scenario.three Scenario.second_fails []) ++ ts /\
    forallb no_submission (snd (plan Scenario.three Scenario.second_fails []))
    = true /\
    forallb no_planning ts = true /\
    (forall e, fst (plan Scenario.three Scenario.second_fails []) = Throw e ->
               fst (createAndBuy Scenario.three Scenario.second_fails [])
               = Throw e /\ ts = []).
Proof.
  apply (createAndBuy_plans_before_submitting
           Scenario.three Scenario.second_fails []).
  apply surjective_pairing.
Defined.

(** *** What [createAndBuy] submits *)

Lemma sent_bundles_length (t : list Event) :
  List.length (sent_bundles t) = count is_send_bundle t.
Proof.
  unfold count. induction t as [| [R c r] t IH]; simpl.
  - reflexivity.
  - destruct c; simpl; now rewrite IH.
Qed.

Lemma signAll_signed p :
  forall k i txs sgs acc rt h ser t,
    signAll p k i txs sgs acc rt h = (Ok ser, t) ->
    map instructions ser = map instructions acc ++ firstn k (skipn i txs) /\
    map signatures ser
    = map signatures acc ++ map (map publicKey) (firstn k (skipn i sgs)).
Proof.
  induction k as [| k IH]; intros i txs sgs acc rt h ser t H; cbn [signAll] in H.
  - apply ret_inv in H. destruct H as [F _]. inversion F.
    cbn [firstn map]. now rewrite !app_nil_r.
  - destruct (nth_error txs i) as [tx |] eqn:Htx;
      destruct (nth_error sgs i) as [[| payer rest] |] eqn:Hsg;
      try (apply throw_inv in H; destruct H as [F _]; discriminate F).
    2: { apply bind_ok_inv in H. destruct H as (x & t1 & t2 & _ & H & _).
         apply throw_inv in H. destruct H as [F _]. discriminate F. }
    apply bind_ok_inv in H. destruct H as (v & t1 & t2 & Ev & H & _).
    unfold buildVersionedTx in Ev.
    apply bind_ok_inv in Ev. destruct Ev as (b & t3 & t4 & _ & Ev & _).
    apply ret_inv in Ev. destruct Ev as [F _]. inversion F; subst v.
    apply bind_ok_inv in H. destruct H as (v & t5 & t6 & Ev & H & _).
    apply sign_built in Ev.
    destruct Ev as [_ [F3 | [e F3]]]; [| discriminate F3].
    inversion F3; subst v.
    apply IH in H. destruct H as [Hi Hs].
    rewrite (firstn_skipn_nth _ _ _ k Htx), (firstn_skipn_nth _ _ _ k Hsg).
    rewrite Hi, Hs, !map_app.
    cbn [map signed_transaction instructions signatures app].
    now rewrite <- !app_assoc.
Qed.

Lemma plan_lengths p rt h txs sgs tp :
  plan p rt h = (Ok (txs, sgs), tp) ->
  List.length txs = S (List.length (batches_of (CreateAndBuyParams.bundledBuys p)))
  /\ List.length sgs = List.length txs /\
  Forall2 (fun tx sg => same_keys (transaction_signers tx) (map publicKey sg))
          txs sgs.
Proof.
  intro H. apply plan_ok in H.
  destruct H as (first & secondary & -> & -> & Hfirst & Hshape & _).
  pose proof (Forall2_length Hshape) as Hlen.
  cbn [List.length]. rewrite !length_map. repeat split; try lia.
  constructor.
  - now apply first_shape_signers.
  - now apply (shapes_signers p).
Qed.

Lemma fee_instructions_sign_nothing fees tx :
  transaction_signers (fee_instructions fees ++ tx) = transaction_signers tx.
Proof.
  rewrite transaction_signers_app. now destruct fees.
Qed.

Lemma signed_as_planned fees :
  forall vs n txs sgs,
    Forall2 (fun tx sg => same_keys (transaction_signers tx) (map publicKey sg))
            txs sgs ->
    map instructions vs = map (app (fee_instructions fees)) (firstn n txs) ->
    map signatures vs = map (map publicKey) (firstn n sgs) ->
    Forall properly_signed vs.
Proof.
  induction vs as [| v vs IH]; intros n txs sgs HP Hi Hs.
  - constructor.
  - destruct n as [| n]; [destruct txs; discriminate Hi |].
    destruct HP as [| tx sg txs sgs Hhead HP]; [discriminate Hi |].
    cbn [firstn map] in Hi, Hs.
    inversion Hi as [[Hv Hrest]]. inversion Hs as [[Hv' Hrest']].
    constructor.
    + unfold properly_signed. rewrite Hv, Hv', fee_instructions_sign_nothing.
      exact Hhead.
    + exact (IH n txs sgs HP Hrest Hrest').
Qed.

(** The run of [createAndBuy], path by path. *)
Lemma createAndBuy_sequential_run p rt h out t :
  enabled (CreateAndBuyParams.jitoConfig p) = None ->
  createAndBuy p rt h = (out, t) ->
  (forallb no_submission t = true /\ exists e, out = Throw e) \/
  (exists txs sgs tp ts,
      plan p rt h = (Ok (txs, sgs), tp) /\ t = tp ++ ts /\
      forallb no_submission tp = true /\
      sendAll p (List.length txs) 0 txs sgs None rt (h ++ tp) = (out, ts)).
Proof.
  unfold createAndBuy. intros Hen H.
  apply bind_inv in H.
  destruct H as [[e [E ->]] | ([txs sgs] & t1 & t2 & E1 & H & ->)].
  - left. split; [| eauto]. exact (emits_run _ _ _ _ _ _ (plan_quiet p) E).
  - right. unfold submit in H. rewrite Hen in H.
    exists txs, sgs, t1, t2. repeat split; auto.
    exact (emits_run _ _ _ _ _ _ (plan_quiet p) E1).
Qed.

Lemma createAndBuy_bundle_run p c rt h out t :
  enabled (CreateAndBuyParams.jitoConfig p) = Some c ->
  createAndBuy p rt h = (out, t) ->
  sent_transactions t = [] /\
  (sent_bundles t = [] \/
   exists txs sgs tp endpoint bundle,
     plan p rt h = (Ok (txs, sgs), tp) /\
     sent_bundles t = [(endpoint, bundle)] /\
     map instructions bundle = txs /\
     map signatures bundle = map (map publicKey) sgs /\
     (forall e0, Jito.endpoint c = Some e0 -> e0 <> ""%string ->
                 endpoint = e0)).
Proof.
  unfold createAndBuy. intros Hen H.
  apply bind_inv in H.
  destruct H as [[e [E ->]] | ([txs sgs] & t1 & t2 & E1 & H & ->)].
  { destruct (quiet_run_sends_nothing _ _ _ _ _ (plan_quiet p) E) as [Hs Hb].
    auto. }
  destruct (quiet_run_sends_nothing _ _ _ _ _ (plan_quiet p) E1) as [Hs1 Hb1].
  rewrite sent_transactions_app, sent_bundles_app, Hs1, Hb1. cbn [app].
  unfold submit in H. rewrite Hen in H. unfold sendAsBundle in H.
  apply bind_inv in H.
  destruct H as [[e [E ->]] | (ser & t3 & t4 & E3 & H & ->)].
  { destruct (quiet_run_sends_nothing _ _ _ _ _ (signAll_quiet _ _ _ _ _ _) E)
      as [Hs Hb]. auto. }
  destruct (quiet_run_sends_nothing _ _ _ _ _ (signAll_quiet _ _ _ _ _ _) E3)
    as [Hs3 Hb3].
  rewrite sent_transactions_app, sent_bundles_app, Hs3, Hb3. cbn [app].
  apply signAll_signed in E3. destruct E3 as [Hi Hsig].
  cbn [map app skipn] in Hi, Hsig. rewrite firstn_all in Hi.
  destruct (plan_lengths _ _ _ _ _ _ E1) as (_ & Hlen & _).
  rewrite <- Hlen, firstn_all in Hsig.
  apply bind_inv in H.
  destruct H as [[e [E ->]] | (endpoint & t5 & t6 & E5 & H & ->)].
  { destruct (quiet_run_sends_nothing _ _ _ _ _ (endpoint_quiet _) E)
      as [Hs Hb]. auto. }
  destruct (quiet_run_sends_nothing _ _ _ _ _ (endpoint_quiet _) E5)
    as [Hs5 Hb5].
  rewrite sent_transactions_app, sent_bundles_app, Hs5, Hb5. cbn [app].
  assert (forall e0, Jito.endpoint c = Some e0 -> e0 <> ""%string ->
                     endpoint = e0) as Hep.
  { intros e0 He0 Hne. rewrite He0 in E5. unfold string_or in E5.
    apply String.eqb_neq in Hne. rewrite Hne in E5.
    apply ret_inv in E5. destruct E5 as [F _]. now inversion F. }
  assert (forall r7 t7,
             sendBundle ser (Some endpoint) rt (((h ++ t1) ++ t3) ++ t5)
             = (r7, t7) ->
             sent_transactions t7 = [] /\
             (sent_bundles t7 = [] \/
              exists endpoint',
                sent_bundles t7 = [(endpoint', ser)] /\
                (forall e0, Jito.endpoint c = Some e0 -> e0 <> ""%string ->
                            endpoint' = e0))) as Hsend.
  { intros r7 t7 E7. apply sendBundle_run in E7.
    destruct E7 as [Hs [(Hb & _) | (ep' & Hb & _ & Hgiven)]].
    - auto.
    - split; [exact Hs |]. right. exists ep'. split; [exact Hb |].
      intros e0 He0 Hne. pose proof (Hep e0 He0 Hne) as Heq. subst endpoint.
      destruct (Hgiven e0 eq_refl Hne) as [Heq _]. exact Heq. }
  apply bind_inv in H.
  destruct H as [[e [E ->]] | (response & t7 & t8 & E7 & H & ->)].
  { destruct (Hsend _ _ E) as [Hs [Hb | (ep' & Hb & Hgiven)]];
      rewrite Hs, Hb; [auto |].
    split; [reflexivity |]. right.
    exists txs, sgs, t1, ep', ser. auto. }
  assert (forallb no_submission t8 = true) as Hq8.
  { eapply emits_run; [| exact H]. quiet. }
  destruct (quiet_sends_nothing _ Hq8) as [Hs8 Hb8].
  rewrite sent_transactions_app, sent_bundles_app, Hs8, Hb8, !app_nil_r.
  destruct (Hsend _ _ E7) as [Hs [Hb | (ep' & Hb & Hgiven)]];
    rewrite Hs, Hb; [auto |].
  split; [reflexivity |]. right.
  exists txs, sgs, t1, ep', ser. auto.
Qed.

Lemma signed_as_planned_plain :
  forall vs txs sgs,
    Forall2 (fun tx sg => same_keys (transaction_signers tx) (map publicKey sg))
            txs sgs ->
    map instructions vs = txs ->
    map signatures vs = map (map publicKey) sgs ->
    Forall properly_signed vs.
Proof.
  induction vs as [| v vs IH]; intros txs sgs HP Hi Hs.
  - constructor.
  - destruct HP as [| tx sg txs sgs Hhead HP]; [discriminate Hi |].
    cbn [map] in Hi, Hs.
    inversion Hi as [[Hv Hrest]]. inversion Hs as [[Hv' Hrest']].
    constructor.
    + unfold properly_signed. rewrite Hv, Hv'. exact Hhead.
    + exact (IH txs sgs HP Hrest Hrest').
Qed.

Lemma sendAll_some p :
  forall k i txs sgs r0 rt h o t,
    sendAll p k i txs sgs r0 rt h = (Ok o, t) ->
    (i = 0%nat /\ k <> 0%nat) \/ r0 <> None ->
    o <> None.
Proof.
  induction k as [| k IH]; intros i txs sgs r0 rt h o t H Hc; cbn [sendAll] in H.
  - apply ret_inv in H. destruct H as [F _]. inversion F; subst o.
    destruct Hc as [[_ Hk] | Hr]; [contradiction | exact Hr].
  - apply bind_ok_inv in H. destruct H as (res & t1 & t2 & _ & H & _).
    destruct (negb (success res)).
    + apply ret_inv in H. destruct H as [F _]. inversion F. discriminate.
    + apply IH in H; [exact H |]. right.
      destruct Hc as [[-> _] | Hr]; [discriminate |].
      destruct (i =? 0)%nat; [discriminate | exact Hr].
Qed.

(** When [createAndBuy], on the sequential path, returns a successful result,
    every planned transaction was submitted, once each: one for the creation
    and one for each batch of bundled buys; nothing went to the relay; and
    the result returned is the one of the first transaction, not of the
    last. *)
Theorem sequential_success_submits_every_transaction p rt h r t :
  enabled (CreateAndBuyParams.jitoConfig p) = None ->
  createAndBuy p rt h = (Ok (Some r), t) ->
  success r = true ->
  count is_send_transaction t
  = S (List.length (batches_of (CreateAndBuyParams.bundledBuys p))) /\
  count is_send_bundle t = 0%nat /\
  exists txs sgs tp t1,
    plan p rt h = (Ok (txs, sgs), tp) /\
    sendPlanned p (nth_error txs 0) (nth_error sgs 0) rt (h ++ tp)
    = (Ok r, t1).
Proof.
  intros Hen H Hs.
  apply (createAndBuy_sequential_run _ _ _ _ _ Hen) in H.
  destruct H as [[_ [e F]] | (txs & sgs & tp & ts & Hplan & -> & Hq & H)];
    [discriminate F |].
  destruct (plan_lengths _ _ _ _ _ _ Hplan) as (Hlen & _ & _).
  pose proof (sendAll_sent _ _ _ _ _ _ _ _ _ _ H) as [Hb _].
  apply sendAll_success in H; [| exact Hs].
  destruct H as (Hc & _ & Hfirst).
  destruct (quiet_sends_nothing _ Hq) as [Hs0 Hb0].
  rewrite !count_app, <- !sent_bundles_length, <- !sent_transactions_length.
  rewrite Hs0, Hb0, Hb. cbn [List.length].
  rewrite sent_transactions_length, Hc, Hlen.
  split; [reflexivity |]. split; [reflexivity |].
  destruct Hfirst as [t1 H1]; [reflexivity | lia |].
  exists txs, sgs, tp, t1. split; [exact Hplan | exact H1].
Qed.

Lemma sequential_success_submits_every_transaction_witness :
  count is_send_transaction (snd example_launch)
  = S (List.length (batches_of (CreateAndBuyParams.bundledBuys Scenario.three)))
  /\
  count is_send_bundle (snd example_launch) = 0%nat /\
  exists txs sgs tp t1,
    plan Scenario.three Scenario.all_good [] = (Ok (txs, sgs), tp) /\
    sendPlanned Scenario.three (nth_error txs 0) (nth_error sgs 0)
                Scenario.all_good ([] ++ tp)
    = (Ok example_launch_result, t1).
Proof.
  apply (sequential_success_submits_every_transaction
           Scenario.three Scenario.all_good []
           example_launch_result (snd example_launch)).
  - reflexivity.
  - vm_compute. reflexivity.
  - vm_compute. reflexivity.
Defined.

(** On the sequential path, whatever happens, the transactions [createAndBuy]
    has submitted are a prefix of the plan, in the plan's order: each with
    the compute-budget instructions in front when priority fees are given,
    the planned instructions unchanged after them, and signed by the signers
    of its plan entry, which are exactly the accounts its instructions are
    issued for. Nothing goes to the relay. *)
Theorem sequential_submits_plan_prefix p rt h out t txs sgs tp :
  enabled (CreateAndBuyParams.jitoConfig p) = None ->
  createAndBuy p rt h = (out, t) ->
  plan p rt h = (Ok (txs, sgs), tp) ->
  sent_bundles t = [] /\
  exists n,
    (n <= S (List.length (batches_of (CreateAndBuyParams.bundledBuys p))))%nat /\
    map instructions (sent_transactions t)
    = map (app (fee_instructions (CreateAndBuyParams.priorityFees p)))
          (firstn n txs) /\
    map signatures (sent_transactions t)
    = map (map publicKey) (firstn n sgs) /\
    Forall properly_signed (sent_transactions t).
Proof.
  intros Hen H Hplan.
  apply (createAndBuy_sequential_run _ _ _ _ _ Hen) in H.
  destruct H as [[Hq _] | (txs' & sgs' & tp' & ts & Hplan' & -> & Hq & H)].
  { destruct (quiet_sends_nothing _ Hq) as [Hs0 Hb0].
    split; [exact Hb0 |]. exists 0%nat. rewrite Hs0. cbn [firstn map].
    split; [lia |]. repeat split. constructor. }
  rewrite Hplan in Hplan'. inversion Hplan'; subst txs' sgs' tp'.
  destruct (plan_lengths _ _ _ _ _ _ Hplan) as (Hlen & _ & HP).
  destruct (quiet_sends_nothing _ Hq) as [Hs0 Hb0].
  apply sendAll_sent in H. destruct H as [Hb (n & Hn & Hi & Hsig)].
  cbn [skipn] in Hi, Hsig.
  rewrite sent_transactions_app, sent_bundles_app, Hs0, Hb0. cbn [app].
  split; [exact Hb |]. exists n.
  split; [lia |]. split; [exact Hi |]. split; [exact Hsig |].
  exact (signed_as_planned _ _ _ _ _ HP Hi Hsig).
Qed.

Lemma sequential_submits_plan_prefix_witness :
  sent_bundles (snd (createAndBuy Scenario.three Scenario.second_fails [])) = []
  /\
  exists n,
    (n <= S (List.length
               (batches_of (CreateAndBuyParams.bundledBuys Scenario.three))))%nat
    /\
    map instructions
        (sent_transactions
           (snd (createAndBuy Scenario.three Scenario.second_fails [])))
    = map (app (fee_instructions
                  (CreateAndBuyParams.priorityFees Scenario.three)))
          (firstn n (Scenario.planned_transactions Scenario.three
                       Scenario.second_fails)) /\
    map signatures
        (sent_transactions
           (snd (createAndBuy Scenario.three Scenario.second_fails [])))
    = map (map publicKey)
          (firstn n (Scenario.planned_signers Scenario.three
                       Scenario.second_fails)) /\
    Forall properly_signed
           (sent_transactions
              (snd (createAndBuy Scenario.three Scenario.second_fails []))).
Proof.
  apply (sequential_submits_plan_prefix
           Scenario.three Scenario.second_fails []
           (fst (createAndBuy Scenario.three Scenario.second_fails []))
           (snd (createAndBuy Scenario.three Scenario.second_fails []))
           (Scenario.planned_transactions Scenario.three Scenario.second_fails)
           (Scenario.planned_signers Scenario.three Scenario.second_fails)
           (Scenario.planned_trace Scenario.three Scenario.second_fails)).
  - reflexivity.
  - apply surjective_pairing.
  - vm_compute. reflexivity.
Defined.

(** With the relay enabled, [createAndBuy] submits nothing to the node and
    posts at most one bundle. The bundle is the whole plan, in order: one
    transaction per plan entry, with exactly the planned instructions (no
    compute-budget instruction is put in front, whatever the priority fees)
    and signed by the signers of its entry, which are exactly the accounts
    its instructions are issued for. It goes to the configured endpoint when
    one is configured. *)
Theorem relay_bundle_is_the_plan p c rt h out t :
  enabled (CreateAndBuyParams.jitoConfig p) = Some c ->
  createAndBuy p rt h = (out, t) ->
  sent_transactions t = [] /\
  (sent_bundles t = [] \/
   exists txs sgs tp endpoint bundle,
     plan p rt h = (Ok (txs, sgs), tp) /\
     sent_bundles t = [(endpoint, bundle)] /\
     map instructions bundle = txs /\
     map signatures bundle = map (map publicKey) sgs /\
     Forall properly_signed bundle /\
     (forall e0, Jito.endpoint c = Some e0 -> e0 <> ""%string ->
                 endpoint = e0)).
Proof.
  intros Hen H.
  destruct (createAndBuy_bundle_run _ _ _ _ _ _ Hen H)
    as [Hs [Hb | (txs & sgs & tp & ep & bundle & Hplan & Hb & Hi & Hsig & Hep)]].
  - auto.
  - split; [exact Hs |]. right.
    exists txs, sgs, tp, ep, bundle.
    destruct (plan_lengths _ _ _ _ _ _ Hplan) as (_ & _ & HP).
    repeat split; auto.
    exact (signed_as_planned_plain _ _ _ HP Hi Hsig).
Qed.

Lemma relay_bundle_is_the_plan_witness :
  sent_transactions (snd example_relayed) = [] /\
  (sent_bundles (snd example_relayed) = [] \/
   exists txs sgs tp endpoint bundle,
     plan Scenario.relayed Scenario.all_good [] = (Ok (txs, sgs), tp) /\
     sent_bundles (snd example_relayed) = [(endpoint, bundle)] /\
     map instructions bundle = txs /\
     map signatures bundle = map (map publicKey) sgs /\
     Forall properly_signed bundle /\
     (forall e0,
         Jito.endpoint {| jitoEnabled := true; tipLampports := None;
                          endpoint := None |} = Some e0 ->
         e0 <> ""%string -> endpoint = e0)).
Proof.
  apply (relay_bundle_is_the_plan Scenario.relayed
           {| jitoEnabled := true; tipLampports := None; endpoint := None |}
           Scenario.all_good []
           (fst example_relayed) (snd example_relayed)).
  - vm_compute. reflexivity.
  - apply surjective_pairing.
Defined.

(** Every transaction [createAndBuy] hands over, to the node or to the relay,
    is signed by exactly the accounts its instructions are issued for. *)
Theorem createAndBuy_hands_over_signed_transactions p rt h :
  Forall properly_signed (handed_over (snd (createAndBuy p rt h))).
Proof.
  destruct (createAndBuy p rt h) as [out t] eqn:H. cbn [snd].
  unfold handed_over.
  destruct (enabled (CreateAndBuyParams.jitoConfig p)) as [c |] eqn:Hen.
  - destruct (createAndBuy_bundle_run _ _ _ _ _ _ Hen H)
      as [Hs [Hb | (txs & sgs & tp & ep & bundle & Hplan & Hb & Hi & Hsig & _)]];
      rewrite Hs, Hb; cbn [flat_map app snd]; [constructor |].
    rewrite app_nil_r.
    destruct (plan_lengths _ _ _ _ _ _ Hplan) as (_ & _ & HP).
    exact (signed_as_planned_plain _ _ _ HP Hi Hsig).
  - destruct (createAndBuy_sequential_run _ _ _ _ _ Hen H)
      as [[Hq _] | (txs & sgs & tp & ts & Hplan & -> & Hq & E)].
    + destruct (quiet_sends_nothing _ Hq) as [Hs0 Hb0].
      rewrite Hs0, Hb0. constructor.
    + destruct (plan_lengths _ _ _ _ _ _ Hplan) as (_ & _ & HP).
      destruct (quiet_sends_nothing _ Hq) as [Hs0 Hb0].
      apply sendAll_sent in E. destruct E as [Hb (n & _ & Hi & Hsig)].
      cbn [skipn] in Hi, Hsig.
      rewrite sent_transactions_app, sent_bundles_app, Hs0, Hb0, Hb.
      cbn [flat_map app]. rewrite app_nil_r.
      exact (signed_as_planned _ _ _ _ _ HP Hi Hsig).
Qed.

Lemma sendAsBundle_result p c txs sgs rt h o t :
  sendAsBundle p c txs sgs rt h = (Ok o, t) ->
  exists r, o = Some r /\ consistent r.
Proof.
  unfold sendAsBundle. intro H.
  apply bind_ok_inv in H. destruct H as (ser & t1 & t2 & _ & H & _).
  apply bind_ok_inv in H. destruct H as (ep & t3 & t4 & _ & H & _).
  apply bind_ok_inv in H. destruct H as (response & t5 & t6 & _ & H & _).
  apply bind_ok_inv in H. destruct H as (err & t7 & t8 & _ & H & _).
  destruct (truthy_opt err).
  - apply bind_ok_inv in H. destruct H as (m & t9 & t10 & _ & H & _).
    apply ret_inv in H. destruct H as [F _]. inversion F.
    eexists. split; [reflexivity |]. unfold consistent. cbn.
    repeat split. discriminate.
  - apply bind_ok_inv in H. destruct H as (res & t9 & t10 & _ & H & _).
    apply ret_inv in H. destruct H as [F _]. inversion F.
    eexists. split; [reflexivity |]. reflexivity.
Qed.

(** [createAndBuy] never returns without a result, and the result it returns
    agrees with its own success flag: a successful one carries no error; a
    failed one carries an error and neither signature nor transaction
    details. *)
Theorem createAndBuy_result_is_consistent p rt h o t :
  createAndBuy p rt h = (Ok o, t) ->
  exists r, o = Some r /\ consistent r.
Proof.
  unfold createAndBuy. intro H.
  apply bind_ok_inv in H. destruct H as ([txs sgs] & t1 & t2 & E1 & H & _).
  unfold submit in H.
  destruct (enabled (CreateAndBuyParams.jitoConfig p)) as [c |].
  - exact (sendAsBundle_result _ _ _ _ _ _ _ _ H).
  - unfold sendSequentially in H.
    destruct (plan_lengths _ _ _ _ _ _ E1) as (Hlen & _ & _).
    destruct o as [r |].
    + exists r. split; [reflexivity |].
      apply (sendAll_consistent _ _ _ _ _ _ _ _ _ _ H).
      intros r' F. discriminate F.
    + exfalso. apply (sendAll_some _ _ _ _ _ _ _ _ _ _ H); [| reflexivity].
      left. split; [reflexivity | lia].
Qed.

Lemma createAndBuy_result_is_consistent_witness :
  exists r, Some example_launch_result = Some r /\ consistent r.
Proof.
  apply (createAndBuy_result_is_consistent
           Scenario.three Scenario.all_good []
           (Some example_launch_result) (snd example_launch)).
  vm_compute. reflexivity.
Defined.

(** *** [buy] *)

Lemma getBuyInstructionsBySolAmount_quiet buyer mint amount slippage commitment :
  emits no_submission
        (getBuyInstructionsBySolAmount buyer mint amount slippage commitment).
Proof.
  unfold getBuyInstructionsBySolAmount, getBondingCurveAccount. quiet.
Qed.

Lemma buys_of_app (a b : Transaction) :
  buys_of (a ++ b) = buys_of a ++ buys_of b.
Proof. unfold buys_of. apply flat_map_app. Qed.

Lemma buys_of_fees fees : buys_of (fee_instructions fees) = [].
Proof. now destruct fees. Qed.

Lemma buys_of_buy_instructions buyer mint recipient amount solAmount lookup :
  buys_of (buy_instructions buyer mint recipient amount solAmount lookup)
  = [(buyer, solAmount)].
Proof.
  unfold buy_instructions. now destruct (lookup_throws lookup).
Qed.

Lemma spend_magnitude (amount basisPoints : Z) :
  0 <= amount -> 0 <= basisPoints ->
  Z.abs (calculateWithSlippageBuy amount basisPoints)
  = calculateWithSlippageBuy amount basisPoints.
Proof.
  intros Ha Hb. apply Z.abs_eq. unfold calculateWithSlippageBuy.
  pose proof (Z.quot_pos (amount * basisPoints) 10000). nia.
Qed.

(** [buy] hands over at most one transaction: to the relay when the relay is
    enabled, to the node otherwise, never to both. The transaction is paid
    and signed by the buyer alone, and holds exactly one buy instruction: by
    the buyer, whose maximum spend is the magnitude, below 2^64, of the
    amount raised by the slippage (500 basis points when none is given);
    for a non-negative amount and slippage that is the raised amount itself.
    Nothing is handed over when the instructions cannot be built. *)
Theorem buy_hands_over_one_transaction b rt h out t :
  buy b rt h = (out, t) ->
  (option_map jitoEnabled (BuyParams.jitoConfig b) = Some true ->
   sent_transactions t = []) /\
  (option_map jitoEnabled (BuyParams.jitoConfig b) <> Some true ->
   sent_bundles t = []) /\
  (handed_over t = [] \/
   exists v,
     handed_over t = [v] /\
     payerKey v = publicKey (BuyParams.buyer b) /\
     signatures v = [publicKey (BuyParams.buyer b)] /\
     buys_of (instructions v)
     = [(publicKey (BuyParams.buyer b),
         Z.abs (calculateWithSlippageBuy (BuyParams.buyAmountSol b)
                  (match BuyParams.slippageBasisPoints b with
                   | Some s => s
                   | None => 500
                   end)))] /\
     Z.abs (calculateWithSlippageBuy (BuyParams.buyAmountSol b)
              (match BuyParams.slippageBasisPoints b with
               | Some s => s
               | None => 500
               end)) < 2 ^ 64 /\
     (0 <= BuyParams.buyAmountSol b ->
      0 <= match BuyParams.slippageBasisPoints b with
           | Some s => s
           | None => 500
           end ->
      Z.abs (calculateWithSlippageBuy (BuyParams.buyAmountSol b)
               (match BuyParams.slippageBasisPoints b with
                | Some s => s
                | None => 500
                end))
      = calculateWithSlippageBuy (BuyParams.buyAmountSol b)
          (match BuyParams.slippageBasisPoints b with
           | Some s => s
           | None => 500
           end))) /\
  (forall e tp,
      getBuyInstructionsBySolAmount
        (publicKey (BuyParams.buyer b)) (BuyParams.mint b)
        (BuyParams.buyAmountSol b)
        (Some (match BuyParams.slippageBasisPoints b with
               | Some s => s
               | None => 500
               end))
        (Some (match BuyParams.commitment b with
               | Some c => c
               | None => DEFAULT_COMMITMENT
               end)) rt h = (Throw e, tp) ->
      out = Throw e /\ handed_over t = []).
Proof.
  unfold buy. cbv zeta. intro H.
  apply bind_inv in H.
  destruct H as [[e [E ->]] | (buyTx & t1 & t2 & E1 & H & ->)].
  { pose proof (emits_run _ _ _ _ _ _
                  (getBuyInstructionsBySolAmount_quiet _ _ _ _ _) E) as Hq.
    destruct (quiet_sends_nothing _ Hq) as [Hs Hb].
    unfold handed_over. rewrite Hs, Hb. cbn [flat_map app].
    split; [reflexivity |]. split; [reflexivity |]. split; [now left |].
    intros e1 tp F. rewrite E in F. inversion F. split; reflexivity. }
  pose proof (emits_run _ _ _ _ _ _
                (getBuyInstructionsBySolAmount_quiet _ _ _ _ _) E1) as Hq.
  destruct (quiet_sends_nothing _ Hq) as [Hs1 Hb1].
  unfold handed_over.
  rewrite sent_transactions_app, sent_bundles_app, Hs1, Hb1. cbn [app].
  apply BuilderFacts.getBuyInstructionsBySolAmount_ok in E1 as Hshape.
  destruct Hshape as (g & amount & h' & Hamt & Hfit & ->).
  assert (forall e tp,
             getBuyInstructionsBySolAmount
               (publicKey (BuyParams.buyer b)) (BuyParams.mint b)
               (BuyParams.buyAmountSol b)
               (Some (match BuyParams.slippageBasisPoints b with
                      | Some s => s
                      | None => 500
                      end))
               (Some (match BuyParams.commitment b with
                      | Some c => c
                      | None => DEFAULT_COMMITMENT
                      end)) rt h = (Throw e, tp) ->
             False) as Hno.
  { intros e tp F. rewrite E1 in F. discriminate F. }
  destruct (option_map jitoEnabled (BuyParams.jitoConfig b)) as [[|] |] eqn:Hj.
  - apply sendTx_relay_sent in H.
    destruct H as [Hs [Hb | (ep & account & blk & Hb & _)]]; rewrite Hs, Hb.
    + cbn [flat_map app]. split; [reflexivity |]. split; [reflexivity |].
      split; [now left | intros e tp F; destruct (Hno e tp F)].
    + cbn [flat_map app snd]. split; [reflexivity |].
      split; [intro F; now contradiction F |].
      split; [| intros e tp F; destruct (Hno e tp F)].
      right. eexists. split; [reflexivity |].
      cbn [signed_transaction payerKey signatures instructions map].
      split; [reflexivity |]. split; [reflexivity |].
      split; [| split; [exact Hfit | apply spend_magnitude]].
      rewrite !buys_of_app, buys_of_fees, buys_of_buy_instructions.
      reflexivity.
  - change (sendTx
              (buy_instructions (publicKey (BuyParams.buyer b))
                 (BuyParams.mint b) (feeRecipient g) amount
                 (Z.abs (calculateWithSlippageBuy (BuyParams.buyAmountSol b)
                           (match BuyParams.slippageBasisPoints b with
                            | Some s => s
                            | None => 500
                            end)))
                 (holding_lookup (publicKey (BuyParams.buyer b))
                    (BuyParams.mint b) None rt h'))
              (publicKey (BuyParams.buyer b)) [BuyParams.buyer b]
              (BuyParams.priorityFees b)
              (Some (match BuyParams.commitment b with
                     | Some c => c
                     | None => DEFAULT_COMMITMENT
                     end))
              (Some (match BuyParams.finality b with
                     | Some f => f
                     | None => DEFAULT_FINALITY
                     end))
              None
              (match BuyParams.jitoConfig b with
               | Some c => tipLampports c
               | None => None
               end)
              (match BuyParams.jitoConfig b with
               | Some c => endpoint c
               | None => None
               end) rt (h ++ t1) = (out, t2)) in H.
    apply sendTx_direct_sent in H.
    destruct H as [Hb [(e & _ & Hs) | (blk & Hs)]]; rewrite Hs, Hb.
    + cbn [flat_map app]. split; [reflexivity |]. split; [reflexivity |].
      split; [now left | intros e1 tp F; destruct (Hno e1 tp F)].
    + cbn [flat_map app]. split; [discriminate |].
      split; [reflexivity |].
      split; [| intros e tp F; destruct (Hno e tp F)].
      right. eexists. split; [reflexivity |].
      cbn [signed_transaction payerKey signatures instructions map].
      split; [reflexivity |]. split; [reflexivity |].
      split; [| split; [exact Hfit | apply spend_magnitude]].
      rewrite !buys_of_app, buys_of_fees, buys_of_buy_instructions.
      reflexivity.
  - apply sendTx_direct_sent in H.
    destruct H as [Hb [(e & _ & Hs) | (blk & Hs)]]; rewrite Hs, Hb.
    + cbn [flat_map app]. split; [reflexivity |]. split; [reflexivity |].
      split; [now left | intros e1 tp F; destruct (Hno e1 tp F)].
    + cbn [flat_map app]. split; [discriminate |].
      split; [reflexivity |].
      split; [| intros e tp F; destruct (Hno e tp F)].
      right. eexists. split; [reflexivity |].
      cbn [signed_transaction payerKey signatures instructions map].
      split; [reflexivity |]. split; [reflexivity |].
      split; [| split; [exact Hfit | apply spend_magnitude]].
      rewrite !buys_of_app, buys_of_fees, buys_of_buy_instructions.
      reflexivity.
Qed.

(** *** The contents of the plan *)

Lemma transfers_of_app (a b : Transaction) :
  transfers_of (a ++ b) = transfers_of a ++ transfers_of b.
Proof. unfold transfers_of. apply flat_map_app. Qed.

Lemma transfers_of_buy_instructions buyer mint recipient amount solAmount lookup :
  transfers_of (buy_instructions buyer mint recipient amount solAmount lookup)
  = [].
Proof.
  unfold buy_instructions. now destruct (lookup_throws lookup).
Qed.

Lemma parts_contents p g :
  forall batch parts,
    Forall2 (fun buy part =>
               buy_shape p g (publicKey (signer buy)) (amountInSol buy) part)
            batch parts ->
    buys_of (List.concat parts) = map (requested_buy p) batch /\
    transfers_of (List.concat parts) = [].
Proof.
  induction 1
    as [| b part batch parts (amount & lookup & _ & _ & ->) _ [IHb IHt]].
  - split; reflexivity.
  - cbn [List.concat map].
    rewrite buys_of_app, transfers_of_app, IHb, IHt.
    rewrite buys_of_buy_instructions, transfers_of_buy_instructions.
    split; reflexivity.
Qed.

Lemma parts_fit p g :
  forall batch parts,
    Forall2 (fun buy part =>
               buy_shape p g (publicKey (signer buy)) (amountInSol buy) part)
            batch parts ->
    Forall (fun b => max_spend p (amountInSol b) < 2 ^ 64) batch.
Proof.
  induction 1 as [| b part batch parts (amount & lookup & _ & Hfit & _) _ IH].
  - constructor.
  - constructor; [exact Hfit | exact IH].
Qed.

Lemma shapes_fit p :
  forall batches secondary,
    Forall2 (batch_shape p) batches secondary ->
    Forall (fun b => max_spend p (amountInSol b) < 2 ^ 64)
           (List.concat batches).
Proof.
  induction 1 as [| b tx bs txs (g & tip & parts & _ & _ & Hparts) _ IH].
  - constructor.
  - cbn [List.concat]. apply Forall_app. split; [| exact IH].
    exact (parts_fit _ _ _ _ Hparts).
Qed.

Lemma first_shape_fits p tx :
  first_shape p tx ->
  0 < CreateAndBuyParams.buyAmountSol p ->
  max_spend p (CreateAndBuyParams.buyAmountSol p) < 2 ^ 64.
Proof.
  intros (tip & create & _ & _ & H) Hpos.
  apply Z.ltb_lt in Hpos. rewrite Hpos in H.
  destruct H as (g & part & (amount & lookup & _ & Hfit & _) & _).
  exact Hfit.
Qed.

Lemma tip_shape_contents p payer tip :
  tip_shape p payer tip ->
  buys_of tip = [] /\
  transfers_of tip
  = match enabled (CreateAndBuyParams.jitoConfig p) with
    | Some c => [(payer, tip_of c)]
    | None => []
    end.
Proof.
  unfold tip_shape.
  destruct (enabled (CreateAndBuyParams.jitoConfig p)) as [c |].
  - intros (account & _ & ->). split; reflexivity.
  - intros ->. split; reflexivity.
Qed.

Lemma batch_shape_contents p batch tx :
  (1 <= List.length batch)%nat ->
  batch_shape p batch tx ->
  buys_of tx = map (requested_buy p) batch /\
  exists first rest,
    batch = first :: rest /\
    transfers_of tx
    = match enabled (CreateAndBuyParams.jitoConfig p) with
      | Some c => [(publicKey (signer first), tip_of c)]
      | None => []
      end.
Proof.
  intros Hlen (g & tip & parts & -> & Htip & Hparts).
  destruct (parts_contents _ _ _ _ Hparts) as [Hb Ht].
  destruct batch as [| first rest]; [cbn in Hlen; lia |].
  destruct (tip_shape_contents _ _ _ Htip) as [Hb0 Ht0].
  rewrite buys_of_app, transfers_of_app, Hb, Ht, Hb0, Ht0, app_nil_r.
  split; [reflexivity |]. exists first, rest. split; reflexivity.
Qed.

Lemma first_shape_contents p tx :
  first_shape p tx ->
  buys_of tx
  = (if 0 <? CreateAndBuyParams.buyAmountSol p
     then [(creator_key p, max_spend p (CreateAndBuyParams.buyAmountSol p))]
     else []) /\
  transfers_of tx
  = match enabled (CreateAndBuyParams.jitoConfig p) with
    | Some c => [(creator_key p, tip_of c)]
    | None => []
    end.
Proof.
  intros (tip & create & Htip & (uri & ->) & H).
  destruct (tip_shape_contents _ _ _ Htip) as [Hb0 Ht0].
  destruct (0 <? CreateAndBuyParams.buyAmountSol p).
  - destruct H as (g & part & (amount & lookup & _ & _ & ->) & ->).
    rewrite !buys_of_app, !transfers_of_app, Hb0, Ht0.
    rewrite buys_of_buy_instructions, transfers_of_buy_instructions.
    cbn [buys_of transfers_of flat_map app].
    rewrite app_nil_r. split; reflexivity.
  - subst tx. rewrite !buys_of_app, !transfers_of_app, Hb0, Ht0.
    cbn [buys_of transfers_of flat_map app].
    rewrite app_nil_r. split; reflexivity.
Qed.

Lemma shapes_buys p :
  forall batches secondary,
    Forall (fun b => (1 <= List.length b <= MAX_BUNDLED_BUYS_PER_TX)%nat)
           batches ->
    Forall2 (batch_shape p) batches secondary ->
    flat_map buys_of secondary
    = map (requested_buy p) (List.concat batches).
Proof.
  intros batches secondary Hsz H. induction H as [| b tx bs txs Hb _ IH].
  - reflexivity.
  - inversion Hsz as [| ? ? [H1 _] Hrest]; subst.
    destruct (batch_shape_contents _ _ _ H1 Hb) as [Hbuys _].
    cbn [flat_map List.concat]. rewrite map_app, Hbuys, (IH Hrest).
    reflexivity.
Qed.


Lemma batches_of_bundled p :
  List.concat (batches_of (CreateAndBuyParams.bundledBuys p)) = bundled p.
Proof.
  unfold bundled. destruct (CreateAndBuyParams.bundledBuys p) as [buys |].
  - apply batches_of_concat.
  - reflexivity.
Qed.

(** Every bundled buy is planned exactly once and in request order: the buy
    instructions of the secondary transactions, read in order, are the
    bundled buys of the request, each issued for its own participant. The
    maximum spend an instruction carries is the magnitude of the
    participant's amount raised by the slippage; it is below 2^64 in every
    plan that is built, and it is the raised amount itself when the amount
    and the slippage are not negative. The first transaction holds the
    creator's buy alone, bounded the same way, when the creator's amount is
    positive, and no buy otherwise. *)
Theorem plan_places_every_buy_in_order p rt h txs sgs t :
  plan p rt h = (Ok (txs, sgs), t) ->
  buys_of (hd [] txs)
  = (if 0 <? CreateAndBuyParams.buyAmountSol p
     then [(creator_key p, max_spend p (CreateAndBuyParams.buyAmountSol p))]
     else []) /\
  flat_map buys_of (tl txs) = map (requested_buy p) (bundled p) /\
  (0 < CreateAndBuyParams.buyAmountSol p ->
   max_spend p (CreateAndBuyParams.buyAmountSol p) < 2 ^ 64) /\
  Forall (fun b => max_spend p (amountInSol b) < 2 ^ 64) (bundled p) /\
  (forall solIn,
      0 <= solIn -> 0 <= slippage_of p ->
      max_spend p solIn = calculateWithSlippageBuy solIn (slippage_of p)).
Proof.
  intro H. apply plan_ok in H.
  destruct H as (first & secondary & -> & _ & Hfirst & Hshape & _).
  cbn [hd tl]. split; [| split; [| split; [| split]]].
  - exact (proj1 (first_shape_contents _ _ Hfirst)).
  - rewrite (shapes_buys p _ _ (batches_of_sizes _) Hshape).
    now rewrite batches_of_bundled.
  - exact (first_shape_fits _ _ Hfirst).
  - rewrite <- batches_of_bundled. exact (shapes_fit p _ _ Hshape).
  - intros solIn Ha Hb. unfold max_spend. now apply spend_magnitude.
Qed.

Lemma plan_places_every_buy_in_order_witness :
  buys_of (hd [] (Scenario.planned_transactions Scenario.relayed
                    Scenario.all_good))
  = (if 0 <? CreateAndBuyParams.buyAmountSol Scenario.relayed
     then [(creator_key Scenario.relayed,
            max_spend Scenario.relayed
              (CreateAndBuyParams.buyAmountSol Scenario.relayed))]
     else []) /\
  flat_map buys_of (tl (Scenario.planned_transactions Scenario.relayed
                          Scenario.all_good))
  = map (requested_buy Scenario.relayed) (bundled Scenario.relayed) /\
  (0 < CreateAndBuyParams.buyAmountSol Scenario.relayed ->
   max_spend Scenario.relayed
     (CreateAndBuyParams.buyAmountSol Scenario.relayed) < 2 ^ 64) /\
  Forall (fun b => max_spend Scenario.relayed (amountInSol b) < 2 ^ 64)
         (bundled Scenario.relayed) /\
  (forall solIn,
      0 <= solIn -> 0 <= slippage_of Scenario.relayed ->
      max_spend Scenario.relayed solIn
      = calculateWithSlippageBuy solIn (slippage_of Scenario.relayed)).
Proof.
  apply (plan_places_every_buy_in_order Scenario.relayed Scenario.all_good []
           (Scenario.planned_transactions Scenario.relayed Scenario.all_good)
           (Scenario.planned_signers Scenario.relayed Scenario.all_good)
           (Scenario.planned_trace Scenario.relayed Scenario.all_good)).
  vm_compute. reflexivity.
Defined.



Lemma buy_hands_over_one_transaction_witness :
  handed_over (snd example_bought) = [] \/
  exists v,
    handed_over (snd example_bought) = [v] /\
    payerKey v = publicKey (BuyParams.buyer example_buy) /\
    signatures v = [publicKey (BuyParams.buyer example_buy)] /\
    buys_of (instructions v)
    = [(publicKey (BuyParams.buyer example_buy),
        Z.abs (calculateWithSlippageBuy
                 (BuyParams.buyAmountSol example_buy)
                 (match BuyParams.slippageBasisPoints example_buy with
                  | Some s => s
                  | None => 500
                  end)))] /\
    Z.abs (calculateWithSlippageBuy
             (BuyParams.buyAmountSol example_buy)
             (match BuyParams.slippageBasisPoints example_buy with
              | Some s => s
              | None => 500
              end)) < 2 ^ 64 /\
    (0 <= BuyParams.buyAmountSol example_buy ->
     0 <= match BuyParams.slippageBasisPoints example_buy with
          | Some s => s
          | None => 500
          end ->
     Z.abs (calculateWithSlippageBuy
              (BuyParams.buyAmountSol example_buy)
              (match BuyParams.slippageBasisPoints example_buy with
               | Some s => s
               | None => 500
               end))
     = calculateWithSlippageBuy
         (BuyParams.buyAmountSol example_buy)
         (match BuyParams.slippageBasisPoints example_buy with
          | Some s => s
          | None => 500
          end)).
Proof.
  apply (buy_hands_over_one_transaction example_buy Scenario.all_good []
           (fst example_bought) (snd example_bought)).
  apply surjective_pairing.
Defined.

(** *** A missing global account *)

Lemma getGlobalAccount_missing rt :
  (forall h c, answer rt (option Buffer) h (GetAccountInfo GlobalPDA c)
               = Ok None) ->
  forall commitment h g t,
    getGlobalAccount commitment rt h = (Ok g, t) -> False.
Proof.
  intros Hmissing commitment h g t H. unfold getGlobalAccount in H.
  apply bind_ok_inv in H. destruct H as (account & t1 & t2 & E & H & _).
  apply call_inv in E. destruct E as [E _]. rewrite Hmissing in E.
  inversion E; subst account.
  apply throw_inv in H. destruct H as [F _]. discriminate F.
Qed.

Lemma plan_needs_global p rt :
  (forall h c, answer rt (option Buffer) h (GetAccountInfo GlobalPDA c)
               = Ok None) ->
  0 < CreateAndBuyParams.buyAmountSol p
  \/ batches_of (CreateAndBuyParams.bundledBuys p) <> [] ->
  forall h x t, plan p rt h = (Ok x, t) -> False.
Proof.
  intros Hmissing Hneed h x t H. unfold plan in H.
  apply bind_ok_inv in H. destruct H as (meta & t1 & t2 & _ & H & _).
  apply bind_ok_inv in H. destruct H as (uri & t3 & t4 & _ & H & _).
  apply bind_ok_inv in H. destruct H as (first & t5 & t6 & Hf & H & _).
  destruct Hneed as [Hamount | Hbatches].
  - unfold firstTransaction in Hf. cbv zeta in Hf.
    apply bind_ok_inv in Hf. destruct Hf as (create & t11 & t12 & _ & Hf & _).
    apply bind_ok_inv in Hf. destruct Hf as (tip & t7 & t8 & _ & Hf & _).
    apply Z.ltb_lt in Hamount. rewrite Hamount in Hf.
    apply bind_ok_inv in Hf. destruct Hf as (g & t9 & t10 & Hg & _).
    exact (getGlobalAccount_missing rt Hmissing _ _ _ _ Hg).
  - destruct (batches_of (CreateAndBuyParams.bundledBuys p)) as [| batch rest];
      [now contradiction Hbatches |].
    cbn [processBatches] in H.
    apply bind_ok_inv in H. destruct H as (tx & t7 & t8 & Hb & _).
    unfold batchTransaction in Hb.
    apply bind_ok_inv in Hb. destruct Hb as (g & t9 & t10 & Hg & _).
    exact (getGlobalAccount_missing rt Hmissing _ _ _ _ Hg).
Qed.

(** When the global account of the program does not exist, a launch that
    needs a price (the creator buys, or there are bundled buys) throws and
    submits nothing, and so does [buy]: the missing account is not reported
    as a result. *)
Theorem missing_global_account_aborts p b rt h :
  (forall h' c, answer rt (option Buffer) h' (GetAccountInfo GlobalPDA c)
                = Ok None) ->
  0 < CreateAndBuyParams.buyAmountSol p
  \/ batches_of (CreateAndBuyParams.bundledBuys p) <> [] ->
  (exists e, fst (createAndBuy p rt h) = Throw e) /\
  handed_over (snd (createAndBuy p rt h)) = [] /\
  (exists e, fst (buy b rt h) = Throw e) /\
  handed_over (snd (buy b rt h)) = [].
Proof.
  intros Hmissing Hneed.
  assert ((exists e, fst (createAndBuy p rt h) = Throw e) /\
          handed_over (snd (createAndBuy p rt h)) = []) as [Hc1 Hc2].
  { destruct (createAndBuy p rt h) as [out t] eqn:H. cbn [fst snd].
    unfold createAndBuy in H. apply bind_inv in H.
    destruct H as [[e [E ->]] | (x & t1 & t2 & E1 & _)].
    - split; [eauto |].
      pose proof (emits_run _ _ _ _ _ _ (plan_quiet p) E) as Hq.
      destruct (quiet_sends_nothing _ Hq) as [Hs Hb].
      unfold handed_over. now rewrite Hs, Hb.
    - destruct (plan_needs_global p rt Hmissing Hneed _ _ _ E1). }
  split; [exact Hc1 |]. split; [exact Hc2 |].
  destruct (buy b rt h) as [out t] eqn:H. cbn [fst snd].
  unfold buy in H. cbv zeta in H. apply bind_inv in H.
  destruct H as [[e [E ->]] | (x & t1 & t2 & E1 & _)].
  - split; [eauto |].
    pose proof (emits_run _ _ _ _ _ _
                  (getBuyInstructionsBySolAmount_quiet _ _ _ _ _) E) as Hq.
    destruct (quiet_sends_nothing _ Hq) as [Hs Hb].
    unfold handed_over. now rewrite Hs, Hb.
  - exfalso. unfold getBuyInstructionsBySolAmount in E1. cbv zeta in E1.
    apply bind_ok_inv in E1. destruct E1 as (curve & t3 & t4 & _ & E1 & _).
    destruct curve as [curve |].
    2: { apply bind_ok_inv in E1. destruct E1 as (k & t5 & t6 & _ & E1 & _).
         apply throw_inv in E1. destruct E1 as [F _]. discriminate F. }
    apply bind_ok_inv in E1. destruct E1 as (amount & t5 & t6 & _ & E1 & _).
    apply bind_ok_inv in E1. destruct E1 as (g & t7 & t8 & Hg & _).
    exact (getGlobalAccount_missing rt Hmissing _ _ _ _ Hg).
Qed.

Lemma missing_global_account_aborts_witness :
  (exists e, fst (createAndBuy Scenario.relayed no_account []) = Throw e) /\
  handed_over (snd (createAndBuy Scenario.relayed no_account [])) = [] /\
  (exists e, fst (buy example_buy no_account []) = Throw e) /\
  handed_over (snd (buy example_buy no_account [])) = [].
Proof.
  apply (missing_global_account_aborts Scenario.relayed example_buy
           no_account []).
  - intros h' c. reflexivity.
  - left. reflexivity.
Defined.

(** *** Results of [sendTx] and [buy] *)

(** Whatever [sendTx] returns agrees with its own success flag: a successful
    result carries no error; a failed one carries an error and neither
    signature nor transaction details. *)
Theorem sendTx_result_is_consistent
        tx payer signers fees commitment finality jito tip ep rt h res t :
  sendTx tx payer signers fees commitment finality jito tip ep rt h
  = (Ok res, t) ->
  consistent res.
Proof.
  intro H. exact (sendTx_consistent _ _ _ _ _ _ _ _ _ _ _ _ _ H).
Qed.

Lemma sendTx_result_is_consistent_witness :
  consistent (Scenario.result_of example_relay_send).
Proof.
  apply (sendTx_result_is_consistent
           [] (Base58 "payer") [Scenario.keypair "payer"]
           None None None (Some true) (Some 0) (Some "https://relay.example"%string)
           Scenario.all_good []
           (Scenario.result_of example_relay_send) (snd example_relay_send)).
  vm_compute. reflexivity.
Defined.

(** [buy] returns the result of its [sendTx] unchanged, so its result agrees
    with its own success flag too; and when its instructions cannot be built
    it throws instead of returning a result. *)
Theorem buy_result_is_consistent b rt h out t :
  buy b rt h = (out, t) ->
  (forall res, out = Ok res -> consistent res) /\
  (forall e tp,
      getBuyInstructionsBySolAmount
        (publicKey (BuyParams.buyer b)) (BuyParams.mint b)
        (BuyParams.buyAmountSol b)
        (Some (match BuyParams.slippageBasisPoints b with
               | Some s => s
               | None => 500
               end))
        (Some (match BuyParams.commitment b with
               | Some c => c
               | None => DEFAULT_COMMITMENT
               end)) rt h = (Throw e, tp) ->
      out = Throw e /\ t = tp).
Proof.
  unfold buy. cbv zeta. intro H. apply bind_inv in H.
  destruct H as [[e [E ->]] | (buyTx & t1 & t2 & E1 & H & ->)].
  - split.
    + intros res F. discriminate F.
    + intros e1 tp F. rewrite E in F. inversion F. split; reflexivity.
  - split.
    + intros res ->. exact (sendTx_consistent _ _ _ _ _ _ _ _ _ _ _ _ _ H).
    + intros e1 tp F. rewrite E1 in F. discriminate F.
Qed.

Lemma buy_result_is_consistent_witness :
  consistent (Scenario.result_of example_bought).
Proof.
  refine (proj1 (buy_result_is_consistent example_buy Scenario.all_good []
                   (fst example_bought) (snd example_bought) _)
                (Scenario.result_of example_bought) _).
  - apply surjective_pairing.
  - vm_compute. reflexivity.
Defined.

End CoverageFacts.
